(** * Scanning NV magnetometry: the scan-acquisition engine

    A shallow embedding of [logic/scanning_magnetometry_logic.py]
    (class [MagnetometerLogic]) and the properties of it that the
    specification states.

    Conventions of the embedding.
    - Python [float]/numpy [float64] values are exact rationals ([Q]).
      Where numpy would produce [inf] or [nan] (a division of an array by
      zero, the mean of an empty array) the model raises [NanOrInf].
    - Python [int]s are [Z]; indices follow Python's rule for negative
      indices ([py_index]) and slices ([clamp_slice]).
    - A numpy array of one dimension is a [list Q], of two dimensions a list
      of rows, of three dimensions a list of rows of cells.
    - A method of the class is a function in the monad [M]: it threads the
      object's attributes ([self]) and either returns or raises; the
      attributes written before an exception stay written, as in Python.
    - Qt signals are recorded in [emitted]; those connected to a slot of the
      class itself with a queued connection are also put on [queue] and run
      by [dispatch].
    - Calls into collaborators (the confocal scanner, the ODMR logic, the
      microwave source, scipy's least squares) are parameters of the
      section [Logic]. *)

From Stdlib Require Import QArith Qround Qminmax Qabs ZArith Lia Lqa.
From stdpp Require Import base option list strings pretty.

Local Open Scope Q_scope.

(** ** Exceptions and results *)

Inductive exn :=
  | TypeError | IndexError | ValueError | ZeroDivisionError | NameError
  | NanOrInf | HardwareError.

Inductive result (A : Type) :=
  | Ok (a : A)
  | Raise (e : exn).
Arguments Ok {A} a.
Arguments Raise {A} e.

#[global] Instance result_ret : MRet result := @Ok.
#[global] Instance result_bind : MBind result := λ A B f m,
  match m with Ok a => f a | Raise e => Raise e end.

Definition is_ok {A} (r : result A) : bool :=
  match r with Ok _ => true | Raise _ => false end.

(** ** Python and numpy primitives *)

Definition Qlt_bool (a b : Q) : bool := negb (Qle_bool b a).

(** [a / b] on Python floats. *)
Definition py_div (a b : Q) : result Q :=
  if Qeq_bool b 0 then Raise ZeroDivisionError else Ok (a / b).

(** [np.rint]: round to the nearest integer, halves to the even one. *)
Definition rint (q : Q) : Z :=
  let f := Qfloor q in
  let r := q - inject_Z f in
  if Qlt_bool r 0.5 then f
  else if Qlt_bool 0.5 r then (f + 1)%Z
  else if Z.even f then f else (f + 1)%Z.

(** [l[i]] for a Python int [i]: negative indices count from the end. *)
Definition py_index (n : nat) (i : Z) : result nat :=
  if bool_decide (0 ≤ i < Z.of_nat n)%Z then Ok (Z.to_nat i)
  else if bool_decide (- Z.of_nat n ≤ i < 0)%Z then Ok (Z.to_nat (Z.of_nat n + i))
  else Raise IndexError.

Definition getitem {A} (l : list A) (i : Z) : result A :=
  k ← py_index (length l) i;
  from_option Ok (Raise IndexError) (l !! k).

(** A bound of a slice [l[a:b]], normalised as Python does. *)
Definition clamp_slice (n : nat) (i : Z) : nat :=
  let j := if bool_decide (i < 0)%Z then (i + Z.of_nat n)%Z else i in
  Z.to_nat (Z.max 0 (Z.min (Z.of_nat n) j)).

(** The indices selected by [l[a:b]]. *)
Definition slice_indices (n : nat) (a b : Z) : list nat :=
  seq (clamp_slice n a) (clamp_slice n b - clamp_slice n a).

Definition py_slice {A} (l : list A) (a b : Z) : list A :=
  omap (λ k, l !! k) (slice_indices (length l) a b).

Definition Qsum (l : list Q) : Q := foldr Qplus 0 l.

(** [np.mean] of a one-dimensional array. *)
Definition np_mean (l : list Q) : result Q :=
  match l with
  | [] => Raise NanOrInf
  | _ => Ok (Qsum l / inject_Z (Z.of_nat (length l)))
  end.

(** [np.argmin]: the first index of the least element. *)
Fixpoint argmin_from (best : Q) (ibest i : nat) (l : list Q) : nat :=
  match l with
  | [] => ibest
  | x :: l' =>
      if Qlt_bool x best then argmin_from x i (S i) l'
      else argmin_from best ibest (S i) l'
  end.

Definition np_argmin (l : list Q) : result nat :=
  match l with
  | [] => Raise ValueError
  | x :: l' => Ok (argmin_from x 0%nat 1%nat l')
  end.

(** [np.linspace(a, b, num)]; the last sample is [b] itself. *)
Definition linspace (a b : Q) (num : Z) : result (list Q) :=
  if bool_decide (num < 0)%Z then Raise ValueError
  else match Z.to_nat num with
       | O => Ok []
       | 1%nat => Ok [a]
       | S n =>
           let step := (b - a) / inject_Z (Z.of_nat n) in
           Ok (fmap (λ i, inject_Z (Z.of_nat i) * step + a) (seq 0 n) ++ [b])
       end.

(** [np.arange(a, b, step)]. *)
Definition arange (a b step : Q) : result (list Q) :=
  if Qeq_bool step 0 then Raise ValueError
  else
    let n := Z.to_nat (Qceiling ((b - a) / step)) in
    Ok (fmap (λ i, a + inject_Z (Z.of_nat i) * step) (seq 0 n)).

(** Broadcasting of one-dimensional operands: equal lengths, or one of
    them of length one. *)
Definition broadcast2 (f : Q → Q → Q) (a b : list Q) : result (list Q) :=
  if bool_decide (length a = length b) then Ok (zip_with f a b)
  else match a, b with
       | [x], _ => Ok (fmap (f x) b)
       | _, [y] => Ok (fmap (λ x, f x y) a)
       | _, _ => Raise ValueError
       end.

(** The value assigned to a slice of [n] places: of length [n], or of
    length one and repeated. *)
Definition broadcast_to (n : nat) (v : list Q) : result (list Q) :=
  if bool_decide (length v = n) then Ok v
  else match v with
       | [x] => Ok (replicate n x)
       | _ => Raise ValueError
       end.

Abbreviation arr1 := (list Q).
Abbreviation arr2 := (list (list Q)).
Abbreviation arr3 := (list (list (list Q))).

(** What is passed from the acquisition to the data treatment: [None], a
    one-dimensional array ([np.zeros(1)]) or a two-dimensional one. *)
Inductive pydata :=
  | PyNone
  | Arr1 (a : arr1)
  | Arr2 (a : arr2).

(** [data[i]] where [data] is [None] or a two-dimensional array. *)
Definition data_row (d : option arr2) (i : Z) : result arr1 :=
  match d with
  | None => Raise TypeError
  | Some a => getitem a i
  end.

(** [data[:, j]]: a column. The empty list stands for an array of shape
    (0, 0). *)
Definition data_col (d : option arr2) (j : Z) : result arr1 :=
  match d with
  | None => Raise TypeError
  | Some [] => Raise IndexError
  | Some a => mapM (M := result) (λ row, getitem row j) a
  end.

(** [data_isob[i][j]]; indexing the scalar [data_isob[i]] of a
    one-dimensional array raises. *)
Definition data_at (d : pydata) (i j : Z) : result Q :=
  match d with
  | PyNone => Raise TypeError
  | Arr1 a => _ ← getitem a i; Raise IndexError
  | Arr2 a => row ← getitem a i; getitem row j
  end.

(** ** The attributes of [MagnetometerLogic] *)

Inductive module_state_t := idle | locked.

#[global] Instance module_state_eq_dec : EqDecision module_state_t.
Proof. solve_decision. Defined.

(** The value of an entry of the dictionary sent with [sigParamUpdated]. *)
Inductive pvalue :=
  | VNum (q : Q)
  | VInt (z : Z)
  | VList (l : list Q).

Inductive signal :=
  | sigNextLine
  | sigParamUpdated (d : list (string * pvalue))
  | sigPlotsUpdated
  | sigStopScan (end_ : bool)
  | sigUpdateDuration (d : Q)
  | sigUpdateRemTime (d : Q)
  | sigScanPixelOver (data : option arr2) (data_isob : pydata)
  | sigFinishedDataTreatment.

(** The attributes of the ODMR logic that the class reads and writes. *)
Record odmr_logic := {
  o_mw_start : Q;
  o_mw_stop : Q;
  o_mw_step : Q;
  o_clock_frequency : Q;
}.

Record self_t := {
  module_state : module_state_t;
  meas_mode : string;
  scan_mode : string;
  incr : Z;
  image_size : nat;
  scanline_size : nat;
  line_number : Z;
  number_sweeps : Z;
  resolution : Z * Z;
  range : list Q * list Q;
  center_position : Q * Q;
  current_position : Q * Q;
  return_slowness : Q;
  clock_frequency : Q;
  z_scanner_range : Q;
  coeff_topo : Q;
  mw_start : Q;
  mw_stop : Q;
  mw_step : Q;
  mw_step_hf : Q;
  min_fullb : Q;
  max_fullb : Q;
  threshold : Q;
  resonance_frequency : Q;
  freq1 : Q;
  freq2 : Q;
  _odmr_logic : odmr_logic;
  pl_image : arr3;
  topo_corr : arr2;
  _X : arr1;
  _Y : arr1;
  _return_X : arr1;
  _return_Y : arr1;
  freq_list : arr1;
  line_position : Z * Z;
  stopRequested : bool;
  duration : Q;
  hw_calls : nat;
  queue : list signal;
  emitted : list signal;
}.

(** Attribute assignment, [self.f = v], one function per attribute that
    the modelled methods assign. *)

Definition with_module_state v (s : self_t) : self_t :=
  {| module_state := v; meas_mode := meas_mode s; scan_mode := scan_mode s; incr := incr s; image_size := image_size s; scanline_size := scanline_size s; line_number := line_number s; number_sweeps := number_sweeps s; resolution := resolution s; range := range s; center_position := center_position s; current_position := current_position s; return_slowness := return_slowness s; clock_frequency := clock_frequency s; z_scanner_range := z_scanner_range s; coeff_topo := coeff_topo s; mw_start := mw_start s; mw_stop := mw_stop s; mw_step := mw_step s; mw_step_hf := mw_step_hf s; min_fullb := min_fullb s; max_fullb := max_fullb s; threshold := threshold s; resonance_frequency := resonance_frequency s; freq1 := freq1 s; freq2 := freq2 s; _odmr_logic := _odmr_logic s; pl_image := pl_image s; topo_corr := topo_corr s; _X := _X s; _Y := _Y s; _return_X := _return_X s; _return_Y := _return_Y s; freq_list := freq_list s; line_position := line_position s; stopRequested := stopRequested s; duration := duration s; hw_calls := hw_calls s; queue := queue s; emitted := emitted s |}.

Definition with_meas_mode v (s : self_t) : self_t :=
  {| module_state := module_state s; meas_mode := v; scan_mode := scan_mode s; incr := incr s; image_size := image_size s; scanline_size := scanline_size s; line_number := line_number s; number_sweeps := number_sweeps s; resolution := resolution s; range := range s; center_position := center_position s; current_position := current_position s; return_slowness := return_slowness s; clock_frequency := clock_frequency s; z_scanner_range := z_scanner_range s; coeff_topo := coeff_topo s; mw_start := mw_start s; mw_stop := mw_stop s; mw_step := mw_step s; mw_step_hf := mw_step_hf s; min_fullb := min_fullb s; max_fullb := max_fullb s; threshold := threshold s; resonance_frequency := resonance_frequency s; freq1 := freq1 s; freq2 := freq2 s; _odmr_logic := _odmr_logic s; pl_image := pl_image s; topo_corr := topo_corr s; _X := _X s; _Y := _Y s; _return_X := _return_X s; _return_Y := _return_Y s; freq_list := freq_list s; line_position := line_position s; stopRequested := stopRequested s; duration := duration s; hw_calls := hw_calls s; queue := queue s; emitted := emitted s |}.

Definition with_incr v (s : self_t) : self_t :=
  {| module_state := module_state s; meas_mode := meas_mode s; scan_mode := scan_mode s; incr := v; image_size := image_size s; scanline_size := scanline_size s; line_number := line_number s; number_sweeps := number_sweeps s; resolution := resolution s; range := range s; center_position := center_position s; current_position := current_position s; return_slowness := return_slowness s; clock_frequency := clock_frequency s; z_scanner_range := z_scanner_range s; coeff_topo := coeff_topo s; mw_start := mw_start s; mw_stop := mw_stop s; mw_step := mw_step s; mw_step_hf := mw_step_hf s; min_fullb := min_fullb s; max_fullb := max_fullb s; threshold := threshold s; resonance_frequency := resonance_frequency s; freq1 := freq1 s; freq2 := freq2 s; _odmr_logic := _odmr_logic s; pl_image := pl_image s; topo_corr := topo_corr s; _X := _X s; _Y := _Y s; _return_X := _return_X s; _return_Y := _return_Y s; freq_list := freq_list s; line_position := line_position s; stopRequested := stopRequested s; duration := duration s; hw_calls := hw_calls s; queue := queue s; emitted := emitted s |}.

Definition with_image_size v (s : self_t) : self_t :=
  {| module_state := module_state s; meas_mode := meas_mode s; scan_mode := scan_mode s; incr := incr s; image_size := v; scanline_size := scanline_size s; line_number := line_number s; number_sweeps := number_sweeps s; resolution := resolution s; range := range s; center_position := center_position s; current_position := current_position s; return_slowness := return_slowness s; clock_frequency := clock_frequency s; z_scanner_range := z_scanner_range s; coeff_topo := coeff_topo s; mw_start := mw_start s; mw_stop := mw_stop s; mw_step := mw_step s; mw_step_hf := mw_step_hf s; min_fullb := min_fullb s; max_fullb := max_fullb s; threshold := threshold s; resonance_frequency := resonance_frequency s; freq1 := freq1 s; freq2 := freq2 s; _odmr_logic := _odmr_logic s; pl_image := pl_image s; topo_corr := topo_corr s; _X := _X s; _Y := _Y s; _return_X := _return_X s; _return_Y := _return_Y s; freq_list := freq_list s; line_position := line_position s; stopRequested := stopRequested s; duration := duration s; hw_calls := hw_calls s; queue := queue s; emitted := emitted s |}.

Definition with_scanline_size v (s : self_t) : self_t :=
  {| module_state := module_state s; meas_mode := meas_mode s; scan_mode := scan_mode s; incr := incr s; image_size := image_size s; scanline_size := v; line_number := line_number s; number_sweeps := number_sweeps s; resolution := resolution s; range := range s; center_position := center_position s; current_position := current_position s; return_slowness := return_slowness s; clock_frequency := clock_frequency s; z_scanner_range := z_scanner_range s; coeff_topo := coeff_topo s; mw_start := mw_start s; mw_stop := mw_stop s; mw_step := mw_step s; mw_step_hf := mw_step_hf s; min_fullb := min_fullb s; max_fullb := max_fullb s; threshold := threshold s; resonance_frequency := resonance_frequency s; freq1 := freq1 s; freq2 := freq2 s; _odmr_logic := _odmr_logic s; pl_image := pl_image s; topo_corr := topo_corr s; _X := _X s; _Y := _Y s; _return_X := _return_X s; _return_Y := _return_Y s; freq_list := freq_list s; line_position := line_position s; stopRequested := stopRequested s; duration := duration s; hw_calls := hw_calls s; queue := queue s; emitted := emitted s |}.

Definition with_line_number v (s : self_t) : self_t :=
  {| module_state := module_state s; meas_mode := meas_mode s; scan_mode := scan_mode s; incr := incr s; image_size := image_size s; scanline_size := scanline_size s; line_number := v; number_sweeps := number_sweeps s; resolution := resolution s; range := range s; center_position := center_position s; current_position := current_position s; return_slowness := return_slowness s; clock_frequency := clock_frequency s; z_scanner_range := z_scanner_range s; coeff_topo := coeff_topo s; mw_start := mw_start s; mw_stop := mw_stop s; mw_step := mw_step s; mw_step_hf := mw_step_hf s; min_fullb := min_fullb s; max_fullb := max_fullb s; threshold := threshold s; resonance_frequency := resonance_frequency s; freq1 := freq1 s; freq2 := freq2 s; _odmr_logic := _odmr_logic s; pl_image := pl_image s; topo_corr := topo_corr s; _X := _X s; _Y := _Y s; _return_X := _return_X s; _return_Y := _return_Y s; freq_list := freq_list s; line_position := line_position s; stopRequested := stopRequested s; duration := duration s; hw_calls := hw_calls s; queue := queue s; emitted := emitted s |}.

Definition with_number_sweeps v (s : self_t) : self_t :=
  {| module_state := module_state s; meas_mode := meas_mode s; scan_mode := scan_mode s; incr := incr s; image_size := image_size s; scanline_size := scanline_size s; line_number := line_number s; number_sweeps := v; resolution := resolution s; range := range s; center_position := center_position s; current_position := current_position s; return_slowness := return_slowness s; clock_frequency := clock_frequency s; z_scanner_range := z_scanner_range s; coeff_topo := coeff_topo s; mw_start := mw_start s; mw_stop := mw_stop s; mw_step := mw_step s; mw_step_hf := mw_step_hf s; min_fullb := min_fullb s; max_fullb := max_fullb s; threshold := threshold s; resonance_frequency := resonance_frequency s; freq1 := freq1 s; freq2 := freq2 s; _odmr_logic := _odmr_logic s; pl_image := pl_image s; topo_corr := topo_corr s; _X := _X s; _Y := _Y s; _return_X := _return_X s; _return_Y := _return_Y s; freq_list := freq_list s; line_position := line_position s; stopRequested := stopRequested s; duration := duration s; hw_calls := hw_calls s; queue := queue s; emitted := emitted s |}.

Definition with_resolution v (s : self_t) : self_t :=
  {| module_state := module_state s; meas_mode := meas_mode s; scan_mode := scan_mode s; incr := incr s; image_size := image_size s; scanline_size := scanline_size s; line_number := line_number s; number_sweeps := number_sweeps s; resolution := v; range := range s; center_position := center_position s; current_position := current_position s; return_slowness := return_slowness s; clock_frequency := clock_frequency s; z_scanner_range := z_scanner_range s; coeff_topo := coeff_topo s; mw_start := mw_start s; mw_stop := mw_stop s; mw_step := mw_step s; mw_step_hf := mw_step_hf s; min_fullb := min_fullb s; max_fullb := max_fullb s; threshold := threshold s; resonance_frequency := resonance_frequency s; freq1 := freq1 s; freq2 := freq2 s; _odmr_logic := _odmr_logic s; pl_image := pl_image s; topo_corr := topo_corr s; _X := _X s; _Y := _Y s; _return_X := _return_X s; _return_Y := _return_Y s; freq_list := freq_list s; line_position := line_position s; stopRequested := stopRequested s; duration := duration s; hw_calls := hw_calls s; queue := queue s; emitted := emitted s |}.

Definition with_range v (s : self_t) : self_t :=
  {| module_state := module_state s; meas_mode := meas_mode s; scan_mode := scan_mode s; incr := incr s; image_size := image_size s; scanline_size := scanline_size s; line_number := line_number s; number_sweeps := number_sweeps s; resolution := resolution s; range := v; center_position := center_position s; current_position := current_position s; return_slowness := return_slowness s; clock_frequency := clock_frequency s; z_scanner_range := z_scanner_range s; coeff_topo := coeff_topo s; mw_start := mw_start s; mw_stop := mw_stop s; mw_step := mw_step s; mw_step_hf := mw_step_hf s; min_fullb := min_fullb s; max_fullb := max_fullb s; threshold := threshold s; resonance_frequency := resonance_frequency s; freq1 := freq1 s; freq2 := freq2 s; _odmr_logic := _odmr_logic s; pl_image := pl_image s; topo_corr := topo_corr s; _X := _X s; _Y := _Y s; _return_X := _return_X s; _return_Y := _return_Y s; freq_list := freq_list s; line_position := line_position s; stopRequested := stopRequested s; duration := duration s; hw_calls := hw_calls s; queue := queue s; emitted := emitted s |}.

Definition with_current_position v (s : self_t) : self_t :=
  {| module_state := module_state s; meas_mode := meas_mode s; scan_mode := scan_mode s; incr := incr s; image_size := image_size s; scanline_size := scanline_size s; line_number := line_number s; number_sweeps := number_sweeps s; resolution := resolution s; range := range s; center_position := center_position s; current_position := v; return_slowness := return_slowness s; clock_frequency := clock_frequency s; z_scanner_range := z_scanner_range s; coeff_topo := coeff_topo s; mw_start := mw_start s; mw_stop := mw_stop s; mw_step := mw_step s; mw_step_hf := mw_step_hf s; min_fullb := min_fullb s; max_fullb := max_fullb s; threshold := threshold s; resonance_frequency := resonance_frequency s; freq1 := freq1 s; freq2 := freq2 s; _odmr_logic := _odmr_logic s; pl_image := pl_image s; topo_corr := topo_corr s; _X := _X s; _Y := _Y s; _return_X := _return_X s; _return_Y := _return_Y s; freq_list := freq_list s; line_position := line_position s; stopRequested := stopRequested s; duration := duration s; hw_calls := hw_calls s; queue := queue s; emitted := emitted s |}.

Definition with_return_slowness v (s : self_t) : self_t :=
  {| module_state := module_state s; meas_mode := meas_mode s; scan_mode := scan_mode s; incr := incr s; image_size := image_size s; scanline_size := scanline_size s; line_number := line_number s; number_sweeps := number_sweeps s; resolution := resolution s; range := range s; center_position := center_position s; current_position := current_position s; return_slowness := v; clock_frequency := clock_frequency s; z_scanner_range := z_scanner_range s; coeff_topo := coeff_topo s; mw_start := mw_start s; mw_stop := mw_stop s; mw_step := mw_step s; mw_step_hf := mw_step_hf s; min_fullb := min_fullb s; max_fullb := max_fullb s; threshold := threshold s; resonance_frequency := resonance_frequency s; freq1 := freq1 s; freq2 := freq2 s; _odmr_logic := _odmr_logic s; pl_image := pl_image s; topo_corr := topo_corr s; _X := _X s; _Y := _Y s; _return_X := _return_X s; _return_Y := _return_Y s; freq_list := freq_list s; line_position := line_position s; stopRequested := stopRequested s; duration := duration s; hw_calls := hw_calls s; queue := queue s; emitted := emitted s |}.

Definition with_clock_frequency v (s : self_t) : self_t :=
  {| module_state := module_state s; meas_mode := meas_mode s; scan_mode := scan_mode s; incr := incr s; image_size := image_size s; scanline_size := scanline_size s; line_number := line_number s; number_sweeps := number_sweeps s; resolution := resolution s; range := range s; center_position := center_position s; current_position := current_position s; return_slowness := return_slowness s; clock_frequency := v; z_scanner_range := z_scanner_range s; coeff_topo := coeff_topo s; mw_start := mw_start s; mw_stop := mw_stop s; mw_step := mw_step s; mw_step_hf := mw_step_hf s; min_fullb := min_fullb s; max_fullb := max_fullb s; threshold := threshold s; resonance_frequency := resonance_frequency s; freq1 := freq1 s; freq2 := freq2 s; _odmr_logic := _odmr_logic s; pl_image := pl_image s; topo_corr := topo_corr s; _X := _X s; _Y := _Y s; _return_X := _return_X s; _return_Y := _return_Y s; freq_list := freq_list s; line_position := line_position s; stopRequested := stopRequested s; duration := duration s; hw_calls := hw_calls s; queue := queue s; emitted := emitted s |}.

Definition with_mw_start v (s : self_t) : self_t :=
  {| module_state := module_state s; meas_mode := meas_mode s; scan_mode := scan_mode s; incr := incr s; image_size := image_size s; scanline_size := scanline_size s; line_number := line_number s; number_sweeps := number_sweeps s; resolution := resolution s; range := range s; center_position := center_position s; current_position := current_position s; return_slowness := return_slowness s; clock_frequency := clock_frequency s; z_scanner_range := z_scanner_range s; coeff_topo := coeff_topo s; mw_start := v; mw_stop := mw_stop s; mw_step := mw_step s; mw_step_hf := mw_step_hf s; min_fullb := min_fullb s; max_fullb := max_fullb s; threshold := threshold s; resonance_frequency := resonance_frequency s; freq1 := freq1 s; freq2 := freq2 s; _odmr_logic := _odmr_logic s; pl_image := pl_image s; topo_corr := topo_corr s; _X := _X s; _Y := _Y s; _return_X := _return_X s; _return_Y := _return_Y s; freq_list := freq_list s; line_position := line_position s; stopRequested := stopRequested s; duration := duration s; hw_calls := hw_calls s; queue := queue s; emitted := emitted s |}.

Definition with_mw_stop v (s : self_t) : self_t :=
  {| module_state := module_state s; meas_mode := meas_mode s; scan_mode := scan_mode s; incr := incr s; image_size := image_size s; scanline_size := scanline_size s; line_number := line_number s; number_sweeps := number_sweeps s; resolution := resolution s; range := range s; center_position := center_position s; current_position := current_position s; return_slowness := return_slowness s; clock_frequency := clock_frequency s; z_scanner_range := z_scanner_range s; coeff_topo := coeff_topo s; mw_start := mw_start s; mw_stop := v; mw_step := mw_step s; mw_step_hf := mw_step_hf s; min_fullb := min_fullb s; max_fullb := max_fullb s; threshold := threshold s; resonance_frequency := resonance_frequency s; freq1 := freq1 s; freq2 := freq2 s; _odmr_logic := _odmr_logic s; pl_image := pl_image s; topo_corr := topo_corr s; _X := _X s; _Y := _Y s; _return_X := _return_X s; _return_Y := _return_Y s; freq_list := freq_list s; line_position := line_position s; stopRequested := stopRequested s; duration := duration s; hw_calls := hw_calls s; queue := queue s; emitted := emitted s |}.

Definition with_mw_step v (s : self_t) : self_t :=
  {| module_state := module_state s; meas_mode := meas_mode s; scan_mode := scan_mode s; incr := incr s; image_size := image_size s; scanline_size := scanline_size s; line_number := line_number s; number_sweeps := number_sweeps s; resolution := resolution s; range := range s; center_position := center_position s; current_position := current_position s; return_slowness := return_slowness s; clock_frequency := clock_frequency s; z_scanner_range := z_scanner_range s; coeff_topo := coeff_topo s; mw_start := mw_start s; mw_stop := mw_stop s; mw_step := v; mw_step_hf := mw_step_hf s; min_fullb := min_fullb s; max_fullb := max_fullb s; threshold := threshold s; resonance_frequency := resonance_frequency s; freq1 := freq1 s; freq2 := freq2 s; _odmr_logic := _odmr_logic s; pl_image := pl_image s; topo_corr := topo_corr s; _X := _X s; _Y := _Y s; _return_X := _return_X s; _return_Y := _return_Y s; freq_list := freq_list s; line_position := line_position s; stopRequested := stopRequested s; duration := duration s; hw_calls := hw_calls s; queue := queue s; emitted := emitted s |}.

Definition with_mw_step_hf v (s : self_t) : self_t :=
  {| module_state := module_state s; meas_mode := meas_mode s; scan_mode := scan_mode s; incr := incr s; image_size := image_size s; scanline_size := scanline_size s; line_number := line_number s; number_sweeps := number_sweeps s; resolution := resolution s; range := range s; center_position := center_position s; current_position := current_position s; return_slowness := return_slowness s; clock_frequency := clock_frequency s; z_scanner_range := z_scanner_range s; coeff_topo := coeff_topo s; mw_start := mw_start s; mw_stop := mw_stop s; mw_step := mw_step s; mw_step_hf := v; min_fullb := min_fullb s; max_fullb := max_fullb s; threshold := threshold s; resonance_frequency := resonance_frequency s; freq1 := freq1 s; freq2 := freq2 s; _odmr_logic := _odmr_logic s; pl_image := pl_image s; topo_corr := topo_corr s; _X := _X s; _Y := _Y s; _return_X := _return_X s; _return_Y := _return_Y s; freq_list := freq_list s; line_position := line_position s; stopRequested := stopRequested s; duration := duration s; hw_calls := hw_calls s; queue := queue s; emitted := emitted s |}.

Definition with_min_fullb v (s : self_t) : self_t :=
  {| module_state := module_state s; meas_mode := meas_mode s; scan_mode := scan_mode s; incr := incr s; image_size := image_size s; scanline_size := scanline_size s; line_number := line_number s; number_sweeps := number_sweeps s; resolution := resolution s; range := range s; center_position := center_position s; current_position := current_position s; return_slowness := return_slowness s; clock_frequency := clock_frequency s; z_scanner_range := z_scanner_range s; coeff_topo := coeff_topo s; mw_start := mw_start s; mw_stop := mw_stop s; mw_step := mw_step s; mw_step_hf := mw_step_hf s; min_fullb := v; max_fullb := max_fullb s; threshold := threshold s; resonance_frequency := resonance_frequency s; freq1 := freq1 s; freq2 := freq2 s; _odmr_logic := _odmr_logic s; pl_image := pl_image s; topo_corr := topo_corr s; _X := _X s; _Y := _Y s; _return_X := _return_X s; _return_Y := _return_Y s; freq_list := freq_list s; line_position := line_position s; stopRequested := stopRequested s; duration := duration s; hw_calls := hw_calls s; queue := queue s; emitted := emitted s |}.

Definition with_max_fullb v (s : self_t) : self_t :=
  {| module_state := module_state s; meas_mode := meas_mode s; scan_mode := scan_mode s; incr := incr s; image_size := image_size s; scanline_size := scanline_size s; line_number := line_number s; number_sweeps := number_sweeps s; resolution := resolution s; range := range s; center_position := center_position s; current_position := current_position s; return_slowness := return_slowness s; clock_frequency := clock_frequency s; z_scanner_range := z_scanner_range s; coeff_topo := coeff_topo s; mw_start := mw_start s; mw_stop := mw_stop s; mw_step := mw_step s; mw_step_hf := mw_step_hf s; min_fullb := min_fullb s; max_fullb := v; threshold := threshold s; resonance_frequency := resonance_frequency s; freq1 := freq1 s; freq2 := freq2 s; _odmr_logic := _odmr_logic s; pl_image := pl_image s; topo_corr := topo_corr s; _X := _X s; _Y := _Y s; _return_X := _return_X s; _return_Y := _return_Y s; freq_list := freq_list s; line_position := line_position s; stopRequested := stopRequested s; duration := duration s; hw_calls := hw_calls s; queue := queue s; emitted := emitted s |}.

Definition with_threshold v (s : self_t) : self_t :=
  {| module_state := module_state s; meas_mode := meas_mode s; scan_mode := scan_mode s; incr := incr s; image_size := image_size s; scanline_size := scanline_size s; line_number := line_number s; number_sweeps := number_sweeps s; resolution := resolution s; range := range s; center_position := center_position s; current_position := current_position s; return_slowness := return_slowness s; clock_frequency := clock_frequency s; z_scanner_range := z_scanner_range s; coeff_topo := coeff_topo s; mw_start := mw_start s; mw_stop := mw_stop s; mw_step := mw_step s; mw_step_hf := mw_step_hf s; min_fullb := min_fullb s; max_fullb := max_fullb s; threshold := v; resonance_frequency := resonance_frequency s; freq1 := freq1 s; freq2 := freq2 s; _odmr_logic := _odmr_logic s; pl_image := pl_image s; topo_corr := topo_corr s; _X := _X s; _Y := _Y s; _return_X := _return_X s; _return_Y := _return_Y s; freq_list := freq_list s; line_position := line_position s; stopRequested := stopRequested s; duration := duration s; hw_calls := hw_calls s; queue := queue s; emitted := emitted s |}.

Definition with_freq1 v (s : self_t) : self_t :=
  {| module_state := module_state s; meas_mode := meas_mode s; scan_mode := scan_mode s; incr := incr s; image_size := image_size s; scanline_size := scanline_size s; line_number := line_number s; number_sweeps := number_sweeps s; resolution := resolution s; range := range s; center_position := center_position s; current_position := current_position s; return_slowness := return_slowness s; clock_frequency := clock_frequency s; z_scanner_range := z_scanner_range s; coeff_topo := coeff_topo s; mw_start := mw_start s; mw_stop := mw_stop s; mw_step := mw_step s; mw_step_hf := mw_step_hf s; min_fullb := min_fullb s; max_fullb := max_fullb s; threshold := threshold s; resonance_frequency := resonance_frequency s; freq1 := v; freq2 := freq2 s; _odmr_logic := _odmr_logic s; pl_image := pl_image s; topo_corr := topo_corr s; _X := _X s; _Y := _Y s; _return_X := _return_X s; _return_Y := _return_Y s; freq_list := freq_list s; line_position := line_position s; stopRequested := stopRequested s; duration := duration s; hw_calls := hw_calls s; queue := queue s; emitted := emitted s |}.

Definition with_freq2 v (s : self_t) : self_t :=
  {| module_state := module_state s; meas_mode := meas_mode s; scan_mode := scan_mode s; incr := incr s; image_size := image_size s; scanline_size := scanline_size s; line_number := line_number s; number_sweeps := number_sweeps s; resolution := resolution s; range := range s; center_position := center_position s; current_position := current_position s; return_slowness := return_slowness s; clock_frequency := clock_frequency s; z_scanner_range := z_scanner_range s; coeff_topo := coeff_topo s; mw_start := mw_start s; mw_stop := mw_stop s; mw_step := mw_step s; mw_step_hf := mw_step_hf s; min_fullb := min_fullb s; max_fullb := max_fullb s; threshold := threshold s; resonance_frequency := resonance_frequency s; freq1 := freq1 s; freq2 := v; _odmr_logic := _odmr_logic s; pl_image := pl_image s; topo_corr := topo_corr s; _X := _X s; _Y := _Y s; _return_X := _return_X s; _return_Y := _return_Y s; freq_list := freq_list s; line_position := line_position s; stopRequested := stopRequested s; duration := duration s; hw_calls := hw_calls s; queue := queue s; emitted := emitted s |}.

Definition with_odmr_logic v (s : self_t) : self_t :=
  {| module_state := module_state s; meas_mode := meas_mode s; scan_mode := scan_mode s; incr := incr s; image_size := image_size s; scanline_size := scanline_size s; line_number := line_number s; number_sweeps := number_sweeps s; resolution := resolution s; range := range s; center_position := center_position s; current_position := current_position s; return_slowness := return_slowness s; clock_frequency := clock_frequency s; z_scanner_range := z_scanner_range s; coeff_topo := coeff_topo s; mw_start := mw_start s; mw_stop := mw_stop s; mw_step := mw_step s; mw_step_hf := mw_step_hf s; min_fullb := min_fullb s; max_fullb := max_fullb s; threshold := threshold s; resonance_frequency := resonance_frequency s; freq1 := freq1 s; freq2 := freq2 s; _odmr_logic := v; pl_image := pl_image s; topo_corr := topo_corr s; _X := _X s; _Y := _Y s; _return_X := _return_X s; _return_Y := _return_Y s; freq_list := freq_list s; line_position := line_position s; stopRequested := stopRequested s; duration := duration s; hw_calls := hw_calls s; queue := queue s; emitted := emitted s |}.

Definition with_pl_image v (s : self_t) : self_t :=
  {| module_state := module_state s; meas_mode := meas_mode s; scan_mode := scan_mode s; incr := incr s; image_size := image_size s; scanline_size := scanline_size s; line_number := line_number s; number_sweeps := number_sweeps s; resolution := resolution s; range := range s; center_position := center_position s; current_position := current_position s; return_slowness := return_slowness s; clock_frequency := clock_frequency s; z_scanner_range := z_scanner_range s; coeff_topo := coeff_topo s; mw_start := mw_start s; mw_stop := mw_stop s; mw_step := mw_step s; mw_step_hf := mw_step_hf s; min_fullb := min_fullb s; max_fullb := max_fullb s; threshold := threshold s; resonance_frequency := resonance_frequency s; freq1 := freq1 s; freq2 := freq2 s; _odmr_logic := _odmr_logic s; pl_image := v; topo_corr := topo_corr s; _X := _X s; _Y := _Y s; _return_X := _return_X s; _return_Y := _return_Y s; freq_list := freq_list s; line_position := line_position s; stopRequested := stopRequested s; duration := duration s; hw_calls := hw_calls s; queue := queue s; emitted := emitted s |}.

Definition with_topo_corr v (s : self_t) : self_t :=
  {| module_state := module_state s; meas_mode := meas_mode s; scan_mode := scan_mode s; incr := incr s; image_size := image_size s; scanline_size := scanline_size s; line_number := line_number s; number_sweeps := number_sweeps s; resolution := resolution s; range := range s; center_position := center_position s; current_position := current_position s; return_slowness := return_slowness s; clock_frequency := clock_frequency s; z_scanner_range := z_scanner_range s; coeff_topo := coeff_topo s; mw_start := mw_start s; mw_stop := mw_stop s; mw_step := mw_step s; mw_step_hf := mw_step_hf s; min_fullb := min_fullb s; max_fullb := max_fullb s; threshold := threshold s; resonance_frequency := resonance_frequency s; freq1 := freq1 s; freq2 := freq2 s; _odmr_logic := _odmr_logic s; pl_image := pl_image s; topo_corr := v; _X := _X s; _Y := _Y s; _return_X := _return_X s; _return_Y := _return_Y s; freq_list := freq_list s; line_position := line_position s; stopRequested := stopRequested s; duration := duration s; hw_calls := hw_calls s; queue := queue s; emitted := emitted s |}.

Definition with_X v (s : self_t) : self_t :=
  {| module_state := module_state s; meas_mode := meas_mode s; scan_mode := scan_mode s; incr := incr s; image_size := image_size s; scanline_size := scanline_size s; line_number := line_number s; number_sweeps := number_sweeps s; resolution := resolution s; range := range s; center_position := center_position s; current_position := current_position s; return_slowness := return_slowness s; clock_frequency := clock_frequency s; z_scanner_range := z_scanner_range s; coeff_topo := coeff_topo s; mw_start := mw_start s; mw_stop := mw_stop s; mw_step := mw_step s; mw_step_hf := mw_step_hf s; min_fullb := min_fullb s; max_fullb := max_fullb s; threshold := threshold s; resonance_frequency := resonance_frequency s; freq1 := freq1 s; freq2 := freq2 s; _odmr_logic := _odmr_logic s; pl_image := pl_image s; topo_corr := topo_corr s; _X := v; _Y := _Y s; _return_X := _return_X s; _return_Y := _return_Y s; freq_list := freq_list s; line_position := line_position s; stopRequested := stopRequested s; duration := duration s; hw_calls := hw_calls s; queue := queue s; emitted := emitted s |}.

Definition with_Y v (s : self_t) : self_t :=
  {| module_state := module_state s; meas_mode := meas_mode s; scan_mode := scan_mode s; incr := incr s; image_size := image_size s; scanline_size := scanline_size s; line_number := line_number s; number_sweeps := number_sweeps s; resolution := resolution s; range := range s; center_position := center_position s; current_position := current_position s; return_slowness := return_slowness s; clock_frequency := clock_frequency s; z_scanner_range := z_scanner_range s; coeff_topo := coeff_topo s; mw_start := mw_start s; mw_stop := mw_stop s; mw_step := mw_step s; mw_step_hf := mw_step_hf s; min_fullb := min_fullb s; max_fullb := max_fullb s; threshold := threshold s; resonance_frequency := resonance_frequency s; freq1 := freq1 s; freq2 := freq2 s; _odmr_logic := _odmr_logic s; pl_image := pl_image s; topo_corr := topo_corr s; _X := _X s; _Y := v; _return_X := _return_X s; _return_Y := _return_Y s; freq_list := freq_list s; line_position := line_position s; stopRequested := stopRequested s; duration := duration s; hw_calls := hw_calls s; queue := queue s; emitted := emitted s |}.

Definition with_return_X v (s : self_t) : self_t :=
  {| module_state := module_state s; meas_mode := meas_mode s; scan_mode := scan_mode s; incr := incr s; image_size := image_size s; scanline_size := scanline_size s; line_number := line_number s; number_sweeps := number_sweeps s; resolution := resolution s; range := range s; center_position := center_position s; current_position := current_position s; return_slowness := return_slowness s; clock_frequency := clock_frequency s; z_scanner_range := z_scanner_range s; coeff_topo := coeff_topo s; mw_start := mw_start s; mw_stop := mw_stop s; mw_step := mw_step s; mw_step_hf := mw_step_hf s; min_fullb := min_fullb s; max_fullb := max_fullb s; threshold := threshold s; resonance_frequency := resonance_frequency s; freq1 := freq1 s; freq2 := freq2 s; _odmr_logic := _odmr_logic s; pl_image := pl_image s; topo_corr := topo_corr s; _X := _X s; _Y := _Y s; _return_X := v; _return_Y := _return_Y s; freq_list := freq_list s; line_position := line_position s; stopRequested := stopRequested s; duration := duration s; hw_calls := hw_calls s; queue := queue s; emitted := emitted s |}.

Definition with_return_Y v (s : self_t) : self_t :=
  {| module_state := module_state s; meas_mode := meas_mode s; scan_mode := scan_mode s; incr := incr s; image_size := image_size s; scanline_size := scanline_size s; line_number := line_number s; number_sweeps := number_sweeps s; resolution := resolution s; range := range s; center_position := center_position s; current_position := current_position s; return_slowness := return_slowness s; clock_frequency := clock_frequency s; z_scanner_range := z_scanner_range s; coeff_topo := coeff_topo s; mw_start := mw_start s; mw_stop := mw_stop s; mw_step := mw_step s; mw_step_hf := mw_step_hf s; min_fullb := min_fullb s; max_fullb := max_fullb s; threshold := threshold s; resonance_frequency := resonance_frequency s; freq1 := freq1 s; freq2 := freq2 s; _odmr_logic := _odmr_logic s; pl_image := pl_image s; topo_corr := topo_corr s; _X := _X s; _Y := _Y s; _return_X := _return_X s; _return_Y := v; freq_list := freq_list s; line_position := line_position s; stopRequested := stopRequested s; duration := duration s; hw_calls := hw_calls s; queue := queue s; emitted := emitted s |}.

Definition with_freq_list v (s : self_t) : self_t :=
  {| module_state := module_state s; meas_mode := meas_mode s; scan_mode := scan_mode s; incr := incr s; image_size := image_size s; scanline_size := scanline_size s; line_number := line_number s; number_sweeps := number_sweeps s; resolution := resolution s; range := range s; center_position := center_position s; current_position := current_position s; return_slowness := return_slowness s; clock_frequency := clock_frequency s; z_scanner_range := z_scanner_range s; coeff_topo := coeff_topo s; mw_start := mw_start s; mw_stop := mw_stop s; mw_step := mw_step s; mw_step_hf := mw_step_hf s; min_fullb := min_fullb s; max_fullb := max_fullb s; threshold := threshold s; resonance_frequency := resonance_frequency s; freq1 := freq1 s; freq2 := freq2 s; _odmr_logic := _odmr_logic s; pl_image := pl_image s; topo_corr := topo_corr s; _X := _X s; _Y := _Y s; _return_X := _return_X s; _return_Y := _return_Y s; freq_list := v; line_position := line_position s; stopRequested := stopRequested s; duration := duration s; hw_calls := hw_calls s; queue := queue s; emitted := emitted s |}.

Definition with_line_position v (s : self_t) : self_t :=
  {| module_state := module_state s; meas_mode := meas_mode s; scan_mode := scan_mode s; incr := incr s; image_size := image_size s; scanline_size := scanline_size s; line_number := line_number s; number_sweeps := number_sweeps s; resolution := resolution s; range := range s; center_position := center_position s; current_position := current_position s; return_slowness := return_slowness s; clock_frequency := clock_frequency s; z_scanner_range := z_scanner_range s; coeff_topo := coeff_topo s; mw_start := mw_start s; mw_stop := mw_stop s; mw_step := mw_step s; mw_step_hf := mw_step_hf s; min_fullb := min_fullb s; max_fullb := max_fullb s; threshold := threshold s; resonance_frequency := resonance_frequency s; freq1 := freq1 s; freq2 := freq2 s; _odmr_logic := _odmr_logic s; pl_image := pl_image s; topo_corr := topo_corr s; _X := _X s; _Y := _Y s; _return_X := _return_X s; _return_Y := _return_Y s; freq_list := freq_list s; line_position := v; stopRequested := stopRequested s; duration := duration s; hw_calls := hw_calls s; queue := queue s; emitted := emitted s |}.

Definition with_stopRequested v (s : self_t) : self_t :=
  {| module_state := module_state s; meas_mode := meas_mode s; scan_mode := scan_mode s; incr := incr s; image_size := image_size s; scanline_size := scanline_size s; line_number := line_number s; number_sweeps := number_sweeps s; resolution := resolution s; range := range s; center_position := center_position s; current_position := current_position s; return_slowness := return_slowness s; clock_frequency := clock_frequency s; z_scanner_range := z_scanner_range s; coeff_topo := coeff_topo s; mw_start := mw_start s; mw_stop := mw_stop s; mw_step := mw_step s; mw_step_hf := mw_step_hf s; min_fullb := min_fullb s; max_fullb := max_fullb s; threshold := threshold s; resonance_frequency := resonance_frequency s; freq1 := freq1 s; freq2 := freq2 s; _odmr_logic := _odmr_logic s; pl_image := pl_image s; topo_corr := topo_corr s; _X := _X s; _Y := _Y s; _return_X := _return_X s; _return_Y := _return_Y s; freq_list := freq_list s; line_position := line_position s; stopRequested := v; duration := duration s; hw_calls := hw_calls s; queue := queue s; emitted := emitted s |}.

Definition with_duration v (s : self_t) : self_t :=
  {| module_state := module_state s; meas_mode := meas_mode s; scan_mode := scan_mode s; incr := incr s; image_size := image_size s; scanline_size := scanline_size s; line_number := line_number s; number_sweeps := number_sweeps s; resolution := resolution s; range := range s; center_position := center_position s; current_position := current_position s; return_slowness := return_slowness s; clock_frequency := clock_frequency s; z_scanner_range := z_scanner_range s; coeff_topo := coeff_topo s; mw_start := mw_start s; mw_stop := mw_stop s; mw_step := mw_step s; mw_step_hf := mw_step_hf s; min_fullb := min_fullb s; max_fullb := max_fullb s; threshold := threshold s; resonance_frequency := resonance_frequency s; freq1 := freq1 s; freq2 := freq2 s; _odmr_logic := _odmr_logic s; pl_image := pl_image s; topo_corr := topo_corr s; _X := _X s; _Y := _Y s; _return_X := _return_X s; _return_Y := _return_Y s; freq_list := freq_list s; line_position := line_position s; stopRequested := stopRequested s; duration := v; hw_calls := hw_calls s; queue := queue s; emitted := emitted s |}.

Definition with_hw_calls v (s : self_t) : self_t :=
  {| module_state := module_state s; meas_mode := meas_mode s; scan_mode := scan_mode s; incr := incr s; image_size := image_size s; scanline_size := scanline_size s; line_number := line_number s; number_sweeps := number_sweeps s; resolution := resolution s; range := range s; center_position := center_position s; current_position := current_position s; return_slowness := return_slowness s; clock_frequency := clock_frequency s; z_scanner_range := z_scanner_range s; coeff_topo := coeff_topo s; mw_start := mw_start s; mw_stop := mw_stop s; mw_step := mw_step s; mw_step_hf := mw_step_hf s; min_fullb := min_fullb s; max_fullb := max_fullb s; threshold := threshold s; resonance_frequency := resonance_frequency s; freq1 := freq1 s; freq2 := freq2 s; _odmr_logic := _odmr_logic s; pl_image := pl_image s; topo_corr := topo_corr s; _X := _X s; _Y := _Y s; _return_X := _return_X s; _return_Y := _return_Y s; freq_list := freq_list s; line_position := line_position s; stopRequested := stopRequested s; duration := duration s; hw_calls := v; queue := queue s; emitted := emitted s |}.

Definition with_queue v (s : self_t) : self_t :=
  {| module_state := module_state s; meas_mode := meas_mode s; scan_mode := scan_mode s; incr := incr s; image_size := image_size s; scanline_size := scanline_size s; line_number := line_number s; number_sweeps := number_sweeps s; resolution := resolution s; range := range s; center_position := center_position s; current_position := current_position s; return_slowness := return_slowness s; clock_frequency := clock_frequency s; z_scanner_range := z_scanner_range s; coeff_topo := coeff_topo s; mw_start := mw_start s; mw_stop := mw_stop s; mw_step := mw_step s; mw_step_hf := mw_step_hf s; min_fullb := min_fullb s; max_fullb := max_fullb s; threshold := threshold s; resonance_frequency := resonance_frequency s; freq1 := freq1 s; freq2 := freq2 s; _odmr_logic := _odmr_logic s; pl_image := pl_image s; topo_corr := topo_corr s; _X := _X s; _Y := _Y s; _return_X := _return_X s; _return_Y := _return_Y s; freq_list := freq_list s; line_position := line_position s; stopRequested := stopRequested s; duration := duration s; hw_calls := hw_calls s; queue := v; emitted := emitted s |}.

Definition with_emitted v (s : self_t) : self_t :=
  {| module_state := module_state s; meas_mode := meas_mode s; scan_mode := scan_mode s; incr := incr s; image_size := image_size s; scanline_size := scanline_size s; line_number := line_number s; number_sweeps := number_sweeps s; resolution := resolution s; range := range s; center_position := center_position s; current_position := current_position s; return_slowness := return_slowness s; clock_frequency := clock_frequency s; z_scanner_range := z_scanner_range s; coeff_topo := coeff_topo s; mw_start := mw_start s; mw_stop := mw_stop s; mw_step := mw_step s; mw_step_hf := mw_step_hf s; min_fullb := min_fullb s; max_fullb := max_fullb s; threshold := threshold s; resonance_frequency := resonance_frequency s; freq1 := freq1 s; freq2 := freq2 s; _odmr_logic := _odmr_logic s; pl_image := pl_image s; topo_corr := topo_corr s; _X := _X s; _Y := _Y s; _return_X := _return_X s; _return_Y := _return_Y s; freq_list := freq_list s; line_position := line_position s; stopRequested := stopRequested s; duration := duration s; hw_calls := hw_calls s; queue := queue s; emitted := v |}.

Definition with_o_mw_start v (o : odmr_logic) : odmr_logic :=
  {| o_mw_start := v; o_mw_stop := o_mw_stop o; o_mw_step := o_mw_step o; o_clock_frequency := o_clock_frequency o |}.

Definition with_o_mw_stop v (o : odmr_logic) : odmr_logic :=
  {| o_mw_start := o_mw_start o; o_mw_stop := v; o_mw_step := o_mw_step o; o_clock_frequency := o_clock_frequency o |}.

Definition with_o_mw_step v (o : odmr_logic) : odmr_logic :=
  {| o_mw_start := o_mw_start o; o_mw_stop := o_mw_stop o; o_mw_step := v; o_clock_frequency := o_clock_frequency o |}.

Definition with_o_clock_frequency v (o : odmr_logic) : odmr_logic :=
  {| o_mw_start := o_mw_start o; o_mw_stop := o_mw_stop o; o_mw_step := o_mw_step o; o_clock_frequency := v |}.

(** ** The monad of methods *)

Definition M (A : Type) : Type := self_t → self_t * result A.

#[global] Instance M_ret : MRet M := λ A a s, (s, Ok a).
#[global] Instance M_bind : MBind M := λ A B f m s,
  match m s with
  | (s', Ok a) => f a s'
  | (s', Raise e) => (s', Raise e)
  end.

Definition get : M self_t := λ s, (s, Ok s).
Definition gets {A} (f : self_t → A) : M A := λ s, (s, Ok (f s)).
Definition modify (f : self_t → self_t) : M unit := λ s, (f s, Ok tt).
Definition raise {A} (e : exn) : M A := λ s, (s, Raise e).
Definition lift {A} (r : result A) : M A := λ s, (s, r).

(** [try: m except: h]. *)
Definition try_except {A} (m : M A) (h : M A) : M A := λ s,
  match m s with
  | (s', Ok a) => (s', Ok a)
  | (s', Raise _) => h s'
  end.

(** [sig.emit(...)], to the slots of the class ([sigNextLine] to
    [_scan_line], [sigScanPixelOver] to [treat_data],
    [sigFinishedDataTreatment] to [move_after_scan_pixel]) through the
    event queue, and to the log of emissions. *)
Definition has_slot (sg : signal) : bool :=
  match sg with
  | sigNextLine | sigScanPixelOver _ _ | sigFinishedDataTreatment => true
  | _ => false
  end.

Definition emit (sg : signal) : M unit :=
  modify (λ s, with_emitted (emitted s ++ [sg])
                 (if has_slot sg then with_queue (queue s ++ [sg]) s else s)).

(** The next call into a collaborator: its number, for the oracle. *)
Definition hw_call : M nat :=
  k ← gets hw_calls; modify (with_hw_calls (S k));; mret k.

Definition with_odmr (f : odmr_logic → odmr_logic) : M unit :=
  modify (λ s, with_odmr_logic (f (_odmr_logic s)) s).

(** ** Scan parameters *)

(** [compute_scan_duration]. The method stores the estimate in
    [self.duration] and returns it formatted for display; the model returns
    the number that is formatted. *)
Definition compute_scan_duration : M Q :=
  s ← get;
  let '(res0, res1) := resolution s in
  fwd ← lift (
    if decide (meas_mode s = "quenching") then
      py_div (inject_Z (res0 * res1)) (clock_frequency s)
    else if decide (meas_mode s = "isob") then
      py_div (inject_Z (2 * res0 * res1)) (clock_frequency s)
    else
      py_div (inject_Z ((2 + line_number s) * res0 * res1)) (clock_frequency s));
  bwd ← lift (
    if decide (scan_mode s = "_hpix") then
      hi ← getitem (range s).1 1; lo ← getitem (range s).1 0;
      let hrange := hi - lo in
      q ← py_div hrange (return_slowness s);
      py_div (inject_Z res1 * q) (clock_frequency s)
    else
      hi ← getitem (range s).2 1; lo ← getitem (range s).2 0;
      let vrange := hi - lo in
      q ← py_div vrange (return_slowness s);
      py_div (inject_Z res0 * q) (clock_frequency s));
  let d := 1.8 * (fwd + bwd) in
  modify (with_duration d);;
  mret d.

Definition update_duration : M unit :=
  dur_str ← compute_scan_duration;
  emit (sigUpdateDuration dur_str);;
  emit (sigUpdateRemTime dur_str).

(** [set_clock_frequency(time_clock)]; [None] stands for an argument that
    is neither an [int] nor a [float]. *)
Definition set_clock_frequency (time_clock : option Q) : M Q :=
  s ← get;
  match module_state s, time_clock with
  | locked, _ | _, None => mret tt
  | idle, Some t =>
      f ← lift (py_div 1 t);
      modify (with_clock_frequency f);;
      with_odmr (with_o_clock_frequency f);;
      emit (sigParamUpdated [("clock_frequency", VNum f)]);;
      update_duration
  end;;
  gets clock_frequency.

(** [set_range(range_scan)]. *)
Definition set_range (range_scan : list Q) : M (list Q * list Q) :=
  s ← get;
  match module_state s with
  | locked => mret tt
  | idle =>
      let r := (py_slice range_scan 0 2, py_slice range_scan 2 4) in
      modify (with_range r);;
      emit (sigParamUpdated [("x_range", VList r.1); ("y_range", VList r.2)]);;
      update_duration
  end;;
  gets range.

(** [set_resolution(x_res, y_res)]. *)
Definition set_resolution (x_res y_res : Z) : M (Z * Z) :=
  s ← get;
  match module_state s with
  | locked => mret tt
  | idle =>
      let x_res := if decide (x_res `mod` 2 = 1)%Z then (x_res - 1)%Z else x_res in
      let y_res := if decide (y_res `mod` 2 = 1)%Z then (y_res - 1)%Z else y_res in
      modify (with_resolution (x_res, y_res));;
      emit (sigParamUpdated [("x_resolution", VInt x_res);
                             ("y_resolution", VInt y_res)]);;
      update_duration
  end;;
  gets resolution.

(** [set_return_slowness(rs)]. *)
Definition set_return_slowness (rs : Q) : M Q :=
  s ← get;
  match module_state s with
  | locked => mret tt
  | idle =>
      modify (with_return_slowness rs);;
      emit (sigParamUpdated [("return_slowness", VNum rs)]);;
      update_duration
  end;;
  gets return_slowness.

(** ** The scan image *)

(** [np.size(a, axis=1)] and [np.size(a, axis=2)]. An array with an empty
    axis is the list that forgets the axes after it; every access the
    methods make to such an array raises in numpy as in the model. *)
Definition ncols {A} (a : list (list A)) : nat :=
  from_option length 0%nat (head a).
Definition nchan (a : arr3) : nat := from_option ncols 0%nat (head a).

(** [np.zeros((r, c, k))] and [np.zeros((r, c))]. *)
Definition zeros3 (r c k : nat) : arr3 := replicate r (replicate c (replicate k 0)).
Definition zeros2 (r c : nat) : arr2 := replicate r (replicate c 0).

(** [a[:, :, 0] = np.full((len(Y), len(X)), X)]. *)
Definition fill_x (X : arr1) (a : arr3) : arr3 :=
  fmap (λ row, zip_with (λ x cell, <[0%nat:=x]> cell) X row) a.

(** [a[:, :, 1] = np.full((len(X), len(Y)), Y).transpose()]. *)
Definition fill_y (Y : arr1) (a : arr3) : arr3 :=
  zip_with (λ y row, fmap (λ cell, <[1%nat:=y]> cell) row) Y a.

(** The value of [a[r][c][k]], when the three indices are in range. *)
Definition pixel (a : arr3) (r c k : nat) : option Q :=
  row ← a !! r; cell ← row !! c; cell !! k.

(** [a[i, j, k]] with [i], [j] already resolved: the cell places touched. *)
Definition cell_alter (f : Q → Q) (i j k : nat) (a : arr3) : arr3 :=
  alter (alter (alter f k) j) i a.

(** The bounds check of [pl_image[r, c, k]]. *)
Definition index3 (a : arr3) (r c : Z) (k : nat) : result (nat * nat) :=
  i ← py_index (length a) r;
  j ← py_index (ncols a) c;
  if bool_decide (k < nchan a)%nat then Ok (i, j) else Raise IndexError.

(** [self.pl_image[r, c, k]]. *)
Definition pl_image_get (r c : Z) (k : nat) : M Q := λ s,
  (s, '(i, j) ← index3 (pl_image s) r c k;
      from_option Ok (Raise IndexError) (pixel (pl_image s) i j k)).

(** [self.pl_image[r, c, k] = v]. *)
Definition pl_image_set (r c : Z) (k : nat) (v : Q) : M unit :=
  img ← gets pl_image;
  '(i, j) ← lift (index3 img r c k);
  modify (with_pl_image (cell_alter (λ _, v) i j k img)).

(** [self.pl_image[r, c, k] += v], once [v] is known. *)
Definition pl_image_add (r c : Z) (k : nat) (v : Q) : M unit :=
  img ← gets pl_image;
  '(i, j) ← lift (index3 img r c k);
  modify (with_pl_image (cell_alter (λ old, old + v) i j k img)).

(** A slice of the image is the list of the places [(i, j, k)] it selects;
    assigning to it gives each place its value. *)
Definition place := (nat * nat * nat)%type.

Definition cells_alter (f : Q → Q → Q) (places : list place) (vec : list Q)
    (a : arr3) : arr3 :=
  foldr (λ '((i, j, k), v) im, cell_alter (λ old, f old v) i j k im) a (zip places vec).

(** The places of [pl_image[r, c0:c1, k]], of [pl_image[r0:r1, c, k]] and of
    [pl_image[r, c, k0:k1]]. *)
Definition hslice_places (r c0 c1 : Z) (k : nat) (a : arr3) : result (list place) :=
  i ← py_index (length a) r;
  if bool_decide (k < nchan a)%nat
  then Ok (fmap (λ j, (i, j, k)) (slice_indices (ncols a) c0 c1))
  else Raise IndexError.

Definition vslice_places (r0 r1 c : Z) (k : nat) (a : arr3) : result (list place) :=
  j ← py_index (ncols a) c;
  if bool_decide (k < nchan a)%nat
  then Ok (fmap (λ i, (i, j, k)) (slice_indices (length a) r0 r1))
  else Raise IndexError.

Definition chan_places (r c k0 k1 : Z) (a : arr3) : result (list place) :=
  i ← py_index (length a) r;
  j ← py_index (ncols a) c;
  Ok (fmap (λ k, (i, j, k)) (slice_indices (nchan a) k0 k1)).

(** [self.pl_image[<slice>] = vec] with [f old v = v], and
    [self.pl_image[<slice>] += vec] with [f old v = old + v]. *)
Definition pl_image_assign (places : arr3 → result (list place))
    (f : Q → Q → Q) (vec : list Q) : M unit :=
  img ← gets pl_image;
  ps ← lift (places img);
  vec' ← lift (broadcast_to (length ps) vec);
  modify (with_pl_image (cells_alter f ps vec' img)).

Definition assign (old v : Q) : Q := v.

(** [topo_corr[r, c]], [topo_corr[r, c0:c1]] and [topo_corr[r0:r1, c]]. *)
Definition topo_at (t : arr2) (r c : Z) : result Q :=
  i ← py_index (length t) r;
  j ← py_index (ncols t) c;
  from_option Ok (Raise IndexError) (row ← t !! i; row !! j).

Definition topo_hslice (t : arr2) (r c0 c1 : Z) : result arr1 :=
  row ← getitem t r;
  Ok (omap (λ j, row !! j) (slice_indices (ncols t) c0 c1)).

Definition topo_vslice (t : arr2) (r0 r1 c : Z) : result arr1 :=
  j ← py_index (ncols t) c;
  Ok (omap (λ i, row ← t !! i; row !! j) (slice_indices (length t) r0 r1)).

(** [initialize_image(image_size, scanline_size)]. The display buffers
    [scanline] and [mean_pl] are not part of the model. *)
Definition initialize_image (image_size scanline_size : nat) : M Z :=
  s ← get;
  hi ← lift (getitem (range s).1 1); lo ← lift (getitem (range s).1 0);
  let h_range := hi - lo in
  hi ← lift (getitem (range s).2 1); lo ← lift (getitem (range s).2 0);
  let v_range := hi - lo in
  let x := ((center_position s).1 - h_range * 0.5, (center_position s).1 + h_range * 0.5) in
  let y := ((center_position s).2 - v_range * 0.5, (center_position s).2 + v_range * 0.5) in
  if Qlt_bool x.2 x.1 then mret (-1)%Z
  else if Qlt_bool y.2 y.1 then mret (-1)%Z
  else
    X ← lift (linspace x.1 x.2 (resolution s).1);
    modify (with_X X);;
    Y ← lift (linspace y.1 y.2 (resolution s).2);
    modify (with_Y Y);;
    x0 ← lift (getitem X 0); x1 ← lift (getitem X (-1));
    rX ← lift (arange x0 x1 (return_slowness s));
    modify (with_return_X (reverse rX));;
    y0 ← lift (getitem Y 0); y1 ← lift (getitem Y (-1));
    rY ← lift (arange y0 y1 (return_slowness s));
    modify (with_return_Y (reverse rY));;
    modify (with_pl_image (zeros3 (length Y) (length X) image_size));;
    (if bool_decide (0 < image_size)%nat
     then modify (λ s, with_pl_image (fill_x X (pl_image s)) s)
     else raise IndexError);;
    (if bool_decide (1 < image_size)%nat
     then modify (λ s, with_pl_image (fill_y Y (pl_image s)) s)
     else raise IndexError);;
    modify (with_topo_corr (zeros2 (length Y) (length X)));;
    mret 0%Z.

(** [int(np.rint((stop - start) / step)) + 1] on the ODMR logic's sweep
    window. *)
Definition sweep_points (o : odmr_logic) : result Z :=
  q ← py_div (o_mw_stop o - o_mw_start o) (o_mw_step o);
  Ok (rint q + 1)%Z.

(** [set_meas_mode(mode)]. *)
Definition set_meas_mode (mode : string) : M unit :=
  modify (with_meas_mode mode);;
  (if decide (mode = "quenching") then
     modify (with_image_size 5%nat);;
     modify (with_scanline_size 4%nat);;
     modify (with_incr 2%Z)
   else if decide (mode = "isob") then
     modify (with_incr 1%Z);;
     modify (with_image_size 7%nat);;
     modify (with_scanline_size 8%nat);;
     modify (with_line_number 2%Z)
   else
     modify (with_incr 1%Z);;
     modify (with_image_size 8%nat);;
     modify (with_scanline_size 10%nat);;
     o ← gets _odmr_logic;
     n ← lift (sweep_points o);
     modify (with_line_number n));;
  s ← get;
  _ ← initialize_image (image_size s) (scanline_size s);
  mret tt.

(** ** Data treatment *)

(** The selection of the ESR minimum in [treat_data] (full-B): the
    frequency of the least sample, or, when that frequency is not strictly
    inside the bounds, of the least sample among those inside the bounds. *)
Definition in_bounds (minfield maxfield : Q) (freq_list : arr1) (i : nat) : bool :=
  match freq_list !! i with
  | Some f => Qle_bool f maxfield && Qle_bool minfield f
  | None => false
  end.

Definition select_minimum (freq_list data0 : arr1) (indmin : nat)
    (minfield maxfield : Q) : result Q :=
  freq_min ← getitem freq_list (Z.of_nat indmin);
  if Qle_bool freq_min minfield || Qle_bool maxfield freq_min then
    let indices :=
      List.filter (in_bounds minfield maxfield freq_list) (seq 0 (length freq_list)) in
    esr_interval ← mapM (M := result) (λ i, getitem data0 (Z.of_nat i)) indices;
    k ← np_argmin esr_interval;
    i ← getitem indices (Z.of_nat k);
    getitem freq_list (Z.of_nat i)
  else Ok freq_min.

(** The step of the next sweep. *)
Definition select_step (resonance_frequency freq_min threshold mw_step mw_step_hf : Q) : Q :=
  if Qlt_bool (resonance_frequency - freq_min) threshold then mw_step else mw_step_hf.

(** The topography written for one sample [t] of the z voltage. *)
Definition topo_of (s : self_t) (t : Q) : Q := z_scanner_range s - coeff_topo s * t.

(** [treat_data(data, data_isob)]. The ESR scratch file and the array
    [esr_line] are not part of the model; the shape check of
    [esr_line[:, 1] = data[0]] is. *)
Definition treat_data (data : option arr2) (data_isob : pydata) : M unit :=
  s ← get;
  let '(lp0, lp1) := line_position s in
  (if decide (meas_mode s = "quenching") then
     let places k :=
       if decide (scan_mode s = "_hpix")
       then hslice_places lp1 lp0 (lp0 + 2) k
       else vslice_places lp1 (lp1 + 2) lp0 k in
     (* write the raw topography counts *)
     col ← lift (data_col data 1);
     pl_image_assign (places 4%nat) assign (fmap (topo_of s) col);;
     (* write the corrected topography counts *)
     img ← gets pl_image;
     _ ← lift (places 2%nat img);
     col ← lift (data_col data 1);
     tc ← lift (if decide (scan_mode s = "_hpix")
                then topo_hslice (topo_corr s) lp1 lp0 (lp0 + 2)
                else topo_vslice (topo_corr s) lp1 (lp1 + 2) lp0);
     rhs ← lift (broadcast2 Qminus (fmap (topo_of s) col) tc);
     pl_image_assign (places 2%nat) Qplus rhs;;
     (* write the pl counts *)
     col ← lift (data_col data 0);
     pl_image_assign (places 3%nat) assign col
   else if decide (meas_mode s = "isob") then
     (* write the raw topography counts *)
     row ← lift (data_row data 1);
     m ← lift (np_mean row);
     pl_image_set lp1 lp0 6 (topo_of s m);;
     (* write the corrected topography counts *)
     _ ← pl_image_get lp1 lp0 2;
     row ← lift (data_row data 1);
     m ← lift (np_mean row);
     tc ← lift (topo_at (topo_corr s) lp1 lp0);
     pl_image_add lp1 lp0 2 (topo_of s m - tc);;
     (* write the pldiff counts *)
     row ← lift (data_row data 0);
     a ← lift (getitem row 0);
     row ← lift (data_row data 0);
     b ← lift (getitem row 1);
     pl_image_set lp1 lp0 3 (a - b);;
     (* write counts for the two frequencies *)
     row ← lift (data_row data 0);
     pl_image_assign (chan_places lp1 lp0 4 6) assign row
   else
     q ← lift (py_div (mw_stop s - mw_start s) (mw_step s));
     let num_steps := rint q in
     let end_freq := mw_start s + inject_Z num_steps * mw_step s in
     fl ← lift (linspace (mw_start s) end_freq (num_steps + 1));
     modify (with_freq_list fl);;
     row0 ← lift (data_row data 0);
     _ ← lift (broadcast_to (length fl) row0);
     indmin ← lift (np_argmin row0);
     (* write the raw topography counts *)
     row ← lift (data_row data 1);
     m ← lift (np_mean row);
     pl_image_set lp1 lp0 7 (topo_of s m);;
     (* write the corrected topography counts *)
     _ ← pl_image_get lp1 lp0 2;
     row ← lift (data_row data 1);
     m ← lift (np_mean row);
     tc ← lift (topo_at (topo_corr s) lp1 lp0);
     pl_image_add lp1 lp0 2 (topo_of s m - tc);;
     (* write ESR's min frequency *)
     f ← lift (getitem fl (Z.of_nat indmin));
     pl_image_set lp1 lp0 3 f;;
     (* save the ESR temporarily *)
     _ ← pl_image_get lp1 lp0 0;
     (* write the pldiff counts and the counts of the two frequencies *)
     a ← lift (data_at data_isob 0 0);
     b ← lift (data_at data_isob 0 1);
     pl_image_set lp1 lp0 4 (a - b);;
     a ← lift (data_at data_isob 0 0);
     pl_image_set lp1 lp0 5 a;;
     b ← lift (data_at data_isob 0 1);
     pl_image_set lp1 lp0 6 b;;
     (* select the ESR's minimum *)
     freq_min ← lift (select_minimum fl row0 indmin (min_fullb s) (max_fullb s));
     (* track the minimum *)
     last ← lift (getitem fl (-1));
     first ← lift (getitem fl 0);
     modify (with_mw_start (freq_min - (last - first) / 2));;
     modify (with_mw_stop (freq_min + (last - first) / 2));;
     s' ← get;
     with_odmr (with_o_mw_start (mw_start s'));;
     with_odmr (with_o_mw_stop (mw_stop s'));;
     with_odmr (with_o_mw_step
       (select_step (resonance_frequency s) freq_min (threshold s) (mw_step s) (mw_step_hf s)));;
     o ← gets _odmr_logic;
     n ← lift (sweep_points o);
     modify (with_line_number n));;
  emit sigFinishedDataTreatment.

(** ** Collaborators *)

(** How the hardware answers a positioning line scan: normally, with a
    [-1] among the samples, or with an exception. *)
Inductive move_reply := MoveOk | MoveFault | MoveExn.

(** The collaborators of the class. Each call takes the number of the call
    ([hw_calls]), so that successive calls may answer differently. *)
Record collaborators := {
  (** [_odmr_logic.get_odmr_counts(line_number)] *)
  get_odmr_counts : nat → Z → arr2;
  (** [_scanning_device.scan_line(line, pixel_clock=True)] *)
  scan_line : nat → arr2 → arr2;
  (** [_scanning_device.scan_line(start_line)] in [reset_position] *)
  start_line_reply : nat → move_reply;
  (** whether [_scanning_device._write_scanner_ao] returns *)
  write_scanner_ao_ok : nat → bool;
  (** whether [_scanning_device.scan_line(return_line)] returns *)
  return_line_ok : nat → bool;
  (** [plane_fit()], the least-squares plane over the grid *)
  plane_fit : self_t → result arr2;
  (** the hardware constraints of the microwave source *)
  frequency_in_range : Q → Q;
  sweep_step_in_range : Q → Q;
  list_step_in_range : Q → Q;
}.

(** Broadcasting of a two-dimensional operand to [r] rows of [c] places. *)
Definition broadcast_to2 (r c : nat) (b : arr2) : result arr2 :=
  rows ← (if bool_decide (length b = r) then Ok b
          else match b with
               | [row] => Ok (replicate r row)
               | _ => Raise ValueError
               end);
  mapM (M := result) (broadcast_to c) rows.

(** [a += b] on two-dimensional arrays. *)
Definition arr2_iadd (a b : arr2) : result arr2 :=
  b' ← broadcast_to2 (length a) (ncols a) b;
  Ok (zip_with (zip_with Qplus) a b').

(** [a / n] for an array [a] and a Python [int] [n]. *)
Definition arr2_div (a : arr2) (n : Z) : result arr2 :=
  if bool_decide (n = 0)%Z then Raise NanOrInf
  else Ok ((λ row : arr1, (λ x, x / inject_Z n) <$> row) <$> a).


Section Logic.

Variable hw : collaborators.

(** [set_sweep_parameters_isob(freq1, freq2)]; [None] stands for an
    argument that is neither an [int] nor a [float]. *)
Definition set_sweep_parameters_isob (f1 f2 : option Q) : M (Q * Q * Q) :=
  match f1, f2 with
  | Some freq1, Some freq2 =>
      let '(freq1, freq2) :=
        if Qle_bool freq2 freq1 then (freq2, freq1) else (freq1, freq2) in
      with_odmr (with_o_mw_stop (frequency_in_range hw freq2));;
      with_odmr (with_o_mw_start (frequency_in_range hw freq1));;
      with_odmr (with_o_mw_step (sweep_step_in_range hw (freq2 - freq1)))
  | _, _ => mret tt
  end;;
  o ← gets _odmr_logic;
  modify (with_freq1 (o_mw_start o));;
  modify (with_freq2 (o_mw_stop o));;
  modify (with_line_number 2%Z);;
  emit (sigParamUpdated [("freq1", VNum (o_mw_start o)); ("freq2", VNum (o_mw_stop o))]);;
  mret (o_mw_start o, o_mw_stop o, o_mw_step o).

(** [set_sweep_parameters_fullb(start, stop, min_fullb, max_fullb, step,
    mw_step_hf, number_sweeps, threshold)], called with numbers. *)
Definition set_sweep_parameters_fullb (start stop min_fullb' max_fullb' step mw_step_hf' : Q)
    (number_sweeps' : Z) (threshold' : Q) : M unit :=
  let '(start, stop) := if Qle_bool stop start then (stop, start) else (start, stop) in
  with_odmr (with_o_mw_stop (frequency_in_range hw stop));;
  with_odmr (with_o_mw_start (frequency_in_range hw start));;
  with_odmr (with_o_mw_step (frequency_in_range hw step));;
  o ← gets _odmr_logic;
  modify (with_mw_start (o_mw_start o));;
  modify (with_mw_step (o_mw_step o));;
  modify (with_mw_stop (o_mw_stop o));;
  n ← lift (sweep_points o);
  modify (with_line_number n);;
  modify (with_min_fullb (frequency_in_range hw min_fullb'));;
  modify (with_max_fullb (frequency_in_range hw max_fullb'));;
  modify (with_threshold (frequency_in_range hw threshold'));;
  modify (with_mw_step_hf (list_step_in_range hw mw_step_hf'));;
  modify (with_number_sweeps number_sweeps');;
  s ← get;
  emit (sigParamUpdated
    [("mw_start", VNum (o_mw_start o)); ("mw_stop", VNum (o_mw_stop o));
     ("min_fullb", VNum (min_fullb s)); ("max_fullb", VNum (max_fullb s));
     ("mw_step", VNum (o_mw_step o)); ("mw_step_hf", VNum (mw_step_hf s));
     ("number_sweeps", VInt (number_sweeps s)); ("threshold", VNum (threshold s))]).

(** ** Acquisition *)

(** The further [number_sweeps - 1] acquisitions of [scan_odmr_line], added
    to the first. *)
Fixpoint add_sweeps (n : nat) (new_counts : arr2) : M arr2 :=
  match n with
  | O => mret new_counts
  | S n' =>
      s ← get;
      k ← hw_call;
      new_counts ← lift (arr2_iadd new_counts (get_odmr_counts hw k (line_number s)));
      add_sweeps n' new_counts
  end.

(** [scan_odmr_line()]: [None] when the fault sentinel is seen. The buffer
    [odmr_raw_data] that holds the returned array is not part of the
    model. *)
Definition scan_odmr_line : M (option arr2) :=
  s ← get;
  k ← hw_call;
  let new_counts := get_odmr_counts hw k (line_number s) in
  new_counts ← (if bool_decide (1 < number_sweeps s)%Z
                then add_sweeps (Z.to_nat (number_sweeps s - 1)) new_counts
                else mret new_counts);
  row ← lift (getitem new_counts 0);
  v ← lift (getitem row 0);
  if Qeq_bool v (-1) then
    modify (with_stopRequested true);;
    mret None
  else
    odmr_raw_data ← lift (arr2_div new_counts (number_sweeps s));
    mret (Some odmr_raw_data).

Definition to_pydata (d : option arr2) : pydata :=
  match d with None => PyNone | Some a => Arr2 a end.

(** [len(data[0])]. *)
Definition len_row0 (d : option arr2) : result nat :=
  row ← data_row d 0; Ok (length row).

(** The channel [k] of the cells of [pl_image[r, c0:c1, :]] and of
    [pl_image[r0:r1, c, :]], read for the path of a line scan. *)
Definition read_places (a : arr3) (ps : list place) : arr1 :=
  omap (λ '(i, j, k), pixel a i j k) ps.

(** [scan_pixel()]. In full-B mode the call of
    [set_sweep_parameters_fullb] passes seven arguments to a method of
    eight parameters, which Python refuses with a [TypeError] before the
    body runs. *)
Definition scan_pixel : M unit :=
  s ← get;
  let '(lp0, lp1) := line_position s in
  '(data, data_isob) ← (
    if decide (meas_mode s = "quenching") then
      let places k :=
        if decide (scan_mode s = "_hpix")
        then hslice_places lp1 lp0 (lp0 + 2) k
        else vslice_places lp1 (lp1 + 2) lp0 k in
      px ← lift (places 0%nat (pl_image s));
      py ← lift (places 1%nat (pl_image s));
      let line := [read_places (pl_image s) px; read_places (pl_image s) py] in
      k ← hw_call;
      mret (Some (scan_line hw k line), Arr1 [0])
    else if decide (meas_mode s = "isob") then
      data ← scan_odmr_line;
      mret (data, Arr1 [0])
    else
      n ← lift (sweep_points (_odmr_logic s));
      modify (with_line_number n);;
      data ← scan_odmr_line;
      len ← lift (len_row0 data);
      data ← (if decide (len = 2%nat)
              then (raise TypeError : M unit);; scan_odmr_line
              else mret data);
      (* do an iso-B scan *)
      modify (with_line_number 2%Z);;
      with_odmr (with_o_mw_stop (freq2 s));;
      with_odmr (with_o_mw_start (freq1 s));;
      with_odmr (with_o_mw_step (freq2 s - freq1 s));;
      data_isob ← scan_odmr_line;
      (* sets back the correct settings *)
      with_odmr (with_o_mw_start (mw_start s));;
      with_odmr (with_o_mw_step (mw_step s));;
      with_odmr (with_o_mw_stop (mw_stop s));;
      mret (data, to_pydata data_isob));
  emit (sigScanPixelOver data data_isob).

(** [_hpix()] and [_vpix()]: [scan_pixel] runs in a thread of its own; an
    exception that ends the thread is not seen by the caller. *)
Definition spawn (m : M unit) : M unit := try_except m (mret tt).

Definition _hpix : M Z := spawn scan_pixel;; mret 0%Z.
Definition _vpix : M Z := spawn scan_pixel;; mret 0%Z.

(** ** Stopping *)

(** [shift_indices()]. *)
Definition shift_indices : M unit :=
  s ← get;
  let '(lp0, lp1) := line_position s in
  let lp1 := if decide (lp1 = Z.of_nat (length (pl_image s))) then (lp1 - 1)%Z else lp1 in
  modify (with_line_position (lp0, lp1));;
  let lp0 := if decide (lp0 = Z.of_nat (ncols (pl_image s))) then (lp0 - 1)%Z else lp0 in
  modify (with_line_position (lp0, lp1));;
  x ← pl_image_get lp1 lp0 0;
  modify (λ s, with_current_position (x, (current_position s).2) s);;
  y ← pl_image_get lp1 lp0 1;
  modify (λ s, with_current_position ((current_position s).1, y) s).

(** [stop_scanning(end)]. *)
Definition stop_scanning (end_ : bool) : M unit :=
  s ← get;
  (if decide (module_state s = locked)
   then modify (with_stopRequested true) else mret tt);;
  shift_indices;;
  emit (sigStopScan end_).

(** [kill_scanner()]: the failure of [module_state.unlock()] is caught and
    logged; the collaborators are closed. *)
Definition kill_scanner : M Z :=
  modify (with_module_state idle);;
  mret 0%Z.

(** ** Moving *)

(** [reset_position()]. The path of the line scan is not part of the
    model, the exceptions of its computation are. *)
Definition reset_position : M Z :=
  try_except (
    s ← get;
    if decide (line_position s = (0, 0)%Z) then
      x0 ← pl_image_get 0 0 0;
      y0 ← pl_image_get 0 0 1;
      (if Qeq_bool (current_position s).1 x0 && Qeq_bool (current_position s).2 y0
       then raise NameError
       else
         _ ← lift (arange (Qmin (current_position s).1 x0) (Qmax (current_position s).1 x0)
                     (return_slowness s));
         _ ← lift (arange (Qmin (current_position s).2 y0) (Qmax (current_position s).2 y0)
                     (return_slowness s));
         mret tt);;
      k ← hw_call;
      match start_line_reply hw k with
      | MoveOk => mret 0%Z
      | MoveFault =>
          modify (with_stopRequested true);;
          emit sigNextLine;;
          mret 0%Z
      | MoveExn => raise HardwareError
      end
    else mret 0%Z)
  (mret (-1)%Z).

(** [move_hpix()] and [move_vpix()], of the same body. *)
Definition move_pix : M Z :=
  s ← get;
  let '(lp0, lp1) := line_position s in
  x ← pl_image_get lp1 lp0 0;
  modify (λ s, with_current_position (x, (current_position s).2) s);;
  y ← pl_image_get lp1 lp0 1;
  modify (λ s, with_current_position ((current_position s).1, y) s);;
  k ← hw_call;
  if write_scanner_ao_ok hw k then mret 0%Z else mret (-1)%Z.

Definition move_hpix : M Z := move_pix.
Definition move_vpix : M Z := move_pix.

(** [return_h()] and [return_v()]: the reads of the image and of the
    retrace arrays, then the line scan; the samples are dropped. *)
Definition return_h : M unit :=
  s ← get;
  let '(lp0, lp1) := line_position s in
  _ ← pl_image_get lp1 (lp0 - 1) 1;
  _ ← pl_image_get lp1 0 1;
  _ ← lift (getitem (_return_X s) (-1));
  k ← hw_call;
  if return_line_ok hw k then mret tt else raise HardwareError.

Definition return_v : M unit :=
  s ← get;
  let '(lp0, lp1) := line_position s in
  _ ← pl_image_get (lp1 - 1) lp0 0;
  _ ← pl_image_get 0 lp0 0;
  _ ← lift (getitem (_return_Y s) (-1));
  k ← hw_call;
  if return_line_ok hw k then mret tt else raise HardwareError.

(** ** The scan loop *)

(** [_hpix_end()], run in a thread at the end of the data treatment. The
    display buffers are not part of the model; reading the current line of
    the image for them is. *)
Definition _hpix_end : M Z :=
  try_except (
    s ← get;
    (if bool_decide (0 < scanline_size s / 2)%nat
     then _ ← lift (getitem (pl_image s) (line_position s).2); mret tt
     else mret tt);;
    emit sigPlotsUpdated;;
    (* return scanner to the start of the next line or stop the scan *)
    let lp0 := ((line_position s).1 + incr s)%Z in
    let lp1 := (line_position s).2 in
    modify (with_line_position (lp0, lp1));;
    if bool_decide (Z.of_nat (length (_X s)) ≤ lp0)%Z then
      modify (with_line_position (0, lp1 + 1)%Z);;
      if bool_decide (Z.of_nat (length (_Y s)) ≤ lp1 + 1)%Z then
        stop_scanning true;;
        modify (with_line_position (0, 0)%Z);;
        emit sigNextLine
      else
        return_h;;
        emit sigNextLine
    else emit sigNextLine)
  (stop_scanning false;; emit sigNextLine);;
  mret 0%Z.

(** [_vpix_end()]. *)
Definition _vpix_end : M Z :=
  try_except (
    s ← get;
    (if bool_decide (0 < scanline_size s / 2)%nat
     then _ ← lift (py_index (ncols (pl_image s)) (line_position s).1); mret tt
     else mret tt);;
    emit sigPlotsUpdated;;
    let lp0 := (line_position s).1 in
    let lp1 := ((line_position s).2 + incr s)%Z in
    modify (with_line_position (lp0, lp1));;
    if bool_decide (Z.of_nat (length (_Y s)) ≤ lp1)%Z then
      modify (with_line_position (lp0 + 1, 0)%Z);;
      if bool_decide (Z.of_nat (length (_X s)) ≤ lp0 + 1)%Z then
        stop_scanning true;;
        modify (with_line_position (0, 0)%Z);;
        emit sigNextLine
      else
        return_v;;
        emit sigNextLine
    else emit sigNextLine)
  (stop_scanning false;; emit sigNextLine);;
  mret 0%Z.

(** [move_after_scan_pixel()]. *)
Definition move_after_scan_pixel : M unit :=
  s ← get;
  if decide (scan_mode s = "_hpix")
  then spawn (_ ← _hpix_end; mret tt)
  else spawn (_ ← _vpix_end; mret tt).

(** [_scan_line()], one step of the scan; it returns [0], [-1] or nothing.
    The display of the remaining time is not part of the model. *)
Definition _scan_line : M (option Z) :=
  s ← get;
  if stopRequested s then
    _ ← kill_scanner;
    modify (with_stopRequested false);;
    emit sigPlotsUpdated;;
    mret (Some 0%Z)
  else
    try_except (
      r ← reset_position;
      (if bool_decide (r < 0)%Z
       then stop_scanning false;; emit sigNextLine
       else mret tt);;
      (* return the scanner to the start of the next line *)
      m ← (if decide (scan_mode s = "_hpix") then move_hpix else move_vpix);
      if bool_decide (m < 0)%Z then mret (Some (-1)%Z)
      else
        (* function_name() *)
        _ ← (if decide (scan_mode s = "_hpix") then _hpix
             else if decide (scan_mode s = "_vpix") then _vpix
             else raise TypeError);
        mret None)
    (stop_scanning false;; emit sigNextLine;; mret (Some (-1)%Z)).


(** ** The event loop *)

(** The slot of the first pending signal runs; an exception that leaves a
    slot is logged by the event loop and goes no further. *)
Definition slot (sg : signal) : M unit :=
  match sg with
  | sigNextLine => _ ← _scan_line; mret tt
  | sigScanPixelOver data data_isob => treat_data data data_isob
  | sigFinishedDataTreatment => move_after_scan_pixel
  | _ => mret tt
  end.

Definition dispatch (s : self_t) : self_t :=
  match queue s with
  | [] => s
  | sg :: q => (slot sg (with_queue q s)).1
  end.

(** [n] turns of the event loop. *)
Fixpoint run (n : nat) (s : self_t) : self_t :=
  match n with
  | O => s
  | S n' => run n' (dispatch s)
  end.

End Logic.

(** ** The state after activation, and a bench of collaborators *)

(** [on_activate()], with the defaults of the status variables and of the
    configuration options; the position range and the position of the
    scanner are those the scanning device reports. The image does not
    exist before the first initialization: the empty array stands for it. *)
Definition on_activate (hw : collaborators) (position_range : (Q * Q) * (Q * Q))
    (scanner_position : Q * Q) : self_t :=
  let '((xmin, xmax), (ymin, ymax)) := position_range in
  let o := {| o_mw_start := frequency_in_range hw 2870e6;
              o_mw_stop := frequency_in_range hw 2900e6;
              o_mw_step := list_step_in_range hw 30e6;
              o_clock_frequency := 10 |} in
  {| module_state := idle;
     meas_mode := "quenching";
     scan_mode := "_hpix";
     incr := 2;
     image_size := 5;
     scanline_size := 4;
     line_number := 2;
     number_sweeps := 1;
     resolution := (100, 100)%Z;
     range := ([xmin; xmax], [ymin; ymax]);
     center_position := (xmax / 2, ymax / 2);
     current_position := scanner_position;
     return_slowness := 50e-9;
     clock_frequency := 10;
     z_scanner_range := 3e-6;
     coeff_topo := 3e-6 / 4;
     mw_start := 2870e6;
     mw_stop := 2900e6;
     mw_step := 30e6;
     mw_step_hf := list_step_in_range hw 60e6;
     min_fullb := frequency_in_range hw 2800e6;
     max_fullb := frequency_in_range hw 2940e6;
     threshold := frequency_in_range hw 2920e6;
     resonance_frequency := 2870e6;
     freq1 := o_mw_start o;
     freq2 := o_mw_stop o;
     _odmr_logic := o;
     pl_image := [];
     topo_corr := [];
     _X := [];
     _Y := [];
     _return_X := [];
     _return_Y := [];
     freq_list := [];
     line_position := (0, 0)%Z;
     stopRequested := false;
     duration := 0;
     hw_calls := 0;
     queue := [];
     emitted := [] |}.

(** A bench of collaborators: the microwave source accepts every
    frequency, the positioner every move, the fitted plane is flat, and the
    counters answer [counts]. *)
Definition bench (counts : nat → Z → arr2) : collaborators :=
  {| get_odmr_counts := counts;
     scan_line := λ _ line, fmap (λ _, [0; 0]) (default [] (head line));
     start_line_reply := λ _, MoveOk;
     write_scanner_ao_ok := λ _, true;
     return_line_ok := λ _, true;
     plane_fit := λ s, Ok (zeros2 (Z.to_nat (resolution s).2) (Z.to_nat (resolution s).1));
     frequency_in_range := λ f, f;
     sweep_step_in_range := λ f, f;
     list_step_in_range := λ f, f |}.

(** A scan in progress, just after activation. *)
Definition scanning : self_t :=
  with_module_state locked (on_activate (bench (λ _ _, [])) ((0, 1), (0, 1)) (0, 0)).

(** ** The quantities of the specification *)




(** ** Frames *)

(** A relation between the attributes before and after that a method
    keeps, whether it returns or raises. *)
Definition keeps (R : relation self_t) {A} (m : M A) : Prop :=
  ∀ s, R s (m s).1.

(** The attribute (or the view of the attributes) [f] is the same. *)
Definition same {A} (f : self_t → A) : relation self_t := λ s s', f s' = f s.

(** ** The image as a grid *)

(** The image is a grid of [R] rows of [C] cells of [K] channels. *)
Definition grid (R C K : nat) (a : arr3) : Prop :=
  length a = R ∧ Forall (λ row, length row = C ∧ Forall (λ cell, length cell = K) row) a.








(** Two small configurations: a range of 2 by 2 around (1, 1), two
    pixels a line, a return slowness of 1. *)
Definition bare : self_t := on_activate (bench (λ _ _, [])) ((0, 2), (0, 2)) (0, 0).
Definition demo : self_t := (set_return_slowness 1 (set_resolution 2 2 bare).1).1.

(** The position channels 0 and 1 of every cell are the same. *)
Definition xy_same : relation self_t := λ s s',
  ∀ r c k, (k < 2)%nat → pixel (pl_image s') r c k = pixel (pl_image s) r c k.

(** The small configuration in iso-B mode, cursor on the second pixel of
    the first line. *)
Definition demo_isob : self_t :=
  with_line_position (1, 0)%Z (set_meas_mode "isob" demo).1.

(** ** Minima *)

(** [k] is the first index of a least element of [l]. *)
Definition first_min (l : list Q) (k : nat) : Prop :=
  ∃ x, l !! k = Some x ∧
       (∀ j y, l !! j = Some y → x <= y) ∧
       (∀ j y, (j < k)%nat → l !! j = Some y → x < y).

(** [i] is the first index of a least sample among the indices whose
    frequency is inside the bounds. *)
Definition first_min_in_bounds (lo hi : Q) (fl row0 : arr1) (i : nat) : Prop :=
  in_bounds lo hi fl i = true ∧
  ∃ x, row0 !! i = Some x ∧
    (∀ j y, in_bounds lo hi fl j = true → row0 !! j = Some y → x <= y) ∧
    (∀ j y, (j < i)%nat → in_bounds lo hi fl j = true → row0 !! j = Some y → x < y).

(** The small configuration in full-B mode: a window of three frequencies
    around 6000 MHz, a fine step of 10 MHz, a coarse step of 20 MHz, a
    threshold of 100 MHz; the resonance frequency is 2870 MHz. *)
Definition demo_fullb : self_t :=
  (set_sweep_parameters_fullb (bench (λ _ _, [])) 5990e6 6010e6 5000e6 7000e6 10e6 20e6
     1 100e6 (set_meas_mode "fullb" demo).1).1.

(** A sweep with its dip at the second frequency, and an iso-B read. *)
Definition sweep_dip : option arr2 := Some [[9; 1; 9]; [2; 2; 2]].
Definition isob_read : pydata := Arr2 [[4; 3]; [2; 2]].

(** ** Display of a duration *)

(** [int(x)] on a Python float: the fraction is dropped, towards zero. *)
Definition py_int (q : Q) : Z := if Qlt_bool q 0 then Qceiling q else Qfloor q.

(** [format_time(duration)]; ["{:d}".format(n)] is [pretty n]. Both
    [np.round] and Python's [round] take a half to the even integer. *)
Definition format_time (duration : Q) : string :=
  let minutes := py_int (duration / 60) in
  if decide (minutes = 0)%Z then pretty (py_int duration) +:+ " s"
  else
    let hours := py_int (inject_Z minutes / 60) in
    if decide (hours = 0)%Z then
      pretty minutes +:+ " min, "
        +:+ pretty (rint (duration - inject_Z (minutes * 60))) +:+ " s"
    else
      pretty hours +:+ " h, " +:+ pretty (minutes - hours * 60)%Z +:+ " min, "
        +:+ pretty (rint (duration - inject_Z (minutes * 60) - inject_Z (hours * 60)))
        +:+ " s".

(** ** Moving to a position *)



(** The replies of the collaborators that moving and starting consult. A
    call whose reply the class drops ([set_trigger], [get_status],
    [close_scanner_clock], [stop_odmr_counter], [mw_off]) is not part of
    the model. *)
Record device := {
  (** [_scanning_device.module_state() == 'locked'] *)
  device_locked : bool;
  (** [len(get_scanner_axes())] *)
  nb_axes : nat;
  (** whether [_scanning_device.scanner_set_position] returns *)
  scanner_set_position_ok : nat → bool;
  (** [_scanning_device.set_up_scanner_clock(clock_frequency=...)] *)
  set_up_scanner_clock : result Z;
  (** [_scanning_device.set_up_scanner(scanner_ao_channels=...)] *)
  set_up_scanner : result Z;
  (** [_odmr_logic._start_odmr_counter()] *)
  _start_odmr_counter : result Z;
  (** [is_running] of [_odmr_logic.mw_sweep_on()] *)
  mw_sweep_on_running : result bool;
  (** [module_state.unlock()] when the state is not ['locked'] *)
  unlock_refused : result unit;
}.

Section Control.

Variable dev : device.

(** [change_position()]: [current_position] holds two coordinates, one for
    each of the first two axes. *)
Definition change_position : M Z :=
  (if bool_decide (nb_axes dev ≤ 2)%nat then mret tt else raise IndexError);;
  k ← hw_call;
  (if scanner_set_position_ok dev k then mret tt else raise HardwareError);;
  mret 0%Z.

(** [set_position(x, y)]; [None] is an argument left out. *)
Definition set_position (x y : option Q) : M Z :=
  if device_locked dev then mret (-1)%Z
  else
    match x, y with
    | Some x, Some y =>
        modify (with_current_position (x, y));;
        _ ← change_position;
        mret tt
    | _, _ => mret tt
    end;;
    mret 0%Z.




(** [module_state.unlock()]. *)
Definition unlock : M unit :=
  s ← get;
  if decide (module_state s = locked) then modify (with_module_state idle)
  else lift (unlock_refused dev).

(** [start_scanner()]. The attribute [_normal_mw_step], which nothing
    reads, is not part of the model. *)
Definition start_scanner : M Z :=
  modify (with_stopRequested false);;
  s ← get;
  if decide (module_state s = locked) then mret (-1)%Z
  else
    modify (with_module_state locked);;
    (if decide (meas_mode s = "fullb") then
       n ← lift (sweep_points (_odmr_logic s));
       modify (with_line_number n)
     else mret tt);;
    (* the following test is important, it initializes the image *)
    r ← initialize_image (image_size s) (scanline_size s);
    if bool_decide (r < 0)%Z then unlock;; mret (-1)%Z
    else
      clock_status ← lift (set_up_scanner_clock dev);
      if bool_decide (clock_status < 0)%Z then
        unlock;; _ ← set_position None None; mret (-1)%Z
      else
        scanner_status ← lift (set_up_scanner dev);
        if bool_decide (scanner_status < 0)%Z then
          unlock;; _ ← set_position None None; mret (-1)%Z
        else
          failed ← (if decide (meas_mode s ≠ "quenching") then
                      odmr_status ← lift (_start_odmr_counter dev);
                      if bool_decide (odmr_status < 0)%Z then unlock;; (mret true : M bool)
                      else
                        is_running ← lift (mw_sweep_on_running dev);
                        if (is_running : bool) then (mret false : M bool) else unlock;; mret true
                    else (mret false : M bool));
          if (failed : bool) then mret (-1)%Z
          else emit sigNextLine;; mret 0%Z.


End Control.

(** A device that accepts everything: two axes, idle, every set-up call
    answers 0, the microwave sweep runs. *)
Definition bench_device : device :=
  {| device_locked := false;
     nb_axes := 2;
     scanner_set_position_ok := λ _, true;
     set_up_scanner_clock := Ok 0%Z;
     set_up_scanner := Ok 0%Z;
     _start_odmr_counter := Ok 0%Z;
     mw_sweep_on_running := Ok true;
     unlock_refused := Raise HardwareError |}.




(** ** Acquisitions *)

(** The number of calls of [get_odmr_counts] in one [scan_odmr_line]: the
    first, and [number_sweeps - 1] more when [number_sweeps > 1]. *)
Definition acquisitions (s : self_t) : nat :=
  if bool_decide (1 < number_sweeps s)%Z then S (Z.to_nat (number_sweeps s - 1)) else 1.

(** The attributes for the iso-B acquisition that [scan_pixel] makes in
    full-B mode after the sweep: [s] are the attributes when [scan_pixel]
    is entered, [s1] those after the sweep. *)
Definition isob_settings (s s1 : self_t) : self_t :=
  with_odmr_logic
    (with_o_mw_step (freq2 s - freq1 s)
       (with_o_mw_start (freq1 s) (with_o_mw_stop (freq2 s) (_odmr_logic s1))))
    (with_line_number 2 s1).

(** A counter whose first sample is the fault sentinel, and a scan in
    progress in iso-B mode on the small configuration. *)
Definition faulty : collaborators := bench (λ _ _, [[-1; 0]; [0; 0]]).
Definition demo_isob_locked : self_t := with_module_state locked demo_isob.

(** A counter that answers two samples to an iso-B read and four to a
    sweep, whatever the window. *)
Definition four_samples : collaborators :=
  bench (λ _ n, if decide (n = 2)%Z then [[4; 3]; [2; 2]] else [[9; 1; 9; 9]; [2; 2; 2; 2]]).


(** ** What the scan loop only adds to *)

(** From [s] to [s']: a stop that was requested is still requested, the
    signals emitted and those waiting for their slot have only been added
    to, and the state of the module is the same. *)
Definition only_adds : relation self_t := λ s s',
  (stopRequested s = true → stopRequested s' = true) ∧
  (∃ r, emitted s' = emitted s ++ r) ∧
  (∃ r, queue s' = queue s ++ r) ∧
  module_state s' = module_state s.

Definition demo_at_start : self_t := with_module_state locked (set_meas_mode "isob" demo).1.

(** The small configuration in quenching mode, cursor on the first pixel
    of the first line. *)
Definition demo_quenching : self_t := (set_meas_mode "quenching" demo).1.

(** A quenching scan in progress on a grid of four columns and two rows,
    cursor on the first pixel of the second line, the next line
    pending. *)
Definition demo_quenching_line : self_t :=
  with_queue [sigNextLine]
    (with_line_position (0, 1)%Z
       (with_module_state locked
          (set_meas_mode "quenching" (set_return_slowness 1 (set_resolution 4 2 bare).1).1).1)).

(** Collaborators whose positioner refuses every pixel move. *)
Definition stuck_positioner (hw : collaborators) : collaborators :=
  {| get_odmr_counts := get_odmr_counts hw;
     scan_line := scan_line hw;
     start_line_reply := start_line_reply hw;
     write_scanner_ao_ok := λ _, false;
     return_line_ok := return_line_ok hw;
     plane_fit := plane_fit hw;
     frequency_in_range := frequency_in_range hw;
     sweep_step_in_range := sweep_step_in_range hw;
     list_step_in_range := list_step_in_range hw |}.

(** * Properties *)

#[local] Arguments Qplus : simpl never.
#[local] Arguments Qminus : simpl never.
#[local] Arguments Qmult : simpl never.
#[local] Arguments Qdiv : simpl never.
#[local] Arguments Qopp : simpl never.
#[local] Arguments Qlt_bool : simpl never.
#[local] Arguments Qle_bool : simpl never.
#[local] Arguments Qeq_bool : simpl never.
#[local] Arguments inject_Z : simpl never.
#[local] Arguments linspace : simpl never.
#[local] Arguments arange : simpl never.
#[local] Arguments getitem : simpl never.
#[local] Arguments py_index : simpl never.
#[local] Arguments zeros3 : simpl never.
#[local] Arguments zeros2 : simpl never.
#[local] Arguments fill_x : simpl never.
#[local] Arguments fill_y : simpl never.

(** ** The monad *)

Lemma bind_run {A B} (m : M A) (f : A → M B) s :
  (m ≫= f) s = match m s with
               | (s', Ok a) => f a s'
               | (s', Raise e) => (s', Raise e)
               end.
Proof. reflexivity. Qed.

Lemma modify_bind_bind {B C} f (k : unit → M B) (g : B → M C) s :
  ((modify f ≫= k) ≫= g) s = (k tt ≫= g) (f s).
Proof. reflexivity. Qed.

Lemma bind_gets_result {A B} (m : M A) (f : self_t → B) s r :
  ((m;; gets f) s).2 = Ok r → r = f ((m;; gets f) s).1.
Proof. rewrite bind_run. destruct (m s) as [s1 [a|e]]; simpl; congruence. Qed.

Lemma run_lift_ok {A B} (a : A) (f : A → M B) s : (lift (Ok a) ≫= f) s = f a s.
Proof. reflexivity. Qed.

Lemma run_lift_raise {A B} e (f : A → M B) s : (lift (Raise e) ≫= f) s = (s, Raise e).
Proof. reflexivity. Qed.

Lemma run_raise {A B} e (f : A → M B) s : (raise e ≫= f) s = (s, Raise e).
Proof. reflexivity. Qed.

Lemma run_modify {B} g (f : unit → M B) s : (modify g ≫= f) s = f tt (g s).
Proof. reflexivity. Qed.

Lemma run_get {B} (f : self_t → M B) s : (get ≫= f) s = f s s.
Proof. reflexivity. Qed.

Lemma run_gets {A B} (g : self_t → A) (f : A → M B) s : (gets g ≫= f) s = f (g s) s.
Proof. reflexivity. Qed.

Lemma run_ret {A B} (a : A) (f : A → M B) s : (mret a ≫= f) s = f a s.
Proof. reflexivity. Qed.

Lemma run_emit {B} sg (f : unit → M B) s :
  (emit sg ≫= f) s =
  f tt (with_emitted (emitted s ++ [sg])
          (if has_slot sg then with_queue (queue s ++ [sg]) s else s)).
Proof. reflexivity. Qed.

Lemma run_with_odmr {B} g (f : unit → M B) s :
  (with_odmr g ≫= f) s = f tt (with_odmr_logic (g (_odmr_logic s)) s).
Proof. reflexivity. Qed.

Lemma run_assoc {A B C} (m : M A) (f : A → M B) (g : B → M C) s :
  ((m ≫= f) ≫= g) s = (m ≫= λ a, f a ≫= g) s.
Proof. rewrite !bind_run. by destruct (m s) as [s' [a|e]]. Qed.

(** Running a method on given attributes, one bind at a time. *)
Ltac mrun :=
  repeat first
    [ rewrite run_assoc | rewrite run_lift_ok | rewrite run_lift_raise | rewrite run_raise
    | rewrite run_modify | rewrite run_get | rewrite run_gets | rewrite run_ret
    | rewrite run_emit | rewrite run_with_odmr ];
  cbn beta iota.

#[global] Instance same_preorder {A} (f : self_t → A) : PreOrder (same f).
Proof. split; [by intros s | intros s1 s2 s3 H1 H2; unfold same in *; congruence]. Qed.

Section Keeps.
Context (R : relation self_t) `{!PreOrder R}.

Lemma keeps_ret {A} (a : A) : keeps R (mret a).
Proof. intros s. reflexivity. Qed.

Lemma keeps_bind {A B} (m : M A) (f : A → M B) :
  keeps R m → (∀ a, keeps R (f a)) → keeps R (m ≫= f).
Proof.
  intros Hm Hf s. rewrite bind_run. specialize (Hm s).
  destruct (m s) as [s' [a|e]]; simpl in *; [|done].
  etransitivity; [exact Hm | apply Hf].
Qed.

Lemma keeps_get : keeps R get.
Proof. intros s. reflexivity. Qed.

Lemma keeps_gets {A} (f : self_t → A) : keeps R (gets f).
Proof. intros s. reflexivity. Qed.

Lemma keeps_lift {A} (r : result A) : keeps R (lift r).
Proof. intros s. reflexivity. Qed.

Lemma keeps_raise {A} e : keeps R (raise (A := A) e).
Proof. intros s. reflexivity. Qed.

Lemma keeps_modify f : (∀ s, R s (f s)) → keeps R (modify f).
Proof. intros H s. apply H. Qed.

Lemma keeps_try_except {A} (m h : M A) :
  keeps R m → keeps R h → keeps R (try_except m h).
Proof.
  intros Hm Hh s. unfold try_except. specialize (Hm s).
  destruct (m s) as [s' [a|e]]; simpl in *; [done|].
  etransitivity; [exact Hm | apply Hh].
Qed.

Lemma keeps_emit sg :
  (∀ s v, R s (with_emitted v s)) → (∀ s v, R s (with_queue v s)) →
  keeps R (emit sg).
Proof.
  intros He Hq. apply keeps_modify. intros s. destruct (has_slot sg).
  - etransitivity; [apply Hq | apply He].
  - apply He.
Qed.
End Keeps.

Lemma keeps_bind_lift (R : relation self_t) `{!PreOrder R} {A B} (r : result A) (f : A → M B) :
  (∀ a, r = Ok a → keeps R (f a)) → keeps R (lift r ≫= f).
Proof.
  intros H s. destruct r as [a|e]; [|reflexivity]. by apply (H a).
Qed.


(** One step of a frame proof: the method is taken apart along its binds
    and branches; what is left are the attribute assignments. *)
Ltac keeps_step :=
  lazymatch goal with
  | |- PreOrder _ => typeclasses eauto
  | |- keeps _ (mret _) => apply keeps_ret
  | |- keeps _ (lift _ ≫= _) => apply keeps_bind_lift; [..|intros ? ?]
  | |- keeps _ (_ ≫= _) => apply keeps_bind; [..|intros ?]
  | |- keeps _ get => apply keeps_get
  | |- keeps _ (gets _) => apply keeps_gets
  | |- keeps _ (lift _) => apply keeps_lift
  | |- keeps _ (raise _) => apply keeps_raise
  | |- keeps _ (try_except _ _) => apply keeps_try_except
  | |- keeps _ (emit _) => apply keeps_emit; [..|intros ? ?|intros ? ?]
  | |- keeps _ (modify _) => apply keeps_modify; intros ?
  | |- keeps _ (with_odmr _) => apply keeps_modify; intros ?
  | |- keeps _ (match ?x with _ => _ end) => destruct x
  end.

Ltac keeps_auto := repeat keeps_step.

(** ** Python and numpy primitives *)

Lemma Qlt_bool_iff a b : Qlt_bool a b = true ↔ a < b.
Proof.
  unfold Qlt_bool. rewrite negb_true_iff, <- not_true_iff_false, Qle_bool_iff.
  split; [apply Qnot_le_lt | apply Qlt_not_le].
Qed.

Lemma py_index_nat n i : (i < n)%nat → py_index n (Z.of_nat i) = Ok i.
Proof.
  intros H. unfold py_index. rewrite bool_decide_true by lia. by rewrite Nat2Z.id.
Qed.

Lemma getitem_lookup {A} (l : list A) i x :
  l !! i = Some x → getitem l (Z.of_nat i) = Ok x.
Proof.
  intros H. unfold getitem. rewrite py_index_nat by (by eapply lookup_lt_Some).
  simpl. by rewrite H.
Qed.


(** ** Scan parameters *)



Lemma keeps_update_duration_resolution : keeps (same resolution) update_duration.
Proof.
  unfold update_duration, compute_scan_duration. keeps_auto; done.
Qed.

(** C9. While the module is not locked, [set_resolution(x_res, y_res)]
    stores [x_res - x_res mod 2, y_res - y_res mod 2], whether or not the
    refresh of the duration that follows raises: both stored values are
    even, an odd request is lowered by one, an even request is kept; when
    the call returns, it returns the stored resolution. *)
Theorem set_resolution_even s x_res y_res :
  module_state s ≠ locked →
  let s' := (set_resolution x_res y_res s).1 in
  resolution s' = (x_res - x_res `mod` 2, y_res - y_res `mod` 2)%Z ∧
  Z.even (resolution s').1 = true ∧ Z.even (resolution s').2 = true ∧
  (Z.odd x_res = true → (resolution s').1 = (x_res - 1)%Z) ∧
  (Z.even x_res = true → (resolution s').1 = x_res) ∧
  (Z.odd y_res = true → (resolution s').2 = (y_res - 1)%Z) ∧
  (Z.even y_res = true → (resolution s').2 = y_res) ∧
  (∀ r, (set_resolution x_res y_res s).2 = Ok r → r = resolution s').
Proof.
  intros Hidle s'.
  assert (Hmod : ∀ z : Z, (if decide (z `mod` 2 = 1)%Z then (z - 1)%Z else z) = (z - z `mod` 2)%Z).
  { intros z. pose proof (Z.mod_pos_bound z 2). case_decide; lia. }
  assert (Hres : resolution s' = (x_res - x_res `mod` 2, y_res - y_res `mod` 2)%Z).
  { subst s'. unfold set_resolution. rewrite bind_run. simpl.
    destruct (module_state s); [|done].
    rewrite !Hmod, modify_bind_bind.
    match goal with |- resolution (?m ?s0).1 = _ =>
      assert (keeps (same resolution) m) as Hk
    end.
    { keeps_auto; try done. apply keeps_update_duration_resolution. }
    apply Hk. }
  split; [done|]. rewrite Hres. simpl.
  assert (Hrun : ∀ r, (set_resolution x_res y_res s).2 = Ok r → r = resolution s').
  { intros r. subst s'. unfold set_resolution. rewrite bind_run. simpl.
    destruct (module_state s); [|done]. apply bind_gets_result. }
  rewrite <- !Z.negb_odd, !Z.odd_sub, !Zodd_mod.
  pose proof (Z.mod_pos_bound x_res 2). pose proof (Z.mod_pos_bound y_res 2).
  assert (Hx : (x_res `mod` 2 = 0 ∨ x_res `mod` 2 = 1)%Z) by lia.
  assert (Hy : (y_res `mod` 2 = 0 ∨ y_res `mod` 2 = 1)%Z) by lia.
  rewrite !Zmod_mod.
  clear H H0.
  repeat split.
  7: { intros r Hr. rewrite <- Hres. by apply Hrun. }
  all: clear Hres Hrun; destruct Hx as [Hx | Hx], Hy as [Hy | Hy];
    rewrite ?Hx, ?Hy; simpl; intros; lia || done.
Qed.

Lemma set_resolution_even_witness :
  resolution (set_resolution 7 (-3) (on_activate (bench (λ _ _, [])) ((0, 1), (0, 1)) (0, 0))).1
  = (6, -4)%Z.
Proof.
  refine (proj1 (set_resolution_even
            (on_activate (bench (λ _ _, [])) ((0, 1), (0, 1)) (0, 0)) 7 (-3) _)).
  discriminate.
Defined.

(** C10. While the module is locked, [set_range], [set_resolution],
    [set_return_slowness] and [set_clock_frequency] leave every attribute
    as it is (the parameter, and the log of emitted signals with it) and
    return the value the parameter already had. *)
Theorem locked_setters_frame s range_scan x_res y_res rs time_clock :
  module_state s = locked →
  set_range range_scan s = (s, Ok (range s)) ∧
  set_resolution x_res y_res s = (s, Ok (resolution s)) ∧
  set_return_slowness rs s = (s, Ok (return_slowness s)) ∧
  set_clock_frequency time_clock s = (s, Ok (clock_frequency s)).
Proof.
  intros H.
  unfold set_range, set_resolution, set_return_slowness, set_clock_frequency.
  rewrite !bind_run. simpl. rewrite H. done.
Qed.

Lemma locked_setters_frame_witness :
  module_state scanning = locked ∧
  set_range [0; 2; 0; 2] scanning = (scanning, Ok ([0; 1], [0; 1])) ∧
  set_resolution 7 9 scanning = (scanning, Ok (100, 100)%Z) ∧
  set_return_slowness 1 scanning = (scanning, Ok 50e-9) ∧
  set_clock_frequency (Some 2) scanning = (scanning, Ok 10).
Proof.
  split; [reflexivity|].
  apply (locked_setters_frame scanning [0; 2; 0; 2] 7 9 1 (Some 2)). reflexivity.
Defined.

(** ** The scan image *)






Lemma getitem_last {A} (l : list A) x : last l = Some x → getitem l (-1) = Ok x.
Proof.
  intros H. unfold getitem, py_index.
  assert (0 < length l)%nat as Hl by (destruct l; [done | simpl; lia]).
  rewrite bool_decide_false by lia. rewrite bool_decide_true by lia. simpl.
  rewrite last_lookup in H.
  replace (Z.to_nat (Z.of_nat (length l) + -1)) with (pred (length l)) by lia.
  by rewrite H.
Qed.





Lemma inverted c lo hi :
  hi < lo → Qlt_bool (c + (hi - lo) * 0.5) (c - (hi - lo) * 0.5) = true.
Proof.
  intros H. rewrite Qlt_bool_iff. lra.
Qed.










(** ** The position channels *)

#[global] Instance xy_same_preorder : PreOrder xy_same.
Proof.
  split; [by intros s r c k _|].
  intros s1 s2 s3 H1 H2 r c k Hk. by rewrite H2, H1.
Qed.

Lemma pixel_cell_alter f i j k a r c k' :
  k ≠ k' → pixel (cell_alter f i j k a) r c k' = pixel a r c k'.
Proof.
  intros Hk. unfold pixel, cell_alter.
  destruct (decide (i = r)) as [->|Hi].
  2: { by rewrite list_lookup_alter_ne by done. }
  rewrite list_lookup_alter_eq. destruct (a !! r) as [row|]; simpl; [|done].
  destruct (decide (j = c)) as [->|Hj].
  2: { by rewrite list_lookup_alter_ne by done. }
  rewrite list_lookup_alter_eq. destruct (row !! c) as [cell|]; simpl; [|done].
  by rewrite list_lookup_alter_ne by done.
Qed.













Section LoopFrame.
Variable hw : collaborators.




















End LoopFrame.



(** ** Storing a pixel *)

Lemma length_cell_alter f i j k a : length (cell_alter f i j k a) = length a.
Proof. apply length_alter. Qed.

Lemma head_alter {A} (f : A → A) i (l : list A) :
  head (alter f i l) = (if decide (i = 0%nat) then f else id) <$> head l.
Proof. destruct l as [|x l], i as [|i]; done. Qed.

Lemma ncols_cell_alter f i j k a : ncols (cell_alter f i j k a) = ncols a.
Proof.
  unfold ncols, cell_alter. rewrite head_alter.
  destruct (head a) as [row|]; simpl; [|done].
  case_decide; simpl; [|done]. apply length_alter.
Qed.

Lemma nchan_cell_alter f i j k a : nchan (cell_alter f i j k a) = nchan a.
Proof.
  unfold nchan, cell_alter. rewrite head_alter.
  destruct (head a) as [row|]; simpl; [|done].
  case_decide; simpl; [|done].
  unfold ncols. rewrite head_alter.
  destruct (head row) as [cell|]; simpl; [|done].
  case_decide; simpl; [|done]. apply length_alter.
Qed.

Lemma shape_cells_alter f ps vec a :
  length (cells_alter f ps vec a) = length a ∧
  ncols (cells_alter f ps vec a) = ncols a ∧
  nchan (cells_alter f ps vec a) = nchan a.
Proof.
  unfold cells_alter. revert vec. induction ps as [|[[i j] k] ps IH]; intros vec; [done|].
  destruct vec as [|v vec]; [done|]. simpl.
  rewrite length_cell_alter, ncols_cell_alter, nchan_cell_alter. apply IH.
Qed.

Lemma pixel_cell_alter_eq f i j k a :
  pixel (cell_alter f i j k a) i j k = f <$> pixel a i j k.
Proof.
  unfold pixel, cell_alter. rewrite list_lookup_alter_eq.
  destruct (a !! i) as [row|]; simpl; [|done].
  rewrite list_lookup_alter_eq. destruct (row !! j) as [cell|]; simpl; [|done].
  apply list_lookup_alter_eq.
Qed.

Lemma grid_pixel R C K a i j k :
  grid R C K a → (i < length a)%nat → (j < ncols a)%nat → (k < nchan a)%nat →
  is_Some (pixel a i j k).
Proof.
  intros [HR Hrows] Hi Hj Hk.
  assert (ncols a = C ∧ nchan a = K) as [HC HK].
  { destruct a as [|row a]; [simpl in Hi; lia|].
    apply Forall_cons in Hrows as [[Hrow Hcells] _]. unfold nchan, ncols in *. simpl in *.
    split; [done|]. destruct row as [|cell row]; [simpl in Hj; lia|].
    by apply Forall_cons in Hcells as [Hcell _]. }
  unfold pixel. destruct (lookup_lt_is_Some_2 a i Hi) as [row Hrow]. rewrite Hrow. simpl.
  rewrite Forall_lookup in Hrows. destruct (Hrows _ _ Hrow) as [Hlen Hcells].
  destruct (lookup_lt_is_Some_2 row j) as [cell Hcell]; [lia|]. rewrite Hcell. simpl.
  rewrite Forall_lookup in Hcells. specialize (Hcells _ _ Hcell).
  apply lookup_lt_is_Some_2. lia.
Qed.

Lemma index3_bounds a r c k i j :
  index3 a r c k = Ok (i, j) → (i < length a)%nat ∧ (j < ncols a)%nat ∧ (k < nchan a)%nat.
Proof.
  unfold index3, py_index.
  repeat (case_bool_decide; simpl); intros [= <- <-]; lia.
Qed.

Lemma index3_cell_alter f i j k a r c k' :
  index3 (cell_alter f i j k a) r c k' = index3 a r c k'.
Proof.
  unfold index3. by rewrite length_cell_alter, ncols_cell_alter, nchan_cell_alter.
Qed.

Lemma run_pl_image_set {B} r c k v (f : unit → M B) s :
  (pl_image_set r c k v ≫= f) s =
  match index3 (pl_image s) r c k with
  | Ok (i, j) => f tt (with_pl_image (cell_alter (λ _, v) i j k (pl_image s)) s)
  | Raise e => (s, Raise e)
  end.
Proof. unfold pl_image_set. mrun. by destruct (index3 _ _ _ _) as [[i j]|e]. Qed.

Lemma run_pl_image_add {B} r c k v (f : unit → M B) s :
  (pl_image_add r c k v ≫= f) s =
  match index3 (pl_image s) r c k with
  | Ok (i, j) => f tt (with_pl_image (cell_alter (λ old, old + v) i j k (pl_image s)) s)
  | Raise e => (s, Raise e)
  end.
Proof. unfold pl_image_add. mrun. by destruct (index3 _ _ _ _) as [[i j]|e]. Qed.

Lemma run_pl_image_get {B} r c k (f : Q → M B) s :
  (pl_image_get r c k ≫= f) s =
  match index3 (pl_image s) r c k with
  | Ok (i, j) => match pixel (pl_image s) i j k with
                 | Some v => f v s
                 | None => (s, Raise IndexError)
                 end
  | Raise e => (s, Raise e)
  end.
Proof.
  rewrite bind_run. unfold pl_image_get.
  destruct (index3 _ _ _ _) as [[i j]|e]; simpl; [|done].
  by destruct (pixel _ _ _ _).
Qed.

Lemma run_pl_image_assign {B} places g vec (f : unit → M B) s :
  (pl_image_assign places g vec ≫= f) s =
  match places (pl_image s) with
  | Ok ps => match broadcast_to (length ps) vec with
             | Ok vec' => f tt (with_pl_image (cells_alter g ps vec' (pl_image s)) s)
             | Raise e => (s, Raise e)
             end
  | Raise e => (s, Raise e)
  end.
Proof.
  unfold pl_image_assign. mrun. destruct (places _) as [ps|e]; mrun; [|done].
  by destruct (broadcast_to _ _) as [vec'|e].
Qed.

(** The attributes read back after assignments. *)
Ltac attrs :=
  cbn [
    module_state meas_mode scan_mode incr image_size scanline_size line_number
    number_sweeps resolution range center_position current_position return_slowness
    clock_frequency z_scanner_range coeff_topo mw_start mw_stop mw_step mw_step_hf
    min_fullb max_fullb threshold resonance_frequency freq1 freq2 _odmr_logic
    pl_image topo_corr _X _Y _return_X _return_Y freq_list line_position
    stopRequested duration hw_calls queue emitted with_module_state with_meas_mode
    with_incr with_image_size with_scanline_size with_line_number with_number_sweeps
    with_resolution with_range with_current_position with_return_slowness
    with_clock_frequency with_mw_start with_mw_stop with_mw_step with_mw_step_hf
    with_min_fullb with_max_fullb with_threshold with_freq1 with_freq2
    with_odmr_logic with_pl_image with_topo_corr with_X with_Y with_return_X
    with_return_Y with_freq_list with_line_position with_stopRequested with_duration
    with_hw_calls with_queue with_emitted o_mw_start o_mw_stop o_mw_step
    o_clock_frequency with_o_mw_start with_o_mw_stop with_o_mw_step
    with_o_clock_frequency ].

Ltac attrs_in H :=
  cbn [
    module_state meas_mode scan_mode incr image_size scanline_size line_number
    number_sweeps resolution range center_position current_position return_slowness
    clock_frequency z_scanner_range coeff_topo mw_start mw_stop mw_step mw_step_hf
    min_fullb max_fullb threshold resonance_frequency freq1 freq2 _odmr_logic
    pl_image topo_corr _X _Y _return_X _return_Y freq_list line_position
    stopRequested duration hw_calls queue emitted with_module_state with_meas_mode
    with_incr with_image_size with_scanline_size with_line_number with_number_sweeps
    with_resolution with_range with_current_position with_return_slowness
    with_clock_frequency with_mw_start with_mw_stop with_mw_step with_mw_step_hf
    with_min_fullb with_max_fullb with_threshold with_freq1 with_freq2
    with_odmr_logic with_pl_image with_topo_corr with_X with_Y with_return_X
    with_return_Y with_freq_list with_line_position with_stopRequested with_duration
    with_hw_calls with_queue with_emitted o_mw_start o_mw_stop o_mw_step
    o_clock_frequency with_o_mw_start with_o_mw_stop with_o_mw_step
    with_o_clock_frequency ] in H.

(** Running a method that is known to return: each step that may raise
    is taken in its returning case. *)
Ltac mrun_in H :=
  repeat first
    [ rewrite run_assoc in H | rewrite run_lift_ok in H | rewrite run_modify in H
    | rewrite run_get in H | rewrite run_gets in H | rewrite run_ret in H
    | rewrite run_emit in H | rewrite run_with_odmr in H
    | rewrite run_pl_image_set in H | rewrite run_pl_image_add in H
    | rewrite run_pl_image_get in H | rewrite run_pl_image_assign in H
    | rewrite index3_cell_alter in H ];
  cbn beta iota in H; attrs_in H.

Ltac mreturns H :=
  repeat first
    [ progress mrun_in H
    | lazymatch type of H with
      | (lift ?r ≫= _) _ = _ =>
          let E := fresh "E" in
          destruct r eqn:E; [|by rewrite run_lift_raise in H]
      | match ?r with Ok _ => _ | Raise _ => _ end = _ =>
          let E := fresh "E" in
          destruct r as [?|] eqn:E; [|done]
      | (let '(_, _) := ?p in _) = _ => destruct p
      | match ?o with Some _ => _ | None => _ end = _ =>
          let E := fresh "E" in
          destruct o eqn:E; [|done]
      end ].

Lemma index3_indices a r c k k' i j i' j' :
  index3 a r c k = Ok (i, j) → index3 a r c k' = Ok (i', j') → i = i' ∧ j = j'.
Proof.
  unfold index3. destruct (py_index (length a) r) as [i0|]; simpl; [|done].
  destruct (py_index (ncols a) c) as [j0|]; simpl; [|done].
  repeat case_bool_decide; naive_solver.
Qed.

Lemma chan_places_cell_alter f i j k a r c k0 k1 :
  chan_places r c k0 k1 (cell_alter f i j k a) = chan_places r c k0 k1 a.
Proof.
  unfold chan_places. by rewrite length_cell_alter, ncols_cell_alter, nchan_cell_alter.
Qed.

Lemma chan_places_index3 a r c k i j k0 k1 ps :
  index3 a r c k = Ok (i, j) → chan_places r c k0 k1 a = Ok ps →
  ps = (λ k, (i, j, k)) <$> slice_indices (nchan a) k0 k1.
Proof.
  unfold index3, chan_places. destruct (py_index (length a) r) as [i0|]; simpl; [|done].
  destruct (py_index (ncols a) c) as [j0|]; simpl; [|done].
  case_bool_decide; naive_solver.
Qed.

Lemma slice_indices_4_6 n : (6 ≤ n)%nat → slice_indices n 4 6 = [4; 5]%nat.
Proof.
  intros Hn. unfold slice_indices, clamp_slice. rewrite !bool_decide_false by lia.
  replace (Z.to_nat (Z.max 0 (Z.min (Z.of_nat n) 4))) with 4%nat by lia.
  replace (Z.to_nat (Z.max 0 (Z.min (Z.of_nat n) 6))) with 6%nat by lia.
  done.
Qed.

Lemma getitem_Ok_lookup {A} (l : list A) (i : nat) x :
  getitem l (Z.of_nat i) = Ok x → l !! i = Some x.
Proof.
  unfold getitem, py_index. case_bool_decide as H1; simpl.
  - rewrite Nat2Z.id. destruct (l !! i); simpl; congruence.
  - case_bool_decide; [lia|done].
Qed.

Lemma two_samples (l v : arr1) a b :
  getitem l 0 = Ok a → getitem l 1 = Ok b → broadcast_to 2 l = Ok v →
  l = [a; b] ∧ v = [a; b].
Proof.
  intros Ha Hb Hv. apply (getitem_Ok_lookup l 0) in Ha. apply (getitem_Ok_lookup l 1) in Hb.
  unfold broadcast_to in Hv.
  destruct l as [|x [|y [|z l]]]; simplify_eq/=; done.
Qed.

Lemma cells_alter_two f p1 p2 v1 v2 a :
  cells_alter f [p1; p2] [v1; v2] a =
  cell_alter (λ old, f old v1) p1.1.1 p1.1.2 p1.2
    (cell_alter (λ old, f old v2) p2.1.1 p2.1.2 p2.2 a).
Proof. by destruct p1 as [[??]?], p2 as [[??]?]. Qed.

Lemma emit_returns sg s s' : emit sg s = (s', Ok tt) →
  s' = with_emitted (emitted s ++ [sg])
         (if has_slot sg then with_queue (queue s ++ [sg]) s else s).
Proof. unfold emit, modify. congruence. Qed.

(** C7. In iso-B mode, when [treat_data] returns on an image that is a
    grid, the cell of the cursor holds: in channel 3 (PLdiff) the count at
    the first frequency minus the count at the second, [data[0][0] -
    data[0][1]]; in channels 4 and 5 (PL1, PL2) those two counts, which are
    all of [data[0]]; in channel 6 (raw topography) [z_scanner_range -
    coeff_topo * mean(data[1])], from the arithmetic mean of the topography
    samples of the two frequencies; and channel 2 (corrected topography) is
    raised by that value less the correction plane. The two frequencies are
    fixed by [set_sweep_parameters_isob], which sets the number of points of
    an acquisition to 2 and [freq1], [freq2] to the bounds of the window. *)
Theorem treat_data_isob hw s data data_isob s' R C K :
  meas_mode s = "isob" →
  grid R C K (pl_image s) →
  treat_data data data_isob s = (s', Ok tt) →
  (∀ f1 f2 s0,
     let s1 := (set_sweep_parameters_isob hw f1 f2 s0).1 in
     line_number s1 = 2%Z ∧ freq1 s1 = o_mw_start (_odmr_logic s1) ∧
     freq2 s1 = o_mw_stop (_odmr_logic s1)) ∧
  ∃ i j pl1 pl2 topo mean tc old,
    index3 (pl_image s) (line_position s).2 (line_position s).1 2 = Ok (i, j) ∧
    data_row data 0 = Ok [pl1; pl2] ∧
    data_row data 1 = Ok topo ∧ np_mean topo = Ok mean ∧
    topo_at (topo_corr s) (line_position s).2 (line_position s).1 = Ok tc ∧
    pixel (pl_image s) i j 2 = Some old ∧
    pixel (pl_image s') i j 3 = Some (pl1 - pl2) ∧
    pixel (pl_image s') i j 4 = Some pl1 ∧
    pixel (pl_image s') i j 5 = Some pl2 ∧
    pixel (pl_image s') i j 6 = Some (z_scanner_range s - coeff_topo s * mean) ∧
    pixel (pl_image s') i j 2 = Some (old + (z_scanner_range s - coeff_topo s * mean - tc)).
Proof.
  intros Hmode Hgrid H. split.
  { intros f1 f2 s0. unfold set_sweep_parameters_isob.
    destruct f1 as [f1|], f2 as [f2|]; try destruct (Qle_bool f2 f1); by mrun. }
  unfold treat_data in H. mrun_in H.
  destruct (line_position s) as [lp0 lp1] eqn:Hlp.
  rewrite decide_False in H by (rewrite Hmode; done).
  rewrite decide_True in H by done.
  mreturns H. simplify_eq.
  repeat match goal with
  | E1 : index3 (pl_image s) lp1 lp0 2 = Ok (?i, ?j),
    E2 : index3 (pl_image s) lp1 lp0 ?k = Ok (?i', ?j') |- _ =>
      lazymatch k with
      | 2%nat => fail
      | _ => destruct (index3_indices _ _ _ _ _ _ _ _ _ E2 E1) as [-> ->]
      end
  end.
  rename select (index3 _ _ _ 2 = _) into Hij.
  rename select (index3 _ _ _ 6 = _) into Hij6.
  rename select (np_mean _ = _) into Hmean.
  rename select (data_row data 1 = _) into Hrow1.
  rename select (data_row data 0 = _) into Hrow0.
  rename select (topo_at _ _ _ = _) into Htc.
  rename select (chan_places _ _ _ _ _ = _) into Hps.
  rename select (broadcast_to _ _ = _) into Hvec.
  rename select (getitem _ 0 = _) into Hpl1.
  rename select (getitem _ 1 = _) into Hpl2.
  rename select (pixel _ _ _ 2 = _) into Hold.
  rewrite !chan_places_cell_alter in Hps.
  apply (chan_places_index3 _ _ _ _ _ _ _ _ _ Hij) in Hps.
  destruct (index3_bounds _ _ _ _ _ _ Hij6) as (Hi & Hj & Hk).
  rewrite slice_indices_4_6 in Hps by lia. subst. simpl in Hvec.
  destruct (two_samples _ _ _ _ Hpl1 Hpl2 Hvec) as [-> ->].
  apply emit_returns in H. subst s'. cbn [has_slot]. attrs.
  rewrite pixel_cell_alter in Hold by done.
  assert (∀ k, (k < 7)%nat → is_Some (pixel (pl_image s) n1 n2 k)) as Hsome.
  { intros k Hk'. eapply grid_pixel; [done|lia..]. }
  destruct (Hsome 3%nat) as [v3 H3]; [lia|]. destruct (Hsome 4%nat) as [v4 H4]; [lia|].
  destruct (Hsome 5%nat) as [v5 H5]; [lia|]. destruct (Hsome 6%nat) as [v6 H6]; [lia|].
  eexists n1, n2, _, _, _, _, _, _. do 6 (split; [done|]).
  cbn [fmap list_fmap]. rewrite cells_alter_two. unfold assign, topo_of. cbn [fst snd].
  repeat split.
  - rewrite !(pixel_cell_alter _ _ _ _ _ _ _ 3) by done. rewrite pixel_cell_alter_eq.
    rewrite !pixel_cell_alter by done. by rewrite H3.
  - rewrite pixel_cell_alter_eq. rewrite !pixel_cell_alter by done. by rewrite H4.
  - rewrite pixel_cell_alter by done. rewrite pixel_cell_alter_eq.
    rewrite !pixel_cell_alter by done. by rewrite H5.
  - rewrite !(pixel_cell_alter _ _ _ _ _ _ _ 6) by done. rewrite pixel_cell_alter_eq.
    by rewrite H6.
  - rewrite !(pixel_cell_alter _ _ _ _ _ _ _ 2) by done. rewrite pixel_cell_alter_eq.
    rewrite pixel_cell_alter by done. by rewrite Hold.
Qed.

Lemma demo_isob_grid : grid 2 2 7 (pl_image demo_isob).
Proof. split; [reflexivity|]. vm_compute. repeat constructor. Qed.

Lemma treat_data_isob_witness :
  ∃ i j pl1 pl2 topo mean tc old,
    index3 (pl_image demo_isob) 0 1 2 = Ok (i, j) ∧
    data_row (Some [[5; 3]; [1; 3]]) 0 = Ok [pl1; pl2] ∧
    data_row (Some [[5; 3]; [1; 3]]) 1 = Ok topo ∧ np_mean topo = Ok mean ∧
    topo_at (topo_corr demo_isob) 0 1 = Ok tc ∧
    pixel (pl_image demo_isob) i j 2 = Some old ∧
    pixel (pl_image (treat_data (Some [[5; 3]; [1; 3]]) (Arr1 [0]) demo_isob).1) i j 3
      = Some (pl1 - pl2) ∧
    pixel (pl_image (treat_data (Some [[5; 3]; [1; 3]]) (Arr1 [0]) demo_isob).1) i j 4
      = Some pl1 ∧
    pixel (pl_image (treat_data (Some [[5; 3]; [1; 3]]) (Arr1 [0]) demo_isob).1) i j 5
      = Some pl2 ∧
    pixel (pl_image (treat_data (Some [[5; 3]; [1; 3]]) (Arr1 [0]) demo_isob).1) i j 6
      = Some (z_scanner_range demo_isob - coeff_topo demo_isob * mean) ∧
    pixel (pl_image (treat_data (Some [[5; 3]; [1; 3]]) (Arr1 [0]) demo_isob).1) i j 2
      = Some (old + (z_scanner_range demo_isob - coeff_topo demo_isob * mean - tc)).
Proof.
  refine (proj2 (treat_data_isob (bench (λ _ _, [])) demo_isob (Some [[5; 3]; [1; 3]])
                   (Arr1 [0]) _ 2 2 7 _ demo_isob_grid _)).
  - reflexivity.
  - vm_compute. reflexivity.
Defined.

(** ** Tracking the resonance *)

Lemma Qlt_bool_false a b : Qlt_bool a b = false ↔ b <= a.
Proof.
  rewrite <- not_true_iff_false, Qlt_bool_iff. split; [apply Qnot_lt_le | apply Qle_not_lt].
Qed.

Lemma argmin_from_spec p l best ibest :
  p !! ibest = Some best →
  (∀ j y, p !! j = Some y → best <= y) →
  (∀ j y, (j < ibest)%nat → p !! j = Some y → best < y) →
  first_min (p ++ l) (argmin_from best ibest (length p) l).
Proof.
  revert p best ibest. induction l as [|x l IH]; intros p best ibest Hb Hle Hlt; simpl.
  - rewrite app_nil_r. by exists best.
  - replace (p ++ x :: l) with ((p ++ [x]) ++ l) by (by rewrite <- app_assoc).
    replace (S (length p)) with (length (p ++ [x])) by (rewrite length_app; simpl; lia).
    destruct (Qlt_bool x best) eqn:Hx.
    + apply Qlt_bool_iff in Hx. apply IH.
      * by rewrite lookup_app_r, Nat.sub_diag.
      * intros j y Hj. apply lookup_app_Some in Hj as [Hj|[_ Hj]].
        -- apply Qlt_le_weak. eapply Qlt_le_trans; [exact Hx|by eapply Hle].
        -- apply list_lookup_singleton_Some in Hj as [_ <-]. apply Qle_refl.
      * intros j y Hjk Hj. rewrite lookup_app_l in Hj by done.
        eapply Qlt_le_trans; [exact Hx|by eapply Hle].
    + apply Qlt_bool_false in Hx. apply IH.
      * rewrite lookup_app_l; [done|]. by eapply lookup_lt_Some.
      * intros j y Hj. apply lookup_app_Some in Hj as [Hj|[_ Hj]]; [by eapply Hle|].
        by apply list_lookup_singleton_Some in Hj as [_ <-].
      * intros j y Hjk Hj. apply lookup_app_Some in Hj as [Hj|[Hge _]]; [by eapply Hlt|].
        apply lookup_lt_Some in Hb. lia.
Qed.

Lemma np_argmin_spec l k : np_argmin l = Ok k → first_min l k.
Proof.
  destruct l as [|x l]; [done|]. simpl. intros [= <-].
  apply (argmin_from_spec [x] l x 0).
  - done.
  - intros [|j] y; simpl; [intros [= <-]; apply Qle_refl | done].
  - intros j y Hj. lia.
Qed.

Lemma first_min_unique l k k' : first_min l k → first_min l k' → k = k'.
Proof.
  intros (x & Hx & Hle & Hlt) (x' & Hx' & Hle' & Hlt').
  destruct (Nat.lt_trichotomy k k') as [H|[H|H]]; [|done|].
  - specialize (Hlt' _ _ H Hx). specialize (Hle _ _ Hx'). lra.
  - specialize (Hlt _ _ H Hx'). specialize (Hle' _ _ Hx). lra.
Qed.

Lemma mapM_result_lookup {A B} (g : A → result B) (l : list A) (r : list B) :
  mapM (M := result) g l = Ok r →
  ∀ p i, l !! p = Some i → ∃ y, g i = Ok y ∧ r !! p = Some y.
Proof.
  revert r. induction l as [|a l IH]; intros r Hr p i Hp; [done|].
  simpl in Hr. destruct (g a) as [b|] eqn:Hb; [|done]. simpl in Hr.
  destruct (mapM g l) as [r'|] eqn:Hr'; [|done]. simpl in Hr. injection Hr as <-.
  destruct p as [|p]; simpl in *.
  - injection Hp as <-. by exists b.
  - by apply IH.
Qed.

Lemma filter_seq_ge (P : nat → bool) start n i :
  i ∈ List.filter P (seq start n) → (start ≤ i < start + n)%nat ∧ P i = true.
Proof.
  rewrite list_elem_of_In, filter_In, in_seq. naive_solver.
Qed.

Lemma filter_seq_increasing (P : nat → bool) start n p p' i i' :
  List.filter P (seq start n) !! p = Some i →
  List.filter P (seq start n) !! p' = Some i' →
  (p < p')%nat → (i < i')%nat.
Proof.
  revert start p p'. induction n as [|n IH]; intros start p p' Hp Hp' Hlt; [done|].
  simpl in *. destruct (P start).
  - destruct p' as [|p']; [lia|]. simpl in Hp'.
    destruct p as [|p]; simpl in Hp.
    + injection Hp as <-. apply list_elem_of_lookup_2, filter_seq_ge in Hp'. lia.
    + eapply IH; [done..|lia].
  - by eapply IH.
Qed.

Lemma filter_seq_position (P : nat → bool) n i :
  (i < n)%nat → P i = true → ∃ p, List.filter P (seq 0 n) !! p = Some i.
Proof.
  intros Hi HP. apply list_elem_of_lookup_1, list_elem_of_In, filter_In.
  split; [apply in_seq; lia | done].
Qed.

Lemma in_bounds_lt lo hi fl i : in_bounds lo hi fl i = true → (i < length fl)%nat.
Proof.
  unfold in_bounds. destruct (fl !! i) eqn:E; [|done]. intros _. by eapply lookup_lt_Some.
Qed.

Lemma in_bounds_iff lo hi fl i f :
  fl !! i = Some f → in_bounds lo hi fl i = true ↔ lo <= f ∧ f <= hi.
Proof.
  intros E. unfold in_bounds. rewrite E, andb_true_iff, !Qle_bool_iff. tauto.
Qed.

Lemma select_minimum_spec fl row0 indmin lo hi f :
  select_minimum fl row0 indmin lo hi = Ok f →
  ∃ f0, fl !! indmin = Some f0 ∧
    ((lo < f0 ∧ f0 < hi ∧ f = f0) ∨
     ((f0 <= lo ∨ hi <= f0) ∧
      ∃ i, fl !! i = Some f ∧ first_min_in_bounds lo hi fl row0 i)).
Proof.
  unfold select_minimum. intros H.
  destruct (getitem fl (Z.of_nat indmin)) as [f0|] eqn:Hf0; [|done]. simpl in H.
  apply getitem_Ok_lookup in Hf0. exists f0. split; [done|].
  destruct (Qle_bool f0 lo || Qle_bool hi f0) eqn:Hout.
  2: { apply orb_false_iff in Hout as [H1 H2]. injection H as <-. left.
       apply not_true_iff_false in H1, H2. rewrite Qle_bool_iff in H1, H2.
       split; [by apply Qnot_le_lt|]. split; [by apply Qnot_le_lt|done]. }
  right. split.
  { apply orb_true_iff in Hout. by rewrite !Qle_bool_iff in Hout. }
  set (indices := List.filter (in_bounds lo hi fl) (seq 0 (length fl))) in *.
  destruct (mapM _ indices) as [esr|] eqn:Hesr; [|done]. simpl in H.
  destruct (np_argmin esr) as [k|] eqn:Hk; [|done]. simpl in H.
  destruct (getitem indices (Z.of_nat k)) as [i|] eqn:Hi; [|done]. simpl in H.
  apply getitem_Ok_lookup in Hi, H. exists i. split; [done|].
  pose proof (mapM_result_lookup _ _ _ Hesr) as Hlook.
  apply np_argmin_spec in Hk as (x & Hx & Hle & Hlt).
  destruct (Hlook _ _ Hi) as (x' & Hx' & Hxk). apply getitem_Ok_lookup in Hx'.
  assert (x' = x) as -> by congruence.
  assert (Hin : in_bounds lo hi fl i = true).
  { by apply list_elem_of_lookup_2, filter_seq_ge in Hi as [_ ?]. }
  split; [done|]. exists x. split; [done|]. split.
  - intros j y Hj Hy.
    destruct (filter_seq_position (in_bounds lo hi fl) (length fl) j) as [p Hp];
      [by eapply in_bounds_lt|done|].
    destruct (Hlook _ _ Hp) as (y' & Hy' & Hyp). apply getitem_Ok_lookup in Hy'.
    assert (y' = y) as -> by congruence. by eapply Hle.
  - intros j y Hji Hj Hy.
    destruct (filter_seq_position (in_bounds lo hi fl) (length fl) j) as [p Hp];
      [by eapply in_bounds_lt|done|].
    destruct (Hlook _ _ Hp) as (y' & Hy' & Hyp). apply getitem_Ok_lookup in Hy'.
    assert (y' = y) as -> by congruence.
    eapply Hlt; [|done]. destruct (Nat.lt_trichotomy p k) as [?|[->|Hkp]]; [done| |].
    + fold indices in Hp. assert (i = j) by congruence. lia.
    + pose proof (filter_seq_increasing _ _ _ _ _ _ _ Hi Hp Hkp). lia.
Qed.

Lemma select_minimum_inside fl row0 indmin lo hi f0 f :
  first_min row0 indmin → fl !! indmin = Some f0 →
  lo <= f0 → f0 <= hi →
  select_minimum fl row0 indmin lo hi = Ok f → f = f0.
Proof.
  intros (m & Hm & Hle & Hlt) Hf0 Hlo Hhi H.
  apply select_minimum_spec in H as (f0' & Hf0' & [(_ & _ & ->)|[_ (i & Hi & Hin & x & Hx & Hle' & Hlt')]]);
    [congruence|].
  assert (Hin0 : in_bounds lo hi fl indmin = true)
    by (by apply (in_bounds_iff lo hi fl indmin f0 Hf0)).
  destruct (Nat.lt_trichotomy i indmin) as [Hlt0|[->|Hlt0]]; [|congruence|].
  - specialize (Hlt _ _ Hlt0 Hx). specialize (Hle' _ _ Hin0 Hm). lra.
  - specialize (Hlt' _ _ Hlt0 Hin0 Hm). specialize (Hle _ _ Hx). lra.
Qed.

(** What [treat_data] assigns in full-B mode, when it returns. *)
Lemma treat_data_fullb_returns s data data_isob s' :
  meas_mode s ≠ "quenching" → meas_mode s ≠ "isob" →
  treat_data data data_isob s = (s', Ok tt) →
  ∃ q fl row0 indmin freq_min first last_,
    py_div (mw_stop s - mw_start s) (mw_step s) = Ok q ∧
    linspace (mw_start s) (mw_start s + inject_Z (rint q) * mw_step s) (rint q + 1) = Ok fl ∧
    freq_list s' = fl ∧
    data_row data 0 = Ok row0 ∧ np_argmin row0 = Ok indmin ∧
    select_minimum fl row0 indmin (min_fullb s) (max_fullb s) = Ok freq_min ∧
    getitem fl 0 = Ok first ∧ getitem fl (-1) = Ok last_ ∧
    mw_start s' = freq_min - (last_ - first) / 2 ∧
    mw_stop s' = freq_min + (last_ - first) / 2 ∧
    o_mw_start (_odmr_logic s') = mw_start s' ∧
    o_mw_stop (_odmr_logic s') = mw_stop s' ∧
    o_mw_step (_odmr_logic s') =
      select_step (resonance_frequency s) freq_min (threshold s) (mw_step s) (mw_step_hf s) ∧
    sweep_points (_odmr_logic s') = Ok (line_number s').
Proof.
  intros Hq Hi H. unfold treat_data in H. mrun_in H.
  destruct (line_position s) as [lp0 lp1] eqn:Hlp.
  rewrite !decide_False in H by done.
  mreturns H. simplify_eq.
  apply emit_returns in H. subst s'. cbn [has_slot]. attrs.
  eexists _, _, _, _, _, _, _. repeat split; done.
Qed.

Lemma getitem_last_inv {A} (l : list A) x : getitem l (-1) = Ok x → last l = Some x.
Proof.
  unfold getitem, py_index. rewrite bool_decide_false by lia.
  case_bool_decide as H; [|done]. simpl.
  replace (Z.to_nat (Z.of_nat (length l) + -1)) with (pred (length l)) by lia.
  rewrite last_lookup. destruct (l !! pred (length l)); simpl; congruence.
Qed.

Lemma rint_integer q k : q == inject_Z k → rint q = k.
Proof.
  intros H. unfold rint. rewrite (Qfloor_comp _ _ H), Qfloor_Z.
  assert (Qlt_bool (q - inject_Z k) 0.5 = true) as ->; [|done].
  apply Qlt_bool_iff. lra.
Qed.

Lemma linspace_span a b n l first last_ :
  linspace a b n = Ok l → getitem l 0 = Ok first → getitem l (-1) = Ok last_ →
  first == a ∧ (n = 1%Z → last_ = a) ∧ ((1 < n)%Z → last_ = b).
Proof.
  unfold linspace. case_bool_decide; [done|].
  intros Hl Hfirst Hlast. apply (getitem_Ok_lookup l 0) in Hfirst.
  apply getitem_last_inv in Hlast.
  destruct (Z.to_nat n) as [|[|m]] eqn:Hn; injection Hl as <-.
  - done.
  - simplify_eq/=. split; [reflexivity|]. split; [done|lia].
  - rewrite app_comm_cons, last_snoc in Hlast. simplify_eq/=. split; [|split; [lia|done]].
    unfold Qdiv. change (inject_Z 0) with 0. ring.
Qed.

(** C3. In full-B mode, when [treat_data] returns: the frequency list is
    [np.linspace] over the window of the sweep, and the dip is the
    frequency [f0] of the first least sample. If [f0] is inside
    [[min_fullb, max_fullb]] the tracked minimum is [f0]; if [f0] is not
    strictly inside, the tracked minimum is the frequency of the first
    least sample among the samples whose frequency is inside the bounds
    (on a bound the two agree). The next window is [freq_min - halfSpan],
    [freq_min + halfSpan], [halfSpan] being half of the last frequency of
    the list less the first, also in the ODMR logic: its width is the span
    of the list, which is the width of the window before when that is a
    whole number of steps, and its centre is the tracked minimum. *)
Theorem treat_data_tracks_minimum s data data_isob s' :
  meas_mode s ≠ "quenching" → meas_mode s ≠ "isob" →
  treat_data data data_isob s = (s', Ok tt) →
  ∃ q row0 indmin f0 freq_min first last_,
    py_div (mw_stop s - mw_start s) (mw_step s) = Ok q ∧
    linspace (mw_start s) (mw_start s + inject_Z (rint q) * mw_step s) (rint q + 1)
      = Ok (freq_list s') ∧
    data_row data 0 = Ok row0 ∧ first_min row0 indmin ∧
    freq_list s' !! indmin = Some f0 ∧
    head (freq_list s') = Some first ∧ last (freq_list s') = Some last_ ∧
    (min_fullb s <= f0 ∧ f0 <= max_fullb s → freq_min = f0) ∧
    (¬ (min_fullb s < f0 ∧ f0 < max_fullb s) →
       ∃ i, freq_list s' !! i = Some freq_min ∧
            first_min_in_bounds (min_fullb s) (max_fullb s) (freq_list s') row0 i) ∧
    mw_start s' = freq_min - (last_ - first) / 2 ∧
    mw_stop s' = freq_min + (last_ - first) / 2 ∧
    o_mw_start (_odmr_logic s') = mw_start s' ∧
    o_mw_stop (_odmr_logic s') = mw_stop s' ∧
    mw_stop s' - mw_start s' == last_ - first ∧
    (mw_start s' + mw_stop s') / 2 == freq_min ∧
    (∀ k, (0 ≤ k)%Z → mw_stop s - mw_start s == inject_Z k * mw_step s →
          mw_stop s' - mw_start s' == mw_stop s - mw_start s).
Proof.
  intros Hq Hi H.
  destruct (treat_data_fullb_returns _ _ _ _ Hq Hi H)
    as (q & fl & row0 & indmin & freq_min & first & last_ & Hdiv & Hlin & Hfl & Hrow0 & Hind
        & Hsel & Hfirst & Hlast & Hstart & Hstop & Hostart & Hostop & _).
  rewrite Hostart, Hostop, Hfl, Hstart, Hstop.
  pose proof (np_argmin_spec _ _ Hind) as Hmin.
  destruct (select_minimum_spec _ _ _ _ _ _ Hsel) as (f0 & Hf0 & Hcases).
  exists q, row0, indmin, f0, freq_min, first, last_.
  do 5 (split; [done|]).
  split. { apply (getitem_Ok_lookup fl 0) in Hfirst. by rewrite head_lookup. }
  split. { by apply getitem_last_inv. }
  split. { intros [Hlo Hhi]. by eapply select_minimum_inside. }
  split. { intros Hout. destruct Hcases as [(? & ? & _)|[_ ?]]; [tauto|done]. }
  do 4 (split; [done|]). split; [field|]. split; [field|].
  intros k Hk Hwhole.
  unfold py_div in Hdiv. destruct (Qeq_bool (mw_step s) 0) eqn:Hz; [done|].
  apply Qeq_bool_neq in Hz. injection Hdiv as <-.
  assert (Hr : rint ((mw_stop s - mw_start s) / mw_step s) = k).
  { apply rint_integer. rewrite Hwhole. by field. }
  rewrite Hr in Hlin.
  destruct (linspace_span _ _ _ _ _ _ Hlin Hfirst Hlast) as (Hf & H1 & H2).
  destruct (decide (k = 0%Z)) as [->|Hk0].
  - rewrite (H1 eq_refl), Hf, Hwhole. change (inject_Z 0) with 0. field.
  - rewrite H2 by lia. rewrite Hf, Hwhole. field.
Qed.

Lemma demo_fullb_returns :
  treat_data sweep_dip isob_read demo_fullb
  = ((treat_data sweep_dip isob_read demo_fullb).1, Ok tt).
Proof. vm_compute. reflexivity. Qed.

Lemma treat_data_tracks_minimum_witness :
  ∃ freq_min first last_,
    head (freq_list (treat_data sweep_dip isob_read demo_fullb).1) = Some first ∧
    last (freq_list (treat_data sweep_dip isob_read demo_fullb).1) = Some last_ ∧
    mw_start (treat_data sweep_dip isob_read demo_fullb).1 = freq_min - (last_ - first) / 2 ∧
    mw_stop (treat_data sweep_dip isob_read demo_fullb).1 = freq_min + (last_ - first) / 2.
Proof.
  destruct (treat_data_tracks_minimum demo_fullb sweep_dip isob_read _
              ltac:(vm_compute; discriminate) ltac:(vm_compute; discriminate)
              demo_fullb_returns)
    as (q & row0 & indmin & f0 & freq_min & first & last_ & _ & _ & _ & _ & _ & Hfirst & Hlast
        & _ & _ & Hstart & Hstop & _).
  exists freq_min, first, last_.
  exact (conj Hfirst (conj Hlast (conj Hstart Hstop))).
Defined.

(** C4, as amended. In full-B mode, when [treat_data] returns, the step
    given to the ODMR logic for the next sweep is the fine step [mw_step]
    exactly when the signed difference [resonance_frequency - freq_min] is
    below the threshold, and the coarse step [mw_step_hf] otherwise, where
    [freq_min] is the tracked minimum, the centre of the new window; the
    number of points of the next sweep is recomputed from that step. *)
Theorem treat_data_selects_step s data data_isob s' :
  meas_mode s ≠ "quenching" → meas_mode s ≠ "isob" →
  treat_data data data_isob s = (s', Ok tt) →
  ∃ row0 indmin freq_min,
    data_row data 0 = Ok row0 ∧ np_argmin row0 = Ok indmin ∧
    select_minimum (freq_list s') row0 indmin (min_fullb s) (max_fullb s) = Ok freq_min ∧
    (mw_start s' + mw_stop s') / 2 == freq_min ∧
    (resonance_frequency s - freq_min < threshold s →
       o_mw_step (_odmr_logic s') = mw_step s) ∧
    (threshold s <= resonance_frequency s - freq_min →
       o_mw_step (_odmr_logic s') = mw_step_hf s) ∧
    sweep_points (_odmr_logic s') = Ok (line_number s').
Proof.
  intros Hq Hi H.
  destruct (treat_data_fullb_returns _ _ _ _ Hq Hi H)
    as (q & fl & row0 & indmin & freq_min & first & last_ & _ & _ & Hfl & Hrow0 & Hind
        & Hsel & _ & _ & Hstart & Hstop & _ & _ & Hstep & Hpoints).
  exists row0, indmin, freq_min. rewrite Hfl, Hstart, Hstop, Hstep.
  do 3 (split; [done|]). split; [field|]. unfold select_step.
  split; [|split; [|done]].
  - intros Hlt. apply Qlt_bool_iff in Hlt. by rewrite Hlt.
  - intros Hge. apply Qlt_bool_false in Hge. by rewrite Hge.
Qed.

Lemma treat_data_selects_step_witness :
  ∃ row0 indmin freq_min,
    data_row sweep_dip 0 = Ok row0 ∧ np_argmin row0 = Ok indmin ∧
    select_minimum (freq_list (treat_data sweep_dip isob_read demo_fullb).1) row0 indmin
      (min_fullb demo_fullb) (max_fullb demo_fullb) = Ok freq_min ∧
    ((mw_start (treat_data sweep_dip isob_read demo_fullb).1
      + mw_stop (treat_data sweep_dip isob_read demo_fullb).1) / 2 == freq_min) ∧
    (resonance_frequency demo_fullb - freq_min < threshold demo_fullb →
       o_mw_step (_odmr_logic (treat_data sweep_dip isob_read demo_fullb).1)
       = mw_step demo_fullb) ∧
    (threshold demo_fullb <= resonance_frequency demo_fullb - freq_min →
       o_mw_step (_odmr_logic (treat_data sweep_dip isob_read demo_fullb).1)
       = mw_step_hf demo_fullb) ∧
    sweep_points (_odmr_logic (treat_data sweep_dip isob_read demo_fullb).1)
    = Ok (line_number (treat_data sweep_dip isob_read demo_fullb).1).
Proof.
  apply (treat_data_selects_step demo_fullb sweep_dip isob_read _);
    [vm_compute; discriminate | vm_compute; discriminate | apply demo_fullb_returns].
Defined.

(** C4, as stated, fails. With the resonance frequency at 2870 MHz, the
    threshold at 100 MHz and the dip tracked at 6000 MHz, the absolute
    difference, 3130 MHz, is not below the threshold, and yet the fine
    step is chosen: the signed difference is negative. *)
Lemma select_step_not_absolute :
  (treat_data sweep_dip isob_read demo_fullb).2 = Ok tt ∧
  (mw_start (treat_data sweep_dip isob_read demo_fullb).1
   + mw_stop (treat_data sweep_dip isob_read demo_fullb).1) / 2 == 6000e6 ∧
  ¬ Qabs (resonance_frequency demo_fullb - 6000e6) < threshold demo_fullb ∧
  o_mw_step (_odmr_logic (treat_data sweep_dip isob_read demo_fullb).1) == mw_step demo_fullb ∧
  ¬ o_mw_step (_odmr_logic (treat_data sweep_dip isob_read demo_fullb).1)
    == mw_step_hf demo_fullb.
Proof.
  split; [vm_compute; reflexivity|]. split; [vm_compute; reflexivity|].
  split; [vm_compute; discriminate|]. split; [vm_compute; reflexivity|].
  vm_compute. discriminate.
Qed.

(** * Further properties of the code *)

(** ** Equality of attribute records *)

(** Two records of attributes are equal when every attribute is. *)
Lemma self_ext (s t : self_t) :
  module_state s = module_state t →
  meas_mode s = meas_mode t →
  scan_mode s = scan_mode t →
  incr s = incr t →
  image_size s = image_size t →
  scanline_size s = scanline_size t →
  line_number s = line_number t →
  number_sweeps s = number_sweeps t →
  resolution s = resolution t →
  range s = range t →
  center_position s = center_position t →
  current_position s = current_position t →
  return_slowness s = return_slowness t →
  clock_frequency s = clock_frequency t →
  z_scanner_range s = z_scanner_range t →
  coeff_topo s = coeff_topo t →
  mw_start s = mw_start t →
  mw_stop s = mw_stop t →
  mw_step s = mw_step t →
  mw_step_hf s = mw_step_hf t →
  min_fullb s = min_fullb t →
  max_fullb s = max_fullb t →
  threshold s = threshold t →
  resonance_frequency s = resonance_frequency t →
  freq1 s = freq1 t →
  freq2 s = freq2 t →
  _odmr_logic s = _odmr_logic t →
  pl_image s = pl_image t →
  topo_corr s = topo_corr t →
  _X s = _X t →
  _Y s = _Y t →
  _return_X s = _return_X t →
  _return_Y s = _return_Y t →
  freq_list s = freq_list t →
  line_position s = line_position t →
  stopRequested s = stopRequested t →
  duration s = duration t →
  hw_calls s = hw_calls t →
  queue s = queue t →
  emitted s = emitted t →
  s = t.
Proof. destruct s, t. simpl. intros. by subst. Qed.

(** Equality of two states built by assignments from the same record. *)
Ltac self_eq := apply self_ext; attrs; try reflexivity.

(** ** The display of a duration *)

Lemma py_int_nonneg q : 0 <= q → py_int q = Qfloor q.
Proof.
  intros H. unfold py_int. destruct (Qlt_bool q 0) eqn:E; [|done].
  apply Qlt_bool_iff in E. lra.
Qed.

Lemma rint_bounds q : q - 0.5 <= inject_Z (rint q) ∧ inject_Z (rint q) <= q + 0.5.
Proof.
  unfold rint. pose proof (Qfloor_le q) as Hlo. pose proof (Qlt_floor q) as Hhi.
  rewrite inject_Z_plus in Hhi. change (inject_Z 1) with 1 in Hhi.
  destruct (Qlt_bool (q - inject_Z (Qfloor q)) 0.5) eqn:E1.
  { apply Qlt_bool_iff in E1. split; lra. }
  apply Qlt_bool_false in E1.
  destruct (Qlt_bool 0.5 (q - inject_Z (Qfloor q))) eqn:E2.
  { rewrite inject_Z_plus. change (inject_Z 1) with 1. split; lra. }
  apply Qlt_bool_false in E2.
  destruct (Z.even (Qfloor q)); [split; lra|].
  rewrite inject_Z_plus. change (inject_Z 1) with 1. split; lra.
Qed.

Lemma Qfloor_div60 (z : Z) : Qfloor (inject_Z z / 60) = (z / 60)%Z.
Proof. symmetry. apply (Zdiv_Qdiv z 60). Qed.

Lemma Qfloor_minutes d : 0 <= d →
  inject_Z (60 * Qfloor (d / 60)) <= d ∧ d < inject_Z (60 * Qfloor (d / 60)) + 60.
Proof.
  intros Hd. pose proof (Qfloor_le (d / 60)) as Hlo. pose proof (Qlt_floor (d / 60)) as Hhi.
  rewrite inject_Z_plus in Hhi. change (inject_Z 1) with 1 in Hhi.
  rewrite inject_Z_mult. change (inject_Z 60) with 60.
  assert (d == 60 * (d / 60)) as Hdiv by (field; done).
  split; [rewrite Hdiv at 2|rewrite Hdiv at 1]; lra.
Qed.

Lemma rint_integer_bounds q (lo hi : Z) :
  inject_Z lo <= q → q <= inject_Z hi → (lo ≤ rint q ≤ hi)%Z.
Proof.
  intros Hlo Hhi. destruct (rint_bounds q) as [H1 H2].
  split.
  - cut (lo - 1 < rint q)%Z; [lia|]. rewrite Zlt_Qlt.
    replace (lo - 1)%Z with (lo + - (1))%Z by lia.
    rewrite inject_Z_plus, inject_Z_opp. change (inject_Z 1) with 1. lra.
  - cut (rint q < hi + 1)%Z; [lia|]. rewrite Zlt_Qlt.
    rewrite inject_Z_plus. change (inject_Z 1) with 1. lra.
Qed.

Lemma Qfloor_unique q (n : Z) : inject_Z n <= q → q < inject_Z (n + 1) → Qfloor q = n.
Proof.
  intros Hlo Hhi. pose proof (Qfloor_le q) as H1. pose proof (Qlt_floor q) as H2.
  assert (n < Qfloor q + 1)%Z by (rewrite Zlt_Qlt; lra).
  assert (Qfloor q < n + 1)%Z by (rewrite Zlt_Qlt; lra).
  lia.
Qed.

Lemma Qlt_bool_comp a a' b b' : a == a' → b == b' → Qlt_bool a b = Qlt_bool a' b'.
Proof.
  intros Ha Hb. destruct (Qlt_bool a b) eqn:E1, (Qlt_bool a' b') eqn:E2; try done.
  - apply Qlt_bool_iff in E1. apply Qlt_bool_false in E2. lra.
  - apply Qlt_bool_iff in E2. apply Qlt_bool_false in E1. lra.
Qed.

Lemma rint_sub_even q z : Z.even z = true → rint (q - inject_Z z) = (rint q - z)%Z.
Proof.
  intros Hz. unfold rint.
  assert (Qfloor (q - inject_Z z) = Qfloor q - z)%Z as ->.
  { pose proof (Qfloor_le q) as H1. pose proof (Qlt_floor q) as H2.
    apply Qfloor_unique.
    - unfold Z.sub. rewrite inject_Z_plus, inject_Z_opp. lra.
    - replace (Qfloor q - z + 1)%Z with ((Qfloor q + 1) + - z)%Z by lia.
      rewrite inject_Z_plus, inject_Z_opp. lra. }
  assert (q - inject_Z z - inject_Z (Qfloor q - z) == q - inject_Z (Qfloor q)) as Hr.
  { unfold Z.sub. rewrite inject_Z_plus, inject_Z_opp. ring. }
  rewrite (Qlt_bool_comp _ _ 0.5 0.5 Hr) by reflexivity.
  rewrite (Qlt_bool_comp 0.5 0.5 _ _ (reflexivity _) Hr).
  rewrite Z.even_sub, Hz. destruct (Z.even (Qfloor q)); simpl;
    repeat destruct (Qlt_bool _ _); lia.
Qed.



(** X2. [format_time] of a duration of a minute or more and less than an
    hour shows minutes and seconds that make up the duration rounded to
    the nearest second; the minutes are between 1 and 59, the seconds
    between 0 and 60, both ends included. *)
Theorem format_time_minutes d : 60 <= d → d < 3600 →
  ∃ m sec : Z,
    format_time d = pretty m +:+ " min, " +:+ pretty sec +:+ " s" ∧
    (1 ≤ m ≤ 59)%Z ∧ (0 ≤ sec ≤ 60)%Z ∧ (60 * m + sec = rint d)%Z.
Proof.
  intros Hlo Hhi.
  assert (0 <= d) as Hd0 by lra.
  assert (0 <= d / 60) as Hq by (apply Qle_shift_div_l; lra).
  destruct (Qfloor_minutes d Hd0) as [Hlo' Hhi'].
  assert (1 ≤ Qfloor (d / 60))%Z as Hmin.
  { apply (Qfloor_resp_le 1 (d / 60)). apply Qle_shift_div_l; lra. }
  assert (Qfloor (d / 60) ≤ 59)%Z as Hmax.
  { cut (Qfloor (d / 60) < 60)%Z; [lia|]. rewrite Zlt_Qlt.
    apply Qle_lt_trans with (d / 60); [apply Qfloor_le|].
    change (inject_Z 60) with 60. apply Qlt_shift_div_r; lra. }
  set (minutes := Qfloor (d / 60)) in *.
  exists minutes, (rint (d - inject_Z (minutes * 60))).
  split.
  { unfold format_time. rewrite (py_int_nonneg (d / 60)) by done. fold minutes.
    rewrite decide_False by lia.
    rewrite py_int_nonneg by (apply Qle_shift_div_l; [lra|]; rewrite Qmult_0_l;
                              change 0 with (inject_Z 0); rewrite <- Zle_Qle; lia).
    rewrite Qfloor_div60. rewrite decide_True by (apply Z.div_small; lia).
    reflexivity. }
  split; [lia|].
  replace (minutes * 60)%Z with (60 * minutes)%Z by lia.
  split.
  - apply rint_integer_bounds; change (inject_Z 0) with 0; change (inject_Z 60) with 60; lra.
  - rewrite rint_sub_even; [lia|]. rewrite Z.even_mul. reflexivity.
Qed.

Lemma format_time_minutes_witness :
  ∃ m sec : Z,
    format_time 119.7 = pretty m +:+ " min, " +:+ pretty sec +:+ " s" ∧
    (1 ≤ m ≤ 59)%Z ∧ (0 ≤ sec ≤ 60)%Z ∧ (60 * m + sec = rint 119.7)%Z.
Proof.
  apply (format_time_minutes 119.7); [unfold Qle|unfold Qlt]; simpl; lia.
Defined.

(** ** Setting the position *)

(** X3. [set_position] moves only when both coordinates are given and the
    scanning device is not locked: with a coordinate left out the call
    changes nothing, makes no call to the hardware and still returns 0;
    with the device locked it returns -1. *)
Theorem set_position_ignored dev x y s :
  device_locked dev = true ∨ x = None ∨ y = None →
  set_position dev x y s = (s, Ok (if device_locked dev then -1 else 0)%Z).
Proof.
  intros H. unfold set_position. destruct (device_locked dev); [done|].
  destruct H as [H|[->| ->]]; [done| |]; [|destruct x]; reflexivity.
Qed.

Lemma set_position_ignored_witness :
  set_position bench_device (Some 1) None scanning = (scanning, Ok 0%Z).
Proof. apply (set_position_ignored bench_device (Some 1) None scanning). by right; right. Defined.

(** X4. [set_position] with both coordinates, on a device that is not
    locked: the position is stored before the hardware is asked, so it
    stays stored when [change_position] raises (more than two axes, or the
    hardware refuses); when it returns, it returns 0 after exactly one
    call to the hardware. Nothing else changes. *)
Theorem set_position_moves dev x y s :
  device_locked dev = false →
  let r := set_position dev (Some x) (Some y) s in
  current_position r.1 = (x, y) ∧
  with_hw_calls (hw_calls s) (with_current_position (current_position s) r.1) = s ∧
  (r.2 = Ok 0%Z ↔ (nb_axes dev ≤ 2)%nat ∧ scanner_set_position_ok dev (hw_calls s) = true) ∧
  (r.2 = Ok 0%Z → hw_calls r.1 = S (hw_calls s)).
Proof.
  intros Hdev. unfold set_position, change_position, hw_call. rewrite Hdev.
  destruct s. mrun. case_bool_decide; mrun; attrs.
  - destruct (scanner_set_position_ok _ _); mrun; attrs; cbn; naive_solver.
  - cbn. naive_solver lia.
Qed.

Lemma set_position_moves_witness :
  current_position (set_position bench_device (Some 1) (Some 2) scanning).1 = (1, 2).
Proof.
  refine (proj1 (set_position_moves bench_device 1 2 scanning _)). reflexivity.
Defined.

(** ** Moving to a position *)





Lemma Qeq_bool_true a b : a == b → Qeq_bool a b = true.
Proof. apply Qeq_bool_iff. Qed.












(** ** Starting and resuming a scan *)











(** X8. [start_scanner] on a module that is locked returns -1; the only
    attribute it has changed is [stopRequested], which it has cleared: a
    stop that was requested and not yet served is forgotten. *)
Theorem start_scanner_locked dev s :
  module_state s = locked →
  start_scanner dev s = (with_stopRequested false s, Ok (-1)%Z).
Proof.
  intros H. unfold start_scanner. mrun. attrs. by rewrite decide_True.
Qed.

Lemma start_scanner_locked_witness :
  start_scanner bench_device (with_stopRequested true scanning)
  = (with_stopRequested false (with_stopRequested true scanning), Ok (-1)%Z).
Proof. apply (start_scanner_locked bench_device). reflexivity. Defined.









(** ** Acquisitions *)

Lemma run_known {A B} (m : M A) (f : A → M B) s s1 a :
  m s = (s1, Ok a) → (m ≫= f) s = f a s1.
Proof. intros H. rewrite bind_run. by rewrite H. Qed.

Lemma with_hw_calls_same s : with_hw_calls (hw_calls s) s = s.
Proof. by destruct s. Qed.

Lemma with_hw_calls_twice a b s : with_hw_calls a (with_hw_calls b s) = with_hw_calls a s.
Proof. reflexivity. Qed.

Lemma with_odmr_logic_twice a b s :
  with_odmr_logic a (with_odmr_logic b s) = with_odmr_logic a s.
Proof. reflexivity. Qed.

Lemma run_S hw n s : run hw (S n) s = run hw n (dispatch hw s).
Proof. reflexivity. Qed.

Lemma run_idle hw n s : queue s = [] → run hw n s = s.
Proof.
  intros Hq. induction n as [|n IH]; [done|]. rewrite run_S. unfold dispatch. by rewrite Hq.
Qed.

Lemma dispatch_cons hw s sg q :
  queue s = sg :: q → dispatch hw s = (slot hw sg (with_queue q s)).1.
Proof. unfold dispatch. by intros ->. Qed.

Section Acquisition.
Variable hw : collaborators.

Lemma add_sweeps_returns n c s s' r :
  add_sweeps hw n c s = (s', Ok r) → s' = with_hw_calls (hw_calls s + n) s.
Proof.
  revert c s. induction n as [|n IH]; intros c s H.
  - injection H as <- _. rewrite Nat.add_0_r. by rewrite with_hw_calls_same.
  - cbn [add_sweeps] in H. unfold hw_call in H. mrun_in H.
    destruct (arr2_iadd _ _) as [c'|e]; [|by rewrite run_lift_raise in H].
    rewrite run_lift_ok in H. apply IH in H. rewrite H. attrs.
    rewrite with_hw_calls_twice. f_equal. lia.
Qed.

Lemma scan_odmr_line_returns s s' d :
  scan_odmr_line hw s = (s', Ok d) →
  s' = match d with
       | Some _ => with_hw_calls (hw_calls s + acquisitions s) s
       | None => with_stopRequested true (with_hw_calls (hw_calls s + acquisitions s) s)
       end.
Proof.
  unfold scan_odmr_line, hw_call, acquisitions. intros H. mrun_in H.
  rewrite bind_run in H.
  match type of H with (let (_, _) := ?m in _) = _ =>
    destruct m as [s1 [c|e]] eqn:E; [|done] end.
  assert (s1 = with_hw_calls (hw_calls s + (if bool_decide (1 < number_sweeps s)%Z
                      then S (Z.to_nat (number_sweeps s - 1)) else 1)) s) as ->.
  { case_bool_decide.
    - apply add_sweeps_returns in E. rewrite E. attrs. rewrite with_hw_calls_twice.
      f_equal. lia.
    - injection E as <- _. f_equal. lia. }
  mreturns H. destruct (Qeq_bool _ _).
  - mrun_in H. by injection H as <- <-.
  - destruct (arr2_div _ _) as [r|e]; [|by rewrite run_lift_raise in H].
    mrun_in H. by injection H as <- <-.
Qed.


Lemma treat_data_isob_none t d :
  meas_mode t = "isob" → treat_data None d t = (t, Raise TypeError).
Proof.
  intros Ht. unfold treat_data. mrun. destruct (line_position t) as [lp0 lp1].
  rewrite decide_False by (rewrite Ht; discriminate).
  rewrite decide_True by done. mrun. reflexivity.
Qed.

Lemma scan_pixel_sentinel (s : self_t) v row rest :
  meas_mode s = "isob" → queue s = [] →
  (number_sweeps s ≤ 1)%Z →
  get_odmr_counts hw (hw_calls s) (line_number s) = (v :: row) :: rest →
  v == -1 →
  scan_pixel hw s
    = (with_emitted (emitted s ++ [sigScanPixelOver None (Arr1 [0])])
         (with_queue [sigScanPixelOver None (Arr1 [0])]
            (with_stopRequested true (with_hw_calls (S (hw_calls s)) s))), Ok tt).
Proof.
  intros Hmode Hq Hsweeps Hcounts Hv.
  unfold scan_pixel. mrun. destruct (line_position s) as [lp0 lp1].
  rewrite decide_False by (rewrite Hmode; discriminate).
  rewrite decide_True by done.
  unfold scan_odmr_line, hw_call. mrun.
  rewrite bool_decide_false by lia. mrun. rewrite Hcounts.
  change (getitem ((v :: row) :: rest) 0) with (Ok (v :: row) : result arr1). mrun.
  change (getitem (v :: row) 0) with (Ok v : result Q). mrun.
  apply Qeq_bool_iff in Hv. rewrite Hv. mrun. unfold emit. mrun. attrs.
  unfold modify. cbn [has_slot]. attrs. rewrite Hq. reflexivity.
Qed.

(** X12. In iso-B mode, with one sweep a pixel, when the first sample of
    the acquisition is the fault sentinel -1: [scan_pixel] sets
    [stopRequested] and hands [None] to the data treatment, which raises
    before it writes; [sigNextLine] is not emitted, so the event loop has
    nothing left to run: after any number of turns the module is still
    locked, the stop still pending, the image as it was. *)
Theorem sentinel_leaves_module_locked (s : self_t) v row rest n :
  meas_mode s = "isob" → module_state s = locked → queue s = [] →
  (number_sweeps s ≤ 1)%Z →
  get_odmr_counts hw (hw_calls s) (line_number s) = (v :: row) :: rest →
  v == -1 →
  module_state (run hw (S n) (scan_pixel hw s).1) = locked ∧
  stopRequested (run hw (S n) (scan_pixel hw s).1) = true ∧
  queue (run hw (S n) (scan_pixel hw s).1) = [] ∧
  pl_image (run hw (S n) (scan_pixel hw s).1) = pl_image s ∧
  emitted (run hw (S n) (scan_pixel hw s).1)
  = emitted s ++ [sigScanPixelOver None (Arr1 [0])].
Proof.
  intros Hmode Hlocked Hq Hsweeps Hcounts Hv.
  assert (run hw (S n) (scan_pixel hw s).1
    = with_queue [] (with_emitted (emitted s ++ [sigScanPixelOver None (Arr1 [0])])
         (with_queue [sigScanPixelOver None (Arr1 [0])]
            (with_stopRequested true (with_hw_calls (S (hw_calls s)) s))))) as ->.
  { rewrite (scan_pixel_sentinel s v row rest) by done.
    cbn [fst]. rewrite run_S.
    erewrite dispatch_cons by reflexivity.
    change (slot hw (sigScanPixelOver ?d ?di)) with (treat_data d di).
    rewrite treat_data_isob_none by exact Hmode.
    apply run_idle. reflexivity. }
  attrs. done.
Qed.

Lemma scan_pixel_fullb_state s n s1 data len s2 data_isob :
  meas_mode s ≠ "quenching" → meas_mode s ≠ "isob" →
  sweep_points (_odmr_logic s) = Ok n →
  scan_odmr_line hw (with_line_number n s) = (s1, Ok data) →
  len_row0 data = Ok len → len ≠ 2%nat →
  scan_odmr_line hw (isob_settings s s1) = (s2, Ok data_isob) →
  scan_pixel hw s
  = (with_emitted (emitted s2 ++ [sigScanPixelOver data (to_pydata data_isob)])
       (with_queue (queue s2 ++ [sigScanPixelOver data (to_pydata data_isob)])
          (with_odmr_logic
             (with_o_mw_stop (mw_stop s)
                (with_o_mw_step (mw_step s)
                   (with_o_mw_start (mw_start s) (_odmr_logic s2))))
             s2)), Ok tt).
Proof.
  intros Hq Hi Hn H1 Hlen Hne H2.
  unfold scan_pixel. mrun. destruct (line_position s) as [lp0 lp1].
  rewrite !decide_False by done. rewrite Hn. mrun.
  rewrite (run_known _ _ _ _ _ H1). rewrite Hlen. mrun.
  rewrite decide_False by done. mrun.
  attrs. rewrite !with_odmr_logic_twice. fold (isob_settings s s1).
  rewrite (run_known _ _ _ _ _ H2). mrun. attrs. rewrite !with_odmr_logic_twice.
  unfold emit, modify. cbn [has_slot]. attrs. reflexivity.
Qed.

(** X13. In full-B mode, when the sweep returns a row of samples whose
    length is not 2 and the iso-B acquisition that follows returns too:
    [scan_pixel] returns, having acquired the sweep once and the iso-B pair
    once (no second sweep, whatever the length is against the number of
    points asked for); it hands both to the data treatment in one
    [sigScanPixelOver]; the window of the class is as it was and the ODMR
    logic is set back to it. *)
Theorem scan_pixel_fullb_single_sweep s n s1 data len s2 data_isob :
  meas_mode s ≠ "quenching" → meas_mode s ≠ "isob" →
  sweep_points (_odmr_logic s) = Ok n →
  scan_odmr_line hw (with_line_number n s) = (s1, Ok data) →
  len_row0 data = Ok len → len ≠ 2%nat →
  scan_odmr_line hw (isob_settings s s1) = (s2, Ok data_isob) →
  (scan_pixel hw s).2 = Ok tt ∧
  emitted (scan_pixel hw s).1
  = emitted s ++ [sigScanPixelOver data (to_pydata data_isob)] ∧
  hw_calls (scan_pixel hw s).1 = (hw_calls s + 2 * acquisitions s)%nat ∧
  mw_start (scan_pixel hw s).1 = mw_start s ∧
  mw_stop (scan_pixel hw s).1 = mw_stop s ∧
  mw_step (scan_pixel hw s).1 = mw_step s ∧
  o_mw_start (_odmr_logic (scan_pixel hw s).1) = mw_start s ∧
  o_mw_stop (_odmr_logic (scan_pixel hw s).1) = mw_stop s ∧
  o_mw_step (_odmr_logic (scan_pixel hw s).1) = mw_step s.
Proof.
  intros Hq Hi Hn H1 Hlen Hne H2.
  rewrite (scan_pixel_fullb_state s n s1 data len s2 data_isob) by assumption.
  apply scan_odmr_line_returns in H2. apply scan_odmr_line_returns in H1.
  destruct data as [d|]; [|discriminate]. subst s1.
  unfold isob_settings in H2. attrs_in H2.
  destruct data_isob as [di|]; subst s2; cbn [fst snd]; attrs;
    unfold acquisitions; attrs; (repeat split; try reflexivity; lia).
Qed.

End Acquisition.


Lemma sentinel_leaves_module_locked_witness :
  module_state (run faulty 1 (scan_pixel faulty demo_isob_locked).1) = locked.
Proof.
  refine (proj1 (sentinel_leaves_module_locked faulty demo_isob_locked (-1) [0] [[0; 0]] 0
                   _ _ _ _ _ _)).
  - vm_compute. reflexivity.
  - vm_compute. reflexivity.
  - vm_compute. reflexivity.
  - vm_compute. discriminate.
  - vm_compute. reflexivity.
  - reflexivity.
Defined.

Lemma scan_pixel_fullb_single_sweep_witness :
  (scan_pixel four_samples demo_fullb).2 = Ok tt ∧
  emitted (scan_pixel four_samples demo_fullb).1
  = emitted demo_fullb
    ++ [sigScanPixelOver (Some [[9; 1; 9; 9]; [2; 2; 2; 2]])
          (to_pydata (Some [[4; 3]; [2; 2]]))].
Proof.
  pose proof (scan_pixel_fullb_single_sweep four_samples demo_fullb 3
    (scan_odmr_line four_samples (with_line_number 3 demo_fullb)).1
    (Some [[9; 1; 9; 9]; [2; 2; 2; 2]]) 4
    (scan_odmr_line four_samples
       (isob_settings demo_fullb
          (scan_odmr_line four_samples (with_line_number 3 demo_fullb)).1)).1
    (Some [[4; 3]; [2; 2]])) as H.
  refine (let H' := H _ _ _ _ _ _ _ in conj (proj1 H') (proj1 (proj2 H'))).
  - vm_compute. discriminate.
  - vm_compute. discriminate.
  - vm_compute. reflexivity.
  - vm_compute. reflexivity.
  - reflexivity.
  - lia.
  - vm_compute. reflexivity.
Defined.

(** ** Stopping a scan *)

#[global] Instance only_adds_preorder : PreOrder only_adds.
Proof.
  split.
  - intros s. split; [done|]. split; [by exists []; rewrite app_nil_r|].
    split; [by exists []; rewrite app_nil_r|done].
  - intros s1 s2 s3 (H1 & [r1 E1] & [q1 Q1] & M1) (H2 & [r2 E2] & [q2 Q2] & M2).
    split; [auto|]. split; [exists (r1 ++ r2); by rewrite E2, E1, app_assoc|].
    split; [exists (q1 ++ q2); by rewrite Q2, Q1, app_assoc|congruence].
Qed.

(** An assignment that touches none of the four attributes. *)
Lemma only_adds_frame s s' :
  stopRequested s' = stopRequested s → emitted s' = emitted s →
  queue s' = queue s → module_state s' = module_state s → only_adds s s'.
Proof.
  intros H1 H2 H3 H4. split; [congruence|].
  split; [exists []; by rewrite app_nil_r|]. split; [exists []; by rewrite app_nil_r|done].
Qed.

Lemma keeps_only_adds_emit sg : keeps only_adds (emit sg).
Proof.
  intros s. unfold emit, modify. cbn [fst]. destruct (has_slot sg); attrs.
  - split; [done|]. split; [by eexists|]. split; [by eexists|done].
  - split; [done|]. split; [by eexists|]. split; [exists []; by rewrite app_nil_r|done].
Qed.

Lemma keeps_only_adds_request : keeps only_adds (modify (with_stopRequested true)).
Proof.
  intros s. unfold modify. cbn [fst]. split; [done|].
  split; [exists []; by rewrite app_nil_r|]. split; [exists []; by rewrite app_nil_r|done].
Qed.

Ltac adds_step :=
  lazymatch goal with
  | |- keeps only_adds (emit _) => apply keeps_only_adds_emit
  | |- keeps only_adds (modify (with_stopRequested true)) => apply keeps_only_adds_request
  | |- keeps only_adds (modify _) =>
      apply keeps_modify; intros ?; apply only_adds_frame; reflexivity
  | |- keeps only_adds (with_odmr _) =>
      apply keeps_modify; intros ?; apply only_adds_frame; reflexivity
  | |- keeps only_adds (pl_image_get _ _ _) => intros ?; reflexivity
  | |- keeps only_adds hw_call => unfold hw_call
  | |- keeps _ (if ?c then _ else _) => destruct c
  | |- _ => keeps_step
  end.

Ltac adds_auto := repeat adds_step.

Section Stopping.
Variable hw : collaborators.

Lemma keeps_only_adds_add_sweeps n c : keeps only_adds (add_sweeps hw n c).
Proof. revert c. induction n as [|n IH]; intros c; simpl; adds_auto. apply IH. Qed.

Lemma keeps_only_adds_scan_odmr_line : keeps only_adds (scan_odmr_line hw).
Proof.
  unfold scan_odmr_line. adds_auto. all: try apply keeps_only_adds_add_sweeps.
Qed.

Lemma keeps_only_adds_scan_pixel : keeps only_adds (scan_pixel hw).
Proof.
  unfold scan_pixel. adds_auto. all: try apply keeps_only_adds_scan_odmr_line.
Qed.

Lemma keeps_only_adds_shift_indices : keeps only_adds shift_indices.
Proof. unfold shift_indices. adds_auto. Qed.

Lemma keeps_only_adds_stop_scanning e : keeps only_adds (stop_scanning e).
Proof. unfold stop_scanning. adds_auto. all: apply keeps_only_adds_shift_indices. Qed.

Lemma keeps_only_adds_move_pix : keeps only_adds (move_pix hw).
Proof. unfold move_pix. adds_auto. Qed.

Lemma keeps_only_adds_hpix : keeps only_adds (_hpix hw).
Proof. unfold _hpix, spawn. adds_auto. apply keeps_only_adds_scan_pixel. Qed.

Lemma keeps_only_adds_vpix : keeps only_adds (_vpix hw).
Proof. unfold _vpix, spawn. adds_auto. apply keeps_only_adds_scan_pixel. Qed.



Lemma stop_scanning_returns e s s1 :
  module_state s = locked → stop_scanning e s = (s1, Ok tt) →
  stopRequested s1 = true ∧ module_state s1 = locked ∧ queue s1 = queue s ∧
  emitted s1 = emitted s ++ [sigStopScan e] ∧ hw_calls s1 = hw_calls s ∧
  pl_image s1 = pl_image s.
Proof.
  intros Hl H. unfold stop_scanning, shift_indices in H. mrun_in H.
  rewrite decide_True in H by done. mrun_in H.
  destruct (line_position s) as [lp0 lp1]. mreturns H.
  unfold emit, modify in H. cbn [has_slot] in H. injection H as <-. attrs. done.
Qed.



Lemma reset_position_at_start s x0 y0 :
  line_position s = (0, 0)%Z →
  pl_image_get 0 0 0 s = (s, Ok x0) → pl_image_get 0 0 1 s = (s, Ok y0) →
  (current_position s).1 == x0 → (current_position s).2 == y0 →
  reset_position hw s = (s, Ok (-1)%Z).
Proof.
  intros Hlp Hx Hy Hcx Hcy. unfold reset_position, try_except. mrun.
  rewrite decide_True by done.
  rewrite (run_known _ _ _ _ _ Hx), (run_known _ _ _ _ _ Hy).
  rewrite (Qeq_bool_true _ _ Hcx), (Qeq_bool_true _ _ Hcy). cbn [andb].
  rewrite run_raise. reflexivity.
Qed.

Lemma pl_image_get_Ok r c k s v :
  pl_image_get r c k s = (s, Ok v) →
  ∃ i j, index3 (pl_image s) r c k = Ok (i, j) ∧ pixel (pl_image s) i j k = Some v.
Proof.
  unfold pl_image_get. intros H.
  destruct (index3 (pl_image s) r c k) as [[i j]|] eqn:E; [|by simplify_eq/=].
  exists i, j. split; [done|]. cbn in H.
  destruct (pixel (pl_image s) i j k); by simplify_eq/=.
Qed.

Lemma stop_scanning_at_start s x0 y0 e :
  module_state s = locked → line_position s = (0, 0)%Z →
  pl_image_get 0 0 0 s = (s, Ok x0) → pl_image_get 0 0 1 s = (s, Ok y0) →
  ∃ s1, stop_scanning e s = (s1, Ok tt).
Proof.
  intros Hl Hlp Hx Hy. unfold stop_scanning, shift_indices. mrun.
  rewrite decide_True by done. mrun. attrs. rewrite Hlp.
  destruct (pl_image_get_Ok _ _ _ _ _ Hx) as (i & j & E0 & P0).
  destruct (pl_image_get_Ok _ _ _ _ _ Hy) as (i1 & j1 & E1 & P1).
  destruct (index3_bounds _ _ _ _ _ _ E0) as (Hi & Hj & _).
  rewrite !decide_False by lia. mrun. attrs.
  rewrite run_pl_image_get. attrs. rewrite E0, P0. mrun. attrs.
  rewrite run_pl_image_get. attrs. rewrite E1, P1. mrun.
  by eexists.
Qed.

Lemma keeps_only_adds_scan_line_handler :
  keeps only_adds (stop_scanning false;; emit sigNextLine;; mret (Some (-1)%Z)).
Proof. adds_auto. apply keeps_only_adds_stop_scanning. Qed.

(** X15. A scan that starts while the scanner already stands on the
    first pixel is aborted. With the cursor at (0, 0) and the current
    position equal to the position of the first cell, [reset_position]
    finds no line to scan and returns -1; [_scan_line] then asks for a
    stop: [stopRequested] is set, [sigStopScan(False)] and [sigNextLine]
    are emitted, in this order, before anything else, and the module is
    still locked: the next line will kill the scanner. (The display of
    the remaining time, which [_scan_line] refreshes first, is not part
    of the model.) *)
Theorem scan_line_aborts_at_start s x0 y0 :
  stopRequested s = false → module_state s = locked → line_position s = (0, 0)%Z →
  pl_image_get 0 0 0 s = (s, Ok x0) → pl_image_get 0 0 1 s = (s, Ok y0) →
  (current_position s).1 == x0 → (current_position s).2 == y0 →
  stopRequested (_scan_line hw s).1 = true ∧
  module_state (_scan_line hw s).1 = locked ∧
  (∃ r, emitted (_scan_line hw s).1 = emitted s ++ sigStopScan false :: sigNextLine :: r) ∧
  (∃ r, queue (_scan_line hw s).1 = queue s ++ sigNextLine :: r).
Proof.
  intros Hstop Hl Hlp Hx Hy Hcx Hcy.
  destruct (stop_scanning_at_start s x0 y0 false Hl Hlp Hx Hy) as [s1 Hs1].
  destruct (stop_scanning_returns false s s1 Hl Hs1) as (Hst1 & Hl1 & Hq1 & He1 & _).
  unfold _scan_line. mrun. rewrite Hstop. unfold try_except.
  rewrite (run_known _ _ _ _ _ (reset_position_at_start s x0 y0 Hlp Hx Hy Hcx Hcy)).
  rewrite bool_decide_true by lia. rewrite !run_assoc.
  rewrite (run_known _ _ _ _ _ Hs1). rewrite run_emit. cbn [has_slot].
  set (s2 := with_emitted _ _).
  assert (only_adds s s2) as Hs2.
  { subst s2. split; [by attrs|]. attrs. rewrite He1, Hq1, Hl1, <- app_assoc.
    split; [by eexists|]. split; [by eexists|done]. }
  assert (stopRequested s2 = true ∧ module_state s2 = locked ∧
          emitted s2 = emitted s ++ [sigStopScan false; sigNextLine] ∧
          queue s2 = queue s ++ [sigNextLine]) as (Hst2 & Hl2 & He2 & Hq2).
  { subst s2. attrs. rewrite He1, Hq1, <- app_assoc. done. }
  clearbody s2.
  match goal with |- context [let (_, _) := ?m s2 in _] =>
    assert (keeps only_adds m) as Hrest;
    [ adds_auto; first [apply keeps_only_adds_move_pix | apply keeps_only_adds_hpix
                       | apply keeps_only_adds_vpix ]
    | specialize (Hrest s2); destruct (m s2) as [s3 [a|err]] ]
  end; cbn [fst] in *.
  - destruct Hrest as (H1 & [r1 E1] & [q1 Q1] & M1).
    split; [auto|]. split; [congruence|].
    split; [exists r1|exists q1]; [rewrite E1, He2|rewrite Q1, Hq2];
      by rewrite <- app_assoc.
  - pose proof (keeps_only_adds_scan_line_handler s3) as (H3 & [r3 E3] & [q3 Q3] & M3).
    destruct Hrest as (H1 & [r1 E1] & [q1 Q1] & M1).
    split; [auto|]. split; [congruence|].
    split; [exists (r1 ++ r3)|exists (q1 ++ q3)]; [rewrite E3, E1, He2|rewrite Q3, Q1, Hq2];
      by rewrite <- !app_assoc.
Qed.

End Stopping.


Lemma scan_line_aborts_at_start_witness :
  stopRequested (_scan_line faulty demo_at_start).1 = true.
Proof.
  refine (proj1 (scan_line_aborts_at_start faulty demo_at_start
    (default 0 (pixel (pl_image demo_at_start) 0 0 0))
    (default 0 (pixel (pl_image demo_at_start) 0 0 1)) _ _ _ _ _ _ _)).
  - vm_compute. reflexivity.
  - vm_compute. reflexivity.
  - vm_compute. reflexivity.
  - vm_compute. reflexivity.
  - vm_compute. reflexivity.
  - vm_compute. reflexivity.
  - vm_compute. reflexivity.
Defined.

(** ** Setting the scan parameters *)

Lemma keeps_compute_scan_duration {A} (f : self_t → A) :
  (∀ s v, f (with_duration v s) = f s) → keeps (same f) compute_scan_duration.
Proof. intros. unfold compute_scan_duration. keeps_auto; unfold same; done. Qed.

Lemma keeps_update_duration {A} (f : self_t → A) :
  (∀ s v, f (with_duration v s) = f s) →
  (∀ s v, f (with_emitted v s) = f s) → (∀ s v, f (with_queue v s) = f s) →
  keeps (same f) update_duration.
Proof.
  intros. unfold update_duration. keeps_auto; unfold same; try done.
  by apply keeps_compute_scan_duration.
Qed.

Lemma update_duration_emits s : ∃ r, emitted (update_duration s).1 = emitted s ++ r.
Proof.
  unfold update_duration. rewrite bind_run.
  pose proof (keeps_compute_scan_duration emitted ltac:(done) s) as H.
  destruct (compute_scan_duration s) as [s1 [d|e]]; cbn [fst] in *; unfold same in H.
  - unfold emit. mrun. cbn [has_slot]. unfold modify. cbn [fst]. attrs.
    rewrite H, <- app_assoc. by eexists.
  - rewrite H. exists []. by rewrite app_nil_r.
Qed.

(** X16. [set_clock_frequency(time_clock)] on a module that is not locked:
    a time of zero raises [ZeroDivisionError] before anything is written;
    any other time stores its inverse as the clock frequency of the class
    and of the ODMR logic and announces it first, also when the refresh of
    the duration that follows raises. *)
Theorem set_clock_frequency_inverse s t :
  module_state s = idle →
  if Qeq_bool t 0 then set_clock_frequency (Some t) s = (s, Raise ZeroDivisionError)
  else
    clock_frequency (set_clock_frequency (Some t) s).1 = 1 / t ∧
    o_clock_frequency (_odmr_logic (set_clock_frequency (Some t) s).1) = 1 / t ∧
    ∃ r, emitted (set_clock_frequency (Some t) s).1
         = emitted s ++ sigParamUpdated [("clock_frequency", VNum (1 / t))] :: r.
Proof.
  intros Hidle. unfold set_clock_frequency. mrun. rewrite Hidle. unfold py_div.
  destruct (Qeq_bool t 0); [by mrun|]. mrun. cbn [has_slot].
  rewrite bind_run.
  match goal with |- context [update_duration ?s1] =>
    pose proof (keeps_update_duration clock_frequency ltac:(done) ltac:(done) ltac:(done) s1)
      as Hc;
    pose proof (keeps_update_duration _odmr_logic ltac:(done) ltac:(done) ltac:(done) s1)
      as Ho;
    destruct (update_duration_emits s1) as [r Hr];
    destruct (update_duration s1) as [s2 [[]|e]]
  end; cbn [fst] in *; unfold same in *; attrs_in Hc; attrs_in Ho; attrs_in Hr.
  - unfold gets. cbn [fst]. rewrite Hc, Ho, Hr, <- app_assoc. attrs. split; [done|].
    split; [done|]. by eexists.
  - rewrite Hc, Ho, Hr, <- app_assoc. attrs. split; [done|]. split; [done|]. by eexists.
Qed.

Lemma set_clock_frequency_inverse_witness :
  if Qeq_bool 0 0 then set_clock_frequency (Some 0) bare = (bare, Raise ZeroDivisionError)
  else
    clock_frequency (set_clock_frequency (Some 0) bare).1 = 1 / 0 ∧
    o_clock_frequency (_odmr_logic (set_clock_frequency (Some 0) bare).1) = 1 / 0 ∧
    ∃ r, emitted (set_clock_frequency (Some 0) bare).1
         = emitted bare ++ sigParamUpdated [("clock_frequency", VNum (1 / 0))] :: r.
Proof. apply (set_clock_frequency_inverse bare 0). reflexivity. Defined.

Lemma length_omap_le {A B} (f : A → option B) (l : list A) :
  (length (omap f l) ≤ length l)%nat.
Proof.
  induction l as [|x l IH]; [done|]. cbn [omap list_omap length].
  fold (omap f l). destruct (f x); cbn [length]; lia.
Qed.

Lemma length_py_slice {A} (l : list A) a b : (length (py_slice l a b) ≤ length l)%nat.
Proof.
  unfold py_slice. etransitivity; [apply length_omap_le|].
  unfold slice_indices. rewrite length_seq. unfold clamp_slice.
  repeat case_bool_decide; lia.
Qed.

Lemma getitem_short {A} (l : list A) : (length l < 2)%nat → getitem l 1 = Raise IndexError.
Proof.
  intros H. unfold getitem, py_index.
  destruct l as [|x [|y l]]; [done|done|simpl in H; lia].
Qed.

Lemma update_duration_short_range s :
  (length (range s).1 < 2)%nat → (length (range s).2 < 2)%nat →
  is_ok (update_duration s).2 = false.
Proof.
  intros H1 H2. unfold update_duration, compute_scan_duration. mrun.
  destruct (resolution s) as [res0 res1].
  rewrite !getitem_short by done.
  repeat case_decide; repeat (destruct (py_div _ _)); mrun; done.
Qed.

(** X17. [set_range(range_scan)] on a module that is not locked stores the
    two slices [range_scan[0:2]] and [range_scan[2:4]] as they come and
    announces them before it refreshes the duration: a list of fewer than
    two numbers is stored and announced all the same, and the call then
    raises instead of returning. *)
Theorem set_range_not_checked s range_scan :
  module_state s = idle →
  range (set_range range_scan s).1 = (py_slice range_scan 0 2, py_slice range_scan 2 4) ∧
  (∃ r, emitted (set_range range_scan s).1
        = emitted s ++ sigParamUpdated [("x_range", VList (py_slice range_scan 0 2));
                                        ("y_range", VList (py_slice range_scan 2 4))] :: r) ∧
  ((length range_scan < 2)%nat → is_ok (set_range range_scan s).2 = false).
Proof.
  intros Hidle. unfold set_range. mrun. rewrite Hidle. mrun.
  cbn [has_slot fst snd]. rewrite bind_run.
  match goal with |- context [update_duration ?s1] =>
    pose proof (keeps_update_duration range ltac:(done) ltac:(done) ltac:(done) s1) as Hc;
    destruct (update_duration_emits s1) as [r Hr];
    assert ((length range_scan < 2)%nat → is_ok (update_duration s1).2 = false) as Hu;
    [ intros Hlen; apply update_duration_short_range; attrs; cbn [fst snd];
      [pose proof (length_py_slice range_scan 0 2)|pose proof (length_py_slice range_scan 2 4)];
      lia
    | destruct (update_duration s1) as [s2 [[]|e]] ]
  end; cbn [fst snd] in *; unfold same in *; attrs_in Hc; attrs_in Hr.
  - unfold gets. cbn [fst snd]. rewrite Hc, Hr, <- app_assoc.
    split; [done|]. split; [by eexists|done].
  - rewrite Hc, Hr, <- app_assoc. split; [done|]. split; [by eexists|done].
Qed.

Lemma set_range_not_checked_witness :
  range (set_range [1] bare).1 = (py_slice [1] 0 2, py_slice [1] 2 4) ∧
  (∃ r, emitted (set_range [1] bare).1
        = emitted bare ++ sigParamUpdated [("x_range", VList (py_slice [1] 0 2));
                                           ("y_range", VList (py_slice [1] 2 4))] :: r) ∧
  ((length [1] < 2)%nat → is_ok (set_range [1] bare).2 = false).
Proof. apply (set_range_not_checked bare [1]). reflexivity. Defined.

(** ** The correction of the topography *)

Lemma pixel_cell_alter_ne f i j k a r c k' :
  (i, j, k) ≠ (r, c, k') → pixel (cell_alter f i j k a) r c k' = pixel a r c k'.
Proof.
  intros Hne. unfold pixel, cell_alter.
  destruct (decide (i = r)) as [->|Hi].
  2: { by rewrite list_lookup_alter_ne by done. }
  rewrite list_lookup_alter_eq. destruct (a !! r) as [row|]; simpl; [|done].
  destruct (decide (j = c)) as [->|Hj].
  2: { by rewrite list_lookup_alter_ne by done. }
  rewrite list_lookup_alter_eq. destruct (row !! c) as [cell|]; simpl; [|done].
  rewrite list_lookup_alter_ne; [done|]. congruence.
Qed.







Section Topography.
Variable hw : collaborators.



End Topography.


(** ** Storing two pixels in quenching mode *)

Lemma hslice_two (l0 l1 k : nat) a :
  (l1 < length a)%nat → (S l0 < ncols a)%nat → (k < nchan a)%nat →
  hslice_places (Z.of_nat l1) (Z.of_nat l0) (Z.of_nat l0 + 2) k a
  = Ok [(l1, l0, k); (l1, S l0, k)].
Proof.
  intros H1 H0 Hk. unfold hslice_places. rewrite py_index_nat by done.
  cbn [mbind result_bind]. rewrite bool_decide_true by done.
  unfold slice_indices, clamp_slice. rewrite !bool_decide_false by lia.
  replace (Z.to_nat (0 `max` (Z.of_nat (ncols a) `min` Z.of_nat l0))) with l0 by lia.
  replace (Z.to_nat (0 `max` (Z.of_nat (ncols a) `min` (Z.of_nat l0 + 2)))) with (S (S l0))
    by lia.
  replace (S (S l0) - l0)%nat with 2%nat by lia. reflexivity.
Qed.

Lemma hslice_two_cells_alter (l0 l1 k : nat) f ps vec a :
  (l1 < length a)%nat → (S l0 < ncols a)%nat → (k < nchan a)%nat →
  hslice_places (Z.of_nat l1) (Z.of_nat l0) (Z.of_nat l0 + 2) k (cells_alter f ps vec a)
  = Ok [(l1, l0, k); (l1, S l0, k)].
Proof.
  intros. destruct (shape_cells_alter f ps vec a) as (E1 & E2 & E3).
  apply hslice_two; congruence.
Qed.

Lemma pixel_cells_alter_pair f (i j k : nat) v1 v2 a r c k' :
  pixel (cells_alter f [(i, j, k); (i, S j, k)] [v1; v2] a) r c k'
  = if decide ((r, c, k') = (i, j, k)) then (λ old, f old v1) <$> pixel a r c k'
    else if decide ((r, c, k') = (i, S j, k)) then (λ old, f old v2) <$> pixel a r c k'
    else pixel a r c k'.
Proof.
  rewrite cells_alter_two. cbn [fst snd].
  destruct (decide ((r, c, k') = (i, j, k))) as [[= -> -> ->]|H1].
  - rewrite pixel_cell_alter_eq. rewrite pixel_cell_alter_ne; [done|]. intros [=]. lia.
  - rewrite pixel_cell_alter_ne by congruence.
    destruct (decide ((r, c, k') = (i, S j, k))) as [[= -> -> ->]|H2].
    + apply pixel_cell_alter_eq.
    + apply pixel_cell_alter_ne. congruence.
Qed.

Lemma pixel_cells_alter_pair_other f (i j k : nat) v1 v2 a r c k' :
  ¬ (r = i ∧ (c = j ∨ c = S j) ∧ k' = k) →
  pixel (cells_alter f [(i, j, k); (i, S j, k)] [v1; v2] a) r c k' = pixel a r c k'.
Proof.
  intros H. rewrite pixel_cells_alter_pair.
  rewrite decide_False by (intros [= -> -> ->]; apply H; auto).
  rewrite decide_False by (intros [= -> -> ->]; apply H; auto). done.
Qed.

Lemma pixel_cells_alter_pair_first f (i j k : nat) v1 v2 a :
  pixel (cells_alter f [(i, j, k); (i, S j, k)] [v1; v2] a) i j k
  = (λ old, f old v1) <$> pixel a i j k.
Proof. rewrite pixel_cells_alter_pair. by rewrite decide_True. Qed.

Lemma pixel_cells_alter_pair_second f (i j k : nat) v1 v2 a :
  pixel (cells_alter f [(i, j, k); (i, S j, k)] [v1; v2] a) i (S j) k
  = (λ old, f old v2) <$> pixel a i (S j) k.
Proof.
  rewrite pixel_cells_alter_pair.
  rewrite decide_False by (intros [=]; lia). by rewrite decide_True.
Qed.

Lemma treat_data_quenching_image s d pa ta pb tb ca cb (l0 l1 : nat) :
  meas_mode s = "quenching" → scan_mode s = "_hpix" →
  line_position s = (Z.of_nat l0, Z.of_nat l1) →
  (l1 < length (pl_image s))%nat → (S l0 < ncols (pl_image s))%nat →
  (4 < nchan (pl_image s))%nat →
  topo_hslice (topo_corr s) (Z.of_nat l1) (Z.of_nat l0) (Z.of_nat l0 + 2) = Ok [ca; cb] →
  treat_data (Some [[pa; ta]; [pb; tb]]) d s
  = (with_emitted (emitted s ++ [sigFinishedDataTreatment])
       (with_queue (queue s ++ [sigFinishedDataTreatment])
          (with_pl_image
             (cells_alter assign [(l1, l0, 3%nat); (l1, S l0, 3%nat)] [pa; pb]
                (cells_alter Qplus [(l1, l0, 2%nat); (l1, S l0, 2%nat)]
                   [topo_of s ta - ca; topo_of s tb - cb]
                   (cells_alter assign [(l1, l0, 4%nat); (l1, S l0, 4%nat)]
                      [topo_of s ta; topo_of s tb] (pl_image s))))
             s)), Ok tt).
Proof.
  intros Hmode Hscan Hlp H1 H0 Hk Htc. unfold treat_data. mrun. rewrite Hlp.
  rewrite !decide_True by done.
  change (data_col (Some [[pa; ta]; [pb; tb]]) 1) with (Ok [ta; tb] : result arr1).
  change (data_col (Some [[pa; ta]; [pb; tb]]) 0) with (Ok [pa; pb] : result arr1).
  mrun. rewrite run_pl_image_assign. rewrite hslice_two by (done || lia).
  cbn [length fmap list_fmap].
  change (broadcast_to 2 [topo_of s ta; topo_of s tb])
    with (Ok [topo_of s ta; topo_of s tb] : result arr1).
  repeat (progress (mrun; attrs)).
  rewrite hslice_two_cells_alter by (done || lia). mrun. rewrite Htc. mrun.
  cbn [fmap list_fmap].
  change (broadcast2 Qminus [topo_of s ta; topo_of s tb] [ca; cb])
    with (Ok [topo_of s ta - ca; topo_of s tb - cb] : result arr1).
  mrun. rewrite run_pl_image_assign. attrs.
  rewrite hslice_two_cells_alter by (done || lia). cbn [length].
  change (broadcast_to 2 [topo_of s ta - ca; topo_of s tb - cb])
    with (Ok [topo_of s ta - ca; topo_of s tb - cb] : result arr1).
  repeat (progress (mrun; attrs)). rewrite run_pl_image_assign. attrs.
  destruct (shape_cells_alter assign [(l1, l0, 4%nat); (l1, S l0, 4%nat)]
              [topo_of s ta; topo_of s tb] (pl_image s)) as (E1 & E2 & E3).
  rewrite hslice_two_cells_alter by lia. cbn [length].
  change (broadcast_to 2 [pa; pb]) with (Ok [pa; pb] : result arr1).
  unfold emit, modify. cbn [has_slot]. attrs. reflexivity.
Qed.

(** X19. [treat_data] in quenching mode, horizontal scan, with the two
    samples (counts, z voltage) of the two pixels at the cursor: in the
    row of the cursor, in the cell of the cursor and in the one after it,
    channel 3 takes the counts, channel 4 the raw topography
    [z_scanner_range - coeff_topo * voltage], and channel 2 is raised by
    the raw topography less the correction plane at that cell; no other
    place of the image changes, and [sigFinishedDataTreatment] is
    emitted. *)
Theorem treat_data_quenching s d pa ta pb tb ca cb (l0 l1 : nat) :
  meas_mode s = "quenching" → scan_mode s = "_hpix" →
  line_position s = (Z.of_nat l0, Z.of_nat l1) →
  (l1 < length (pl_image s))%nat → (S l0 < ncols (pl_image s))%nat →
  (4 < nchan (pl_image s))%nat →
  topo_hslice (topo_corr s) (Z.of_nat l1) (Z.of_nat l0) (Z.of_nat l0 + 2) = Ok [ca; cb] →
  let s' := (treat_data (Some [[pa; ta]; [pb; tb]]) d s).1 in
  let old := pixel (pl_image s) l1 in
  let new := pixel (pl_image s') l1 in
  (treat_data (Some [[pa; ta]; [pb; tb]]) d s).2 = Ok tt ∧
  emitted s' = emitted s ++ [sigFinishedDataTreatment] ∧
  (new l0 3%nat = (λ _, pa) <$> old l0 3%nat ∧
   new l0 4%nat = (λ _, topo_of s ta) <$> old l0 4%nat ∧
   new l0 2%nat = (λ z, z + (topo_of s ta - ca)) <$> old l0 2%nat) ∧
  (new (S l0) 3%nat = (λ _, pb) <$> old (S l0) 3%nat ∧
   new (S l0) 4%nat = (λ _, topo_of s tb) <$> old (S l0) 4%nat ∧
   new (S l0) 2%nat = (λ z, z + (topo_of s tb - cb)) <$> old (S l0) 2%nat) ∧
  (∀ r c k, ¬ (r = l1 ∧ (c = l0 ∨ c = S l0) ∧ (k = 2 ∨ k = 3 ∨ k = 4))%nat →
     pixel (pl_image s') r c k = pixel (pl_image s) r c k).
Proof.
  intros Hmode Hscan Hlp H1 H0 Hk Htc s' old new. subst s' old new.
  rewrite (treat_data_quenching_image s d pa ta pb tb ca cb l0 l1) by done.
  cbn [fst snd]. attrs. split; [done|]. split; [done|].
  split; [|split].
  - repeat split;
      repeat first [ rewrite pixel_cells_alter_pair_first
                   | rewrite pixel_cells_alter_pair_other by lia ];
      reflexivity.
  - repeat split;
      repeat first [ rewrite pixel_cells_alter_pair_second
                   | rewrite pixel_cells_alter_pair_other by lia ];
      reflexivity.
  - intros r c k Hn. by rewrite !pixel_cells_alter_pair_other by lia.
Qed.

Lemma treat_data_quenching_witness :
  (treat_data (Some [[5; 1]; [7; 2]]) PyNone demo_quenching).2 = Ok tt.
Proof.
  refine (proj1 (treat_data_quenching demo_quenching PyNone 5 1 7 2 0 0 0 0 _ _ _ _ _ _ _)).
  - vm_compute. reflexivity.
  - vm_compute. reflexivity.
  - vm_compute. reflexivity.
  - vm_compute. lia.
  - vm_compute. lia.
  - vm_compute. lia.
  - vm_compute. reflexivity.
Defined.
(** ** The order of the pixels *)

Lemma grid_shape R C K a :
  grid R C K a → (0 < R)%nat → (0 < C)%nat → ncols a = C ∧ nchan a = K.
Proof.
  intros [HR Hrows] HR0 HC0.
  destruct a as [|row a]; [simpl in HR; lia|].
  apply Forall_cons in Hrows as [[Hrow Hcells] _]. unfold nchan, ncols. simpl.
  split; [done|]. destruct row as [|cell row]; [simpl in Hrow; lia|].
  by apply Forall_cons in Hcells as [Hcell _].
Qed.

Lemma py_index_lt n i k : py_index n i = Ok k → (k < n)%nat.
Proof.
  unfold py_index. repeat case_bool_decide; intros [= <-]; lia.
Qed.

Lemma grid_read R C K s r c k i j :
  grid R C K (pl_image s) → (0 < R)%nat → (0 < C)%nat →
  py_index R r = Ok i → py_index C c = Ok j → (k < K)%nat →
  ∃ v, pixel (pl_image s) i j k = Some v ∧
       ∀ B (f : Q → M B) s', pl_image s' = pl_image s →
         (pl_image_get r c k ≫= f) s' = f v s'.
Proof.
  intros Hg HR HC Hi Hj Hk.
  destruct (grid_shape _ _ _ _ Hg HR HC) as [Hc Hn].
  pose proof (py_index_lt _ _ _ Hi). pose proof (py_index_lt _ _ _ Hj).
  destruct (grid_pixel R C K (pl_image s) i j k Hg) as [v Hv];
    [destruct Hg; lia|lia|lia|].
  exists v. split; [done|]. intros B f s' Hs'. rewrite run_pl_image_get, Hs'.
  unfold index3. destruct Hg as [-> _]. rewrite Hc, Hn, Hi, Hj.
  cbn [mbind]. unfold result_bind. rewrite bool_decide_true by done. by rewrite Hv.
Qed.

Section Raster.
Variable hw : collaborators.

Lemma hpix_end_inside s row :
  getitem (pl_image s) (line_position s).2 = Ok row →
  ((line_position s).1 + incr s < Z.of_nat (length (_X s)))%Z →
  _hpix_end hw s
  = (with_emitted (emitted s ++ [sigPlotsUpdated; sigNextLine])
       (with_queue (queue s ++ [sigNextLine])
          (with_line_position (((line_position s).1 + incr s)%Z, (line_position s).2) s)),
     Ok 0%Z).
Proof.
  intros Hrow Hin. unfold _hpix_end. rewrite bind_run. unfold try_except. mrun.
  rewrite Hrow. destruct (bool_decide (0 < scanline_size s `div` 2)%nat); mrun.
  all: cbn [has_slot]; attrs; rewrite bool_decide_false by lia.
  all: unfold emit, modify; cbn [has_slot]; attrs.
  all: rewrite <- app_assoc; cbn [app].
  all: apply (f_equal (λ x, (x, Ok 0%Z))); self_eq.
Qed.

Lemma hpix_end_next_line s row y1 y0 x (l1 : nat) :
  getitem (pl_image s) (line_position s).2 = Ok row →
  (Z.of_nat (length (_X s)) ≤ (line_position s).1 + incr s)%Z →
  (line_position s).2 = Z.of_nat l1 →
  (Z.of_nat l1 + 1 < Z.of_nat (length (_Y s)))%Z →
  (∀ B (f : Q → M B) s', pl_image s' = pl_image s →
     (pl_image_get (Z.of_nat l1 + 1) (0 - 1) 1 ≫= f) s' = f y1 s') →
  (∀ B (f : Q → M B) s', pl_image s' = pl_image s →
     (pl_image_get (Z.of_nat l1 + 1) 0 1 ≫= f) s' = f y0 s') →
  getitem (_return_X s) (-1) = Ok x →
  return_line_ok hw (hw_calls s) = true →
  _hpix_end hw s
  = (with_emitted (emitted s ++ [sigPlotsUpdated; sigNextLine])
       (with_queue (queue s ++ [sigNextLine])
          (with_hw_calls (S (hw_calls s))
             (with_line_position (0, Z.of_nat l1 + 1)%Z s))),
     Ok 0%Z).
Proof.
  intros Hrow Hout Hl1 Hlast Hy1 Hy0 Hx Hhw.
  unfold _hpix_end. rewrite bind_run. unfold try_except. mrun.
  rewrite Hrow, Hl1.
  destruct (bool_decide (0 < scanline_size s `div` 2)%nat); mrun.
  all: cbn [has_slot]; attrs; rewrite bool_decide_true by lia; mrun.
  all: rewrite bool_decide_false by lia; unfold return_h, hw_call.
  all: repeat (progress (mrun; attrs)).
  all: rewrite Hy1 by (by attrs); mrun; rewrite Hy0 by (by attrs); mrun; attrs; rewrite Hx.
  all: repeat (progress (mrun; attrs)).
  all: rewrite Hhw; repeat (progress (mrun; attrs)); cbn [has_slot]; attrs.
  all: unfold emit, modify; cbn [has_slot]; attrs; rewrite <- app_assoc; cbn [app].
  all: apply (f_equal (λ x, (x, Ok 0%Z))); self_eq.
Qed.

Lemma hpix_end_last s row x y (l1 : nat) :
  module_state s = locked →
  getitem (pl_image s) (line_position s).2 = Ok row →
  (Z.of_nat (length (_X s)) ≤ (line_position s).1 + incr s)%Z →
  (line_position s).2 = Z.of_nat l1 →
  length (_Y s) = S l1 → length (pl_image s) = S l1 → ncols (pl_image s) ≠ 0%nat →
  (∀ B (f : Q → M B) s', pl_image s' = pl_image s →
     (pl_image_get (Z.of_nat l1 + 1 - 1) 0 0 ≫= f) s' = f x s') →
  (∀ B (f : Q → M B) s', pl_image s' = pl_image s →
     (pl_image_get (Z.of_nat l1 + 1 - 1) 0 1 ≫= f) s' = f y s') →
  _hpix_end hw s
  = (with_emitted (emitted s ++ [sigPlotsUpdated; sigStopScan true; sigNextLine])
       (with_queue (queue s ++ [sigNextLine])
          (with_line_position (0, 0)%Z
             (with_current_position (x, y) (with_stopRequested true s)))),
     Ok 0%Z).
Proof.
  intros Hl Hrow Hout Hl1 HY HR HC Hx Hy.
  unfold _hpix_end. rewrite bind_run. unfold try_except. mrun.
  rewrite Hrow, Hl1.
  destruct (bool_decide (0 < scanline_size s `div` 2)%nat); mrun.
  all: cbn [has_slot]; attrs; rewrite bool_decide_true by lia; mrun.
  all: rewrite bool_decide_true by lia; unfold stop_scanning at 1; unfold shift_indices at 1.
  all: repeat (progress (mrun; attrs)).
  all: rewrite (decide_True (P := module_state s = locked)) by done.
  all: repeat (progress (mrun; attrs)).
  all: rewrite (decide_True (P := (Z.of_nat l1 + 1)%Z = _)) by lia.
  all: rewrite (decide_False (P := 0%Z = _)) by lia.
  all: rewrite Hx by (by attrs); mrun; attrs; rewrite Hy by (by attrs).
  all: repeat (progress (mrun; attrs)); cbn [has_slot]; attrs.
  all: unfold emit, modify; cbn [has_slot fst snd]; attrs; rewrite <- !app_assoc; cbn [app].
  all: apply (f_equal (λ x, (x, Ok 0%Z))); self_eq.
Qed.

(** X20. [_hpix_end] walks the image in raster order. On a grid of [R]
    rows and [C] columns with as many positions in [_X] and [_Y], a
    retrace array that is not empty and a positioner that accepts the
    retrace, with the cursor inside the grid and not on the last pixel:
    the cursor moves by [incr] along the row, or, when that leaves the
    row, to the first column of the next row after one line scan of the
    hardware; it stays inside the grid, [sigPlotsUpdated] and
    [sigNextLine] are emitted, in this order, and neither the stop
    request nor the image changes. *)
Theorem hpix_end_raster s R C K (l0 l1 : nat) :
  grid R C K (pl_image s) → (2 ≤ K)%nat →
  length (_X s) = C → length (_Y s) = R → _return_X s ≠ [] →
  return_line_ok hw (hw_calls s) = true →
  line_position s = (Z.of_nat l0, Z.of_nat l1) → (l0 < C)%nat → (l1 < R)%nat →
  (0 < incr s)%Z →
  (Z.of_nat l0 + incr s < Z.of_nat C)%Z ∨ (S l1 < R)%nat →
  let s' := (_hpix_end hw s).1 in
  let inside := bool_decide (Z.of_nat l0 + incr s < Z.of_nat C)%Z in
  (_hpix_end hw s).2 = Ok 0%Z ∧
  line_position s'
  = (if inside then (Z.of_nat l0 + incr s, Z.of_nat l1) else (0, Z.of_nat l1 + 1))%Z ∧
  (0 ≤ (line_position s').1 < Z.of_nat C)%Z ∧ (0 ≤ (line_position s').2 < Z.of_nat R)%Z ∧
  hw_calls s' = (if inside then hw_calls s else S (hw_calls s)) ∧
  emitted s' = emitted s ++ [sigPlotsUpdated; sigNextLine] ∧
  queue s' = queue s ++ [sigNextLine] ∧
  stopRequested s' = stopRequested s ∧ pl_image s' = pl_image s.
Proof.
  intros Hg HK HX HY Hret Hhw Hlp Hl0 Hl1 Hincr Hnot s' inside. subst s' inside.
  assert (length (pl_image s) = R) as HR by (by destruct Hg).
  destruct (lookup_lt_is_Some_2 (pl_image s) l1) as [row Hrow]; [lia|].
  assert (getitem (pl_image s) (line_position s).2 = Ok row) as Hget.
  { rewrite Hlp. cbn [snd]. by apply getitem_lookup. }
  pose proof Hget as Hget'. rewrite Hlp in Hget'. cbn [snd] in Hget'.
  case_bool_decide as Hin.
  - rewrite (hpix_end_inside s row) by (rewrite ?Hlp; cbn [fst snd]; (done || lia)).
    cbn [fst snd]. attrs. rewrite Hlp. cbn [fst snd]. repeat split; (done || lia).
  - assert (S l1 < R)%nat as Hnext by (destruct Hnot; [lia|done]).
    destruct (grid_read R C K s (Z.of_nat l1 + 1) (0 - 1) 1 (S l1) (pred C) Hg)
      as (y1 & _ & Hy1); [lia|lia|..|lia|].
    { unfold py_index. rewrite bool_decide_true by lia. f_equal. lia. }
    { unfold py_index. rewrite bool_decide_false by lia.
      rewrite bool_decide_true by lia. f_equal. lia. }
    destruct (grid_read R C K s (Z.of_nat l1 + 1) 0 1 (S l1) 0%nat Hg)
      as (y0 & _ & Hy0); [lia|lia|..|lia|].
    { unfold py_index. rewrite bool_decide_true by lia. f_equal. lia. }
    { unfold py_index. by rewrite bool_decide_true by lia. }
    destruct (last (_return_X s)) as [x|] eqn:Hx;
      [|by apply last_None in Hx].
    rewrite (hpix_end_next_line s row y1 y0 x l1);
      rewrite ?Hlp; cbn [fst snd]; try (done || lia); [|by apply getitem_last].
    cbn [fst snd]. attrs. cbn [fst snd]. repeat split; (done || lia).
Qed.

(** X21. The last pixel ends the scan. On a locked module, with the
    cursor in the last row and the next step leaving the row,
    [_hpix_end] calls [stop_scanning(end=True)]: the stop is requested,
    the current position becomes the position of the first cell of the
    last row, the cursor goes back to (0, 0), the signals emitted are
    [sigPlotsUpdated], [sigStopScan(True)] and [sigNextLine], in this
    order, and no call goes to the hardware: the scanner is not
    retraced. *)
Theorem hpix_end_finishes s R C K (l0 l1 : nat) :
  module_state s = locked →
  grid R C K (pl_image s) → (2 ≤ K)%nat →
  length (_X s) = C → length (_Y s) = R →
  line_position s = (Z.of_nat l0, Z.of_nat l1) → (l0 < C)%nat → S l1 = R →
  (Z.of_nat C ≤ Z.of_nat l0 + incr s)%Z →
  let s' := (_hpix_end hw s).1 in
  (_hpix_end hw s).2 = Ok 0%Z ∧
  stopRequested s' = true ∧ module_state s' = locked ∧
  line_position s' = (0, 0)%Z ∧
  pixel (pl_image s) l1 0 0 = Some (current_position s').1 ∧
  pixel (pl_image s) l1 0 1 = Some (current_position s').2 ∧
  hw_calls s' = hw_calls s ∧
  emitted s' = emitted s ++ [sigPlotsUpdated; sigStopScan true; sigNextLine] ∧
  queue s' = queue s ++ [sigNextLine] ∧ pl_image s' = pl_image s.
Proof.
  intros Hl Hg HK HX HY Hlp Hl0 Hl1 Hout s'. subst s'.
  assert (length (pl_image s) = R) as HR by (by destruct Hg).
  destruct (grid_shape _ _ _ _ Hg ltac:(lia) ltac:(lia)) as [Hc Hn].
  destruct (lookup_lt_is_Some_2 (pl_image s) l1) as [row Hrow]; [lia|].
  assert (getitem (pl_image s) (line_position s).2 = Ok row) as Hget.
  { rewrite Hlp. cbn [snd]. by apply getitem_lookup. }
  pose proof Hget as Hget'. rewrite Hlp in Hget'. cbn [snd] in Hget'.
  destruct (grid_read R C K s (Z.of_nat l1 + 1 - 1) 0 0 l1 0%nat Hg)
    as (x & Px & Hx); [lia|lia|..|lia|].
  { unfold py_index. rewrite bool_decide_true by lia. f_equal. lia. }
  { unfold py_index. by rewrite bool_decide_true by lia. }
  destruct (grid_read R C K s (Z.of_nat l1 + 1 - 1) 0 1 l1 0%nat Hg)
    as (y & Py & Hy); [lia|lia|..|lia|].
  { unfold py_index. rewrite bool_decide_true by lia. f_equal. lia. }
  { unfold py_index. by rewrite bool_decide_true by lia. }
  rewrite (hpix_end_last s row x y l1);
    rewrite ?Hlp; cbn [fst snd]; attrs; cbn [fst snd]; first [done | lia | repeat split; done].
Qed.

End Raster.

Lemma hpix_end_raster_witness :
  (_hpix_end faulty demo_isob).2 = Ok 0%Z.
Proof.
  refine (proj1 (hpix_end_raster faulty demo_isob 2 2 7 1 0 _ _ _ _ _ _ _ _ _ _ _)).
  - vm_compute. split; [reflexivity|]. repeat constructor.
  - lia.
  - vm_compute. reflexivity.
  - vm_compute. reflexivity.
  - vm_compute. discriminate.
  - vm_compute. reflexivity.
  - vm_compute. reflexivity.
  - lia.
  - lia.
  - vm_compute. reflexivity.
  - right. lia.
Defined.

Lemma hpix_end_finishes_witness :
  (_hpix_end faulty (with_line_position (1, 1)%Z demo_isob_locked)).2 = Ok 0%Z.
Proof.
  refine (proj1 (hpix_end_finishes faulty (with_line_position (1, 1)%Z demo_isob_locked)
                   2 2 7 1 1 _ _ _ _ _ _ _ _ _)).
  - vm_compute. reflexivity.
  - vm_compute. split; [reflexivity|]. repeat constructor.
  - lia.
  - vm_compute. reflexivity.
  - vm_compute. reflexivity.
  - vm_compute. reflexivity.
  - lia.
  - reflexivity.
  - vm_compute. discriminate.
Defined.
(** ** The sweep parameters *)

Lemma Qle_bool_false a b : a < b → Qle_bool b a = false.
Proof.
  intros H. destruct (Qle_bool b a) eqn:E; [|done].
  apply Qle_bool_iff in E. apply Qle_not_lt in E. done.
Qed.

Lemma Qle_bool_true a b : a < b → Qle_bool a b = true.
Proof. intros H. apply Qle_bool_iff. by apply Qlt_le_weak. Qed.

Section Sweep.
Variable hw : collaborators.

(** X22. [set_sweep_parameters_isob] does not depend on the order of its
    two frequencies: given in either order, the lower one becomes the
    start of the sweep and [freq1], the higher one the stop and [freq2],
    each as the hardware limits return it; the step is the limit of
    their difference, the number of lines is 2, and the two frequencies
    are announced by one [sigParamUpdated]. *)
Theorem set_sweep_parameters_isob_order s f1 f2 :
  f1 < f2 →
  set_sweep_parameters_isob hw (Some f2) (Some f1) s
  = set_sweep_parameters_isob hw (Some f1) (Some f2) s ∧
  let r := set_sweep_parameters_isob hw (Some f1) (Some f2) s in
  r.2 = Ok (frequency_in_range hw f1, frequency_in_range hw f2,
            sweep_step_in_range hw (f2 - f1)) ∧
  freq1 r.1 = frequency_in_range hw f1 ∧ freq2 r.1 = frequency_in_range hw f2 ∧
  _odmr_logic r.1
  = with_o_mw_step (sweep_step_in_range hw (f2 - f1))
      (with_o_mw_start (frequency_in_range hw f1)
         (with_o_mw_stop (frequency_in_range hw f2) (_odmr_logic s))) ∧
  line_number r.1 = 2%Z ∧
  emitted r.1 = emitted s ++ [sigParamUpdated [("freq1", VNum (frequency_in_range hw f1));
                                                ("freq2", VNum (frequency_in_range hw f2))]].
Proof.
  intros Hlt. unfold set_sweep_parameters_isob.
  rewrite (Qle_bool_false _ _ Hlt), (Qle_bool_true _ _ Hlt).
  split; [reflexivity|]. cbn zeta. repeat (progress (mrun; attrs)). cbn [has_slot fst snd]. attrs.
  unfold mret, M_ret. cbn [fst snd]. attrs. repeat split.
Qed.

(** X23. [set_sweep_parameters_fullb] with a step that the limits turn
    into zero raises [ZeroDivisionError] when it counts the points of the
    sweep. By then the sweep window is written, in the ODMR logic and in
    [mw_start], [mw_step] and [mw_stop]; the number of lines, the field
    bounds, the threshold, the high-field step and the number of sweeps
    are not, and nothing is announced. *)
Theorem set_sweep_parameters_fullb_zero_step s start stop lo hi step hf n th :
  frequency_in_range hw step == 0 →
  let r := set_sweep_parameters_fullb hw start stop lo hi step hf n th s in
  let first := if Qle_bool stop start then stop else start in
  let last_ := if Qle_bool stop start then start else stop in
  r.2 = Raise ZeroDivisionError ∧
  _odmr_logic r.1
  = with_o_mw_step (frequency_in_range hw step)
      (with_o_mw_start (frequency_in_range hw first)
         (with_o_mw_stop (frequency_in_range hw last_) (_odmr_logic s))) ∧
  (mw_start r.1, mw_stop r.1, mw_step r.1)
  = (frequency_in_range hw first, frequency_in_range hw last_, frequency_in_range hw step) ∧
  (line_number r.1, min_fullb r.1, max_fullb r.1, threshold r.1, mw_step_hf r.1,
   number_sweeps r.1)
  = (line_number s, min_fullb s, max_fullb s, threshold s, mw_step_hf s, number_sweeps s) ∧
  emitted r.1 = emitted s.
Proof.
  intros Hz r first last_. subst r first last_.
  unfold set_sweep_parameters_fullb.
  destruct (Qle_bool stop start); repeat (progress (mrun; attrs)).
  all: unfold sweep_points, py_div; attrs; rewrite (Qeq_bool_true _ _ Hz).
  all: cbn [mbind result_bind]; mrun; cbn [fst snd]; attrs; repeat split.
Qed.

End Sweep.

Lemma set_sweep_parameters_isob_order_witness :
  set_sweep_parameters_isob faulty (Some 2) (Some 1) demo
  = set_sweep_parameters_isob faulty (Some 1) (Some 2) demo.
Proof.
  refine (proj1 (set_sweep_parameters_isob_order faulty demo 1 2 _)). reflexivity.
Defined.

Lemma set_sweep_parameters_fullb_zero_step_witness :
  (set_sweep_parameters_fullb faulty 1 2 1 2 0 1 1 2 demo).2 = Raise ZeroDivisionError.
Proof.
  refine (proj1 (set_sweep_parameters_fullb_zero_step faulty demo 1 2 1 2 0 1 1 2 _)).
  vm_compute. reflexivity.
Defined.

(** ** The way back to the first pixel *)

Section Reset.
Variable hw : collaborators.

Lemma keeps_reset_position {A} (f : self_t → A) :
  (∀ s v, f (with_stopRequested v s) = f s) → (∀ s v, f (with_hw_calls v s) = f s) →
  (∀ s v, f (with_emitted v s) = f s) → (∀ s v, f (with_queue v s) = f s) →
  keeps (same f) (reset_position hw).
Proof.
  intros. unfold reset_position, hw_call. keeps_auto; unfold same; try done.
  all: by intros ?.
Qed.

(** X24. [reset_position] never raises: it returns 0 or -1. It leaves the
    image, the cursor and [current_position] as they are (the line scan
    to the first pixel is sent to the hardware, the stored position is
    not updated), and calls the hardware at most once. When the cursor is
    not at (0, 0) it does nothing at all and returns 0. *)
Theorem reset_position_outcome s :
  let r := reset_position hw s in
  (r.2 = Ok 0%Z ∨ r.2 = Ok (-1)%Z) ∧
  pl_image r.1 = pl_image s ∧ current_position r.1 = current_position s ∧
  line_position r.1 = line_position s ∧
  (hw_calls r.1 = hw_calls s ∨ hw_calls r.1 = S (hw_calls s)) ∧
  (line_position s ≠ (0, 0)%Z → r = (s, Ok 0%Z)).
Proof.
  intros r. subst r.
  split; [|split; [|split; [|split; [|split]]]].
  - unfold reset_position, try_except.
    match goal with |- context [let (_, _) := ?m s in _] =>
      destruct (m s) as [s' [a|e]] eqn:E end; cbn [snd]; [|by right].
    left. f_equal. mrun_in E.
    destruct (decide (line_position s = (0, 0)%Z)).
    2: { by injection E as _ <-. }
    mreturns E.
    destruct (Qeq_bool _ _ && Qeq_bool _ _); [by rewrite run_raise in E|].
    mreturns E. unfold hw_call in E. mreturns E.
    destruct (start_line_reply hw _); mreturns E.
    + by injection E as _ <-.
    + by injection E as _ <-.
    + done.
  - apply (keeps_reset_position pl_image); done.
  - apply (keeps_reset_position current_position); done.
  - apply (keeps_reset_position line_position); done.
  - unfold reset_position, try_except, hw_call. mrun.
    destruct (decide _); [|left; reflexivity].
    rewrite run_pl_image_get.
    destruct (index3 _ _ _ 0) as [[i j]|]; [|left; reflexivity].
    destruct (pixel _ _ _ 0); [|left; reflexivity].
    mrun. rewrite run_pl_image_get.
    destruct (index3 _ _ _ 1) as [[i' j']|]; [|left; reflexivity].
    destruct (pixel _ _ _ 1); [|left; reflexivity].
    destruct (Qeq_bool _ _ && Qeq_bool _ _); mrun; [left; reflexivity|].
    destruct (arange (Qmin (current_position s).1 _) _ _); mrun; [|left; reflexivity].
    destruct (arange _ _ _); mrun; [|left; reflexivity].
    destruct (start_line_reply hw _); mrun; cbn [has_slot fst]; attrs; right; reflexivity.
  - intros Hne. unfold reset_position, try_except. mrun. by rewrite decide_False.
Qed.

End Reset.

Lemma reset_position_outcome_witness :
  reset_position faulty demo_isob = (demo_isob, Ok 0%Z).
Proof.
  refine (proj2 (proj2 (proj2 (proj2 (proj2 (reset_position_outcome faulty demo_isob))))) _).
  vm_compute. discriminate.
Defined.
(** ** One pixel of a quenching scan *)

Lemma pl_image_get_pixel {B} (r c k : nat) v (f : Q → M B) s :
  (r < length (pl_image s))%nat → (c < ncols (pl_image s))%nat →
  (k < nchan (pl_image s))%nat → pixel (pl_image s) r c k = Some v →
  (pl_image_get (Z.of_nat r) (Z.of_nat c) k ≫= f) s = f v s.
Proof.
  intros Hr Hc Hk Hv. rewrite run_pl_image_get. unfold index3.
  rewrite !py_index_nat by done. cbn [mbind result_bind].
  rewrite bool_decide_true by done. by rewrite Hv.
Qed.

Section Cycle.
Variable hw : collaborators.

Lemma reset_position_off_start s :
  line_position s ≠ (0, 0)%Z → reset_position hw s = (s, Ok 0%Z).
Proof. intros Hne. unfold reset_position, try_except. mrun. by rewrite decide_False. Qed.

Lemma move_pix_moves s (l0 l1 : nat) x y :
  line_position s = (Z.of_nat l0, Z.of_nat l1) →
  (l1 < length (pl_image s))%nat → (l0 < ncols (pl_image s))%nat →
  (1 < nchan (pl_image s))%nat →
  pixel (pl_image s) l1 l0 0 = Some x → pixel (pl_image s) l1 l0 1 = Some y →
  write_scanner_ao_ok hw (hw_calls s) = true →
  move_pix hw s
  = (with_hw_calls (S (hw_calls s)) (with_current_position (x, y) s), Ok 0%Z).
Proof.
  intros Hlp H1 H0 Hk Hx Hy Hw. unfold move_pix, hw_call. mrun. rewrite Hlp.
  rewrite (pl_image_get_pixel l1 l0 0 x) by (done || lia). mrun.
  rewrite (pl_image_get_pixel l1 l0 1 y) by (attrs; (done || lia)).
  repeat (progress (mrun; attrs)). rewrite Hw. reflexivity.
Qed.

Lemma scan_pixel_quenching s (l0 l1 : nat) x0 x1 y0 y1 :
  meas_mode s = "quenching" → scan_mode s = "_hpix" →
  line_position s = (Z.of_nat l0, Z.of_nat l1) →
  (l1 < length (pl_image s))%nat → (S l0 < ncols (pl_image s))%nat →
  (1 < nchan (pl_image s))%nat →
  pixel (pl_image s) l1 l0 0 = Some x0 → pixel (pl_image s) l1 (S l0) 0 = Some x1 →
  pixel (pl_image s) l1 l0 1 = Some y0 → pixel (pl_image s) l1 (S l0) 1 = Some y1 →
  let sg := sigScanPixelOver (Some (scan_line hw (hw_calls s) [[x0; x1]; [y0; y1]]))
              (Arr1 [0]) in
  scan_pixel hw s
  = (with_emitted (emitted s ++ [sg])
       (with_queue (queue s ++ [sg]) (with_hw_calls (S (hw_calls s)) s)), Ok tt).
Proof.
  intros Hmode Hscan Hlp H1 H0 Hk Hx0 Hx1 Hy0 Hy1 sg. subst sg.
  unfold scan_pixel, hw_call. mrun. rewrite Hlp. rewrite !decide_True by done.
  rewrite !hslice_two by (done || lia). mrun.
  unfold read_places. cbn [omap list_omap]. rewrite Hx0, Hx1, Hy0, Hy1. cbn [mbind option_bind].
  repeat (progress (mrun; attrs)). cbn [has_slot].
  reflexivity.
Qed.

Lemma scan_line_quenching s (l0 l1 : nat) x0 x1 y0 y1 :
  stopRequested s = false →
  meas_mode s = "quenching" → scan_mode s = "_hpix" →
  line_position s = (Z.of_nat l0, Z.of_nat l1) → (0 < l0 + l1)%nat →
  (l1 < length (pl_image s))%nat → (S l0 < ncols (pl_image s))%nat →
  (1 < nchan (pl_image s))%nat →
  pixel (pl_image s) l1 l0 0 = Some x0 → pixel (pl_image s) l1 (S l0) 0 = Some x1 →
  pixel (pl_image s) l1 l0 1 = Some y0 → pixel (pl_image s) l1 (S l0) 1 = Some y1 →
  write_scanner_ao_ok hw (hw_calls s) = true →
  let sg := sigScanPixelOver (Some (scan_line hw (S (hw_calls s)) [[x0; x1]; [y0; y1]]))
              (Arr1 [0]) in
  _scan_line hw s
  = (with_emitted (emitted s ++ [sg])
       (with_queue (queue s ++ [sg])
          (with_hw_calls (S (S (hw_calls s))) (with_current_position (x0, y0) s))),
     Ok None).
Proof.
  intros Hstop Hmode Hscan Hlp Hne H1 H0 Hk Hx0 Hx1 Hy0 Hy1 Hw sg. subst sg.
  unfold _scan_line. mrun. rewrite Hstop. unfold try_except at 1.
  rewrite (run_known _ _ _ _ _ (reset_position_off_start s ltac:(rewrite Hlp; intros [=]; lia))).
  rewrite bool_decide_false by lia. mrun. rewrite !decide_True by done.
  unfold move_hpix.
  rewrite (run_known _ _ _ _ _ (move_pix_moves s l0 l1 x0 y0 Hlp H1 ltac:(lia) Hk Hx0 Hy0 Hw)).
  rewrite bool_decide_false by lia. unfold _hpix, spawn. mrun.
  rewrite bind_run. unfold try_except.
  rewrite (scan_pixel_quenching _ l0 l1 x0 x1 y0 y1) by (attrs; done).
  attrs. reflexivity.
Qed.

Lemma run_0 n s : n = 0%nat → run hw n s = s.
Proof. by intros ->. Qed.

Lemma quenching_cycle_state s (l0 l1 : nat) x0 x1 y0 y1 pa ta pb tb ca cb :
  queue s = [sigNextLine] → stopRequested s = false →
  meas_mode s = "quenching" → scan_mode s = "_hpix" → incr s = 2%Z →
  line_position s = (Z.of_nat l0, Z.of_nat l1) → (0 < l0 + l1)%nat →
  (l1 < length (pl_image s))%nat → (S l0 < ncols (pl_image s))%nat →
  (4 < nchan (pl_image s))%nat →
  (Z.of_nat l0 + 2 < Z.of_nat (length (_X s)))%Z →
  pixel (pl_image s) l1 l0 0 = Some x0 → pixel (pl_image s) l1 (S l0) 0 = Some x1 →
  pixel (pl_image s) l1 l0 1 = Some y0 → pixel (pl_image s) l1 (S l0) 1 = Some y1 →
  write_scanner_ao_ok hw (hw_calls s) = true →
  scan_line hw (S (hw_calls s)) [[x0; x1]; [y0; y1]] = [[pa; ta]; [pb; tb]] →
  topo_hslice (topo_corr s) (Z.of_nat l1) (Z.of_nat l0) (Z.of_nat l0 + 2) = Ok [ca; cb] →
  run hw 3 s
  = with_emitted
      (emitted s ++ [sigScanPixelOver (Some [[pa; ta]; [pb; tb]]) (Arr1 [0]);
                     sigFinishedDataTreatment; sigPlotsUpdated; sigNextLine])
      (with_queue [sigNextLine]
         (with_line_position (Z.of_nat l0 + 2, Z.of_nat l1)%Z
            (with_pl_image
               (cells_alter assign [(l1, l0, 3%nat); (l1, S l0, 3%nat)] [pa; pb]
                  (cells_alter Qplus [(l1, l0, 2%nat); (l1, S l0, 2%nat)]
                     [topo_of s ta - ca; topo_of s tb - cb]
                     (cells_alter assign [(l1, l0, 4%nat); (l1, S l0, 4%nat)]
                        [topo_of s ta; topo_of s tb] (pl_image s))))
               (with_hw_calls (S (S (hw_calls s)))
                  (with_current_position (x0, y0) s))))).
Proof.
  intros Hq Hstop Hmode Hscan Hincr Hlp Hne H1 H0 Hk HX Hx0 Hx1 Hy0 Hy1 Hw Hdata Htc.
  rewrite !run_S, run_0 by done.
  (* sigNextLine: _scan_line *)
  rewrite (dispatch_cons hw s sigNextLine []) by done.
  change (slot hw sigNextLine) with (_ ← _scan_line hw; mret (M := M) tt).
  pose proof (scan_line_quenching (with_queue [] s) l0 l1 x0 x1 y0 y1
                Hstop Hmode Hscan Hlp Hne H1 H0 ltac:(attrs; lia) Hx0 Hx1 Hy0 Hy1 Hw) as E1.
  cbn zeta in E1. attrs_in E1. rewrite Hdata in E1. cbn [app] in E1.
  rewrite (run_known _ _ _ _ _ E1). clear E1. unfold mret at 1, M_ret at 1. cbn [fst].
  (* sigScanPixelOver: treat_data *)
  match goal with |- context [dispatch hw (dispatch hw ?x)] =>
    rewrite (dispatch_cons hw x (sigScanPixelOver (Some [[pa; ta]; [pb; tb]]) (Arr1 [0])) [])
      by (attrs; reflexivity)
  end.
  change (slot hw (sigScanPixelOver ?d ?di)) with (treat_data d di).
  rewrite (treat_data_quenching_image _ (Arr1 [0]) pa ta pb tb ca cb l0 l1)
    by (attrs; done).
  cbn [fst]. unfold topo_of. attrs. fold (topo_of s ta). fold (topo_of s tb). cbn [app].
  (* sigFinishedDataTreatment: move_after_scan_pixel *)
  match goal with |- context [dispatch hw ?x] =>
    rewrite (dispatch_cons hw x sigFinishedDataTreatment []) by (attrs; reflexivity)
  end.
  change (slot hw sigFinishedDataTreatment) with (move_after_scan_pixel hw).
  unfold move_after_scan_pixel, spawn. mrun. attrs. rewrite decide_True by done.
  unfold try_except. rewrite bind_run.
  match goal with |- context [_hpix_end hw ?x] =>
    destruct (lookup_lt_is_Some_2 (pl_image x) l1) as [row Hrow];
      [ attrs; by rewrite !(proj1 (shape_cells_alter _ _ _ _)) |];
    rewrite (hpix_end_inside hw x row)
  end.
  - unfold mret, M_ret. cbn [fst]. attrs. rewrite Hlp, Hincr. cbn [fst snd].
    rewrite <- !app_assoc. cbn [app]. self_eq.
  - attrs. rewrite Hlp. cbn [snd]. by apply getitem_lookup.
  - attrs. rewrite Hlp, Hincr. cbn [fst]. lia.
Qed.

(** X25. One pixel pair of a quenching scan, from [sigNextLine] to the
    next [sigNextLine]. With no stop pending, the cursor on a pixel that
    is not the first of the image and at least two pixels before the end
    of its row, a positioner that accepts the move and a counter that
    returns two samples (counts, z voltage): three turns of the event
    loop run [_scan_line], [treat_data] and [_hpix_end]. After them the
    queue holds [sigNextLine] again, the cursor is two pixels further in
    the same row, the current position is the position of the pixel that
    was scanned, the hardware was called twice (one move, one
    acquisition), the image is the one [treat_data] makes of the two
    samples, and the signals emitted are [sigScanPixelOver],
    [sigFinishedDataTreatment], [sigPlotsUpdated] and [sigNextLine], in
    this order. (The display of the remaining time, which [_scan_line]
    refreshes first, is not part of the model.) *)
Theorem quenching_pixel_cycle s (l0 l1 : nat) x0 x1 y0 y1 pa ta pb tb ca cb :
  queue s = [sigNextLine] → stopRequested s = false →
  meas_mode s = "quenching" → scan_mode s = "_hpix" → incr s = 2%Z →
  line_position s = (Z.of_nat l0, Z.of_nat l1) → (0 < l0 + l1)%nat →
  (l1 < length (pl_image s))%nat → (S l0 < ncols (pl_image s))%nat →
  (4 < nchan (pl_image s))%nat →
  (Z.of_nat l0 + 2 < Z.of_nat (length (_X s)))%Z →
  pixel (pl_image s) l1 l0 0 = Some x0 → pixel (pl_image s) l1 (S l0) 0 = Some x1 →
  pixel (pl_image s) l1 l0 1 = Some y0 → pixel (pl_image s) l1 (S l0) 1 = Some y1 →
  write_scanner_ao_ok hw (hw_calls s) = true →
  scan_line hw (S (hw_calls s)) [[x0; x1]; [y0; y1]] = [[pa; ta]; [pb; tb]] →
  topo_hslice (topo_corr s) (Z.of_nat l1) (Z.of_nat l0) (Z.of_nat l0 + 2) = Ok [ca; cb] →
  let s3 := run hw 3 s in
  queue s3 = [sigNextLine] ∧ stopRequested s3 = false ∧
  line_position s3 = (Z.of_nat l0 + 2, Z.of_nat l1)%Z ∧
  current_position s3 = (x0, y0) ∧
  hw_calls s3 = S (S (hw_calls s)) ∧
  emitted s3 = emitted s ++ [sigScanPixelOver (Some [[pa; ta]; [pb; tb]]) (Arr1 [0]);
                             sigFinishedDataTreatment; sigPlotsUpdated; sigNextLine] ∧
  pl_image s3 = pl_image (treat_data (Some [[pa; ta]; [pb; tb]]) (Arr1 [0]) s).1.
Proof.
  intros Hq Hstop Hmode Hscan Hincr Hlp Hne H1 H0 Hk HX Hx0 Hx1 Hy0 Hy1 Hw Hdata Htc s3.
  subst s3.
  rewrite (quenching_cycle_state s l0 l1 x0 x1 y0 y1 pa ta pb tb ca cb) by done.
  rewrite (treat_data_quenching_image s (Arr1 [0]) pa ta pb tb ca cb l0 l1) by done.
  cbn [fst]. attrs. repeat split; done.
Qed.

Lemma move_pix_refused s (l0 l1 : nat) x y :
  line_position s = (Z.of_nat l0, Z.of_nat l1) →
  (l1 < length (pl_image s))%nat → (l0 < ncols (pl_image s))%nat →
  (1 < nchan (pl_image s))%nat →
  pixel (pl_image s) l1 l0 0 = Some x → pixel (pl_image s) l1 l0 1 = Some y →
  write_scanner_ao_ok hw (hw_calls s) = false →
  move_pix hw s
  = (with_hw_calls (S (hw_calls s)) (with_current_position (x, y) s), Ok (-1)%Z).
Proof.
  intros Hlp H1 H0 Hk Hx Hy Hw. unfold move_pix, hw_call. mrun. rewrite Hlp.
  rewrite (pl_image_get_pixel l1 l0 0 x) by (done || lia). mrun.
  rewrite (pl_image_get_pixel l1 l0 1 y) by (attrs; (done || lia)).
  repeat (progress (mrun; attrs)). rewrite Hw. reflexivity.
Qed.

(** X26. A pixel move that the positioner refuses halts the scan without
    ending it. With [sigNextLine] pending, no stop requested and the
    cursor not on the first pixel, when [_write_scanner_ao] raises,
    [_scan_line] returns -1 and emits nothing: after any number of turns
    of the event loop the queue is empty, the module state is what it
    was (still locked during a scan), no stop is requested, the image is
    unchanged, and the current position is the one of the pixel that was
    not reached. (The display of the remaining time, which [_scan_line]
    refreshes first, is not part of the model.) *)
Theorem refused_move_halts_scan s (l0 l1 : nat) x y n :
  queue s = [sigNextLine] → stopRequested s = false →
  scan_mode s = "_hpix" →
  line_position s = (Z.of_nat l0, Z.of_nat l1) → (0 < l0 + l1)%nat →
  (l1 < length (pl_image s))%nat → (l0 < ncols (pl_image s))%nat →
  (1 < nchan (pl_image s))%nat →
  pixel (pl_image s) l1 l0 0 = Some x → pixel (pl_image s) l1 l0 1 = Some y →
  write_scanner_ao_ok hw (hw_calls s) = false →
  run hw (S n) s
  = with_queue [] (with_hw_calls (S (hw_calls s)) (with_current_position (x, y) s)).
Proof.
  intros Hq Hstop Hscan Hlp Hne H1 H0 Hk Hx Hy Hw.
  rewrite run_S. rewrite (dispatch_cons hw s sigNextLine []) by done.
  change (slot hw sigNextLine) with (_ ← _scan_line hw; mret (M := M) tt).
  assert (_scan_line hw (with_queue [] s)
          = (with_hw_calls (S (hw_calls s))
               (with_current_position (x, y) (with_queue [] s)), Ok (Some (-1)%Z))) as E.
  { unfold _scan_line. mrun. attrs. rewrite Hstop. unfold try_except at 1.
    rewrite (run_known _ _ _ _ _
               (reset_position_off_start (with_queue [] s)
                  ltac:(attrs; rewrite Hlp; intros [=]; lia))).
    rewrite bool_decide_false by lia. mrun. attrs. rewrite !decide_True by done.
    unfold move_hpix.
    rewrite (run_known _ _ _ _ _
               (move_pix_refused (with_queue [] s) l0 l1 x y Hlp H1 H0 Hk Hx Hy Hw)).
    rewrite bool_decide_true by lia. reflexivity. }
  rewrite (run_known _ _ _ _ _ E). unfold mret, M_ret. cbn [fst].
  rewrite run_idle by (attrs; reflexivity). self_eq.
Qed.

End Cycle.

Lemma quenching_pixel_cycle_witness :
  queue (run faulty 3 demo_quenching_line) = [sigNextLine].
Proof.
  refine (proj1 (quenching_pixel_cycle faulty demo_quenching_line 0 1
                   (0 # 24000) (16000 # 24000) (40 # 20) (40 # 20) 0 0 0 0 0 0
                   _ _ _ _ _ _ _ _ _ _ _ _ _ _ _ _ _ _)).
  all: vm_compute; first [reflexivity | lia].
Defined.

Lemma refused_move_halts_scan_witness :
  run (stuck_positioner faulty) 5 demo_quenching_line
  = with_queue [] (with_hw_calls 1 (with_current_position (0 # 24000, 40 # 20)
                                      demo_quenching_line)).
Proof.
  refine (refused_move_halts_scan (stuck_positioner faulty) demo_quenching_line 0 1
            (0 # 24000) (40 # 20) 4 _ _ _ _ _ _ _ _ _ _ _).
  all: vm_compute; first [reflexivity | lia].
Defined.
